(** * Shipment calculator (vinted.py): a shallow embedding and its properties

    The development follows the layout of [src/vinted.py]:
    - [PyStr]    the string methods the program calls ([split], [strip],
                 [join], slicing), on strings of code points below 256;
    - [PyFloat]  Python floats as IEEE 754 binary64 values (the Standard
                 Library's [spec_float] at precision 53), with the [.2f]
                 format;
    - [PyTime]   [datetime.datetime.strptime] at the format [%Y-%m-%d];
    - the program itself: [PRICES], [check_transaction],
      [validate_transactions], [calculate_discount], [process_transactions],
      then [read_transactions], [write_output] and [main];
    - the properties.

    Exceptions are modelled by [option]: [None] is a raised [KeyError]
    (pricing) or [ValueError] (date parsing). *)

From Stdlib Require Import ZArith Floats.SpecFloat Strings.Ascii Strings.String
  Numbers.DecimalString.
From stdpp Require Import gmap strings list.

Local Open Scope string_scope.

(* ===================================================================== *)
(** ** Python strings *)
(* ===================================================================== *)

Module PyStr.

(** [str.isspace] on one character. Below 128 CPython consults its table
    of ASCII whitespace (TAB..CR and FS..US and the space); between 128
    and 255 only NEL (133) and NBSP (160) are whitespace. *)
Definition isspace (c : ascii) : bool :=
  let n := N_of_ascii c in
  ((9 <=? n) && (n <=? 13) || (28 <=? n) && (n <=? 32) || (n =? 133) || (n =? 160))%N.

(** [s.split()] without separator: the maximal runs of non-whitespace
    characters, in order. [word] is the run being read. *)
Fixpoint split_from (s word : string) : list string :=
  match s with
  | "" => if String.eqb word "" then [] else [word]
  | String c s' =>
      if isspace c
      then (if String.eqb word "" then split_from s' "" else word :: split_from s' "")
      else split_from s' (word ++ String c "")
  end.

Definition split (s : string) : list string := split_from s "".

Fixpoint lstrip (s : string) : string :=
  match s with
  | "" => ""
  | String c s' => if isspace c then lstrip s' else s
  end.

Fixpoint rstrip (s : string) : string :=
  match s with
  | "" => ""
  | String c s' =>
      match rstrip s' with
      | "" => if isspace c then "" else String c ""
      | r => String c r
      end
  end.

(** [s.strip()] *)
Definition strip (s : string) : string := rstrip (lstrip s).

(** [sep.join(parts)] *)
Fixpoint join (sep : string) (parts : list string) : string :=
  match parts with
  | [] => ""
  | [p] => p
  | p :: rest => p ++ sep ++ join sep rest
  end.

(** [s[:n]] *)
Definition slice_to (n : nat) (s : string) : string := substring 0 n s.

(** [t[-1]] guarded by [len(t) > 0] *)
Definition last_item (t : list string) : option string := last t.

End PyStr.

(* ===================================================================== *)
(** ** Python floats *)
(* ===================================================================== *)

Module PyFloat.

Definition float : Type := spec_float.

Definition prec : Z := 53.

Definition emax : Z := 1024.

Definition add : float -> float -> float := SFadd prec emax.

Definition sub : float -> float -> float := SFsub prec emax.

Definition eqb : float -> float -> bool := SFeqb.

Definition ltb : float -> float -> bool := SFltb.

Definition leb : float -> float -> bool := SFleb.

(** [a > b] and [a != b] *)
Definition gtb (a b : float) : bool := ltb b a.

Definition neqb (a b : float) : bool := negb (eqb a b).

(** [min(a, b)]: the first argument unless the second is smaller. *)
Definition min (a b : float) : float := if ltb b a then b else a.

Definition of_Z (n : Z) : float := binary_normalize prec emax n 0 false.

(** A decimal literal [n / 10^k] is read as the nearest binary64 value;
    the correctly rounded quotient of the two integers, both exact here,
    is that value. *)
Definition literal (n : Z) (k : nat) : float :=
  SFdiv prec emax (of_Z n) (of_Z (10 ^ Z.of_nat k)).

Definition zero : float := S754_zero false.

(** [|x| * 100] rounded to the nearest integer, ties to even, for
    [|x| = m * 2^e]: the digits that [.2f] prints. *)
Definition cents_abs (m : positive) (e : Z) : Z :=
  let n := (100 * Z.pos m)%Z in
  match e with
  | Z.neg p =>
      let d := (2 ^ Z.pos p)%Z in
      let q := (n / d)%Z in
      let r := (n mod d)%Z in
      match (2 * r ?= d)%Z with
      | Lt => q
      | Gt => (q + 1)%Z
      | Eq => if Z.even q then q else (q + 1)%Z
      end
  | _ => (n * 2 ^ e)%Z
  end.

(** The amount in cents that [.2f] shows (0 for the non-finite values). *)
Definition cents (x : float) : Z :=
  match x with
  | S754_finite s m e => if s then (- cents_abs m e)%Z else cents_abs m e
  | _ => 0%Z
  end.

Definition decimal (n : Z) : string :=
  NilZero.string_of_uint (N.to_uint (Z.to_N n)).

Definition digit_char (d : Z) : ascii := ascii_of_N (48 + Z.to_N d).

Definition sign_text (s : bool) : string := if s then "-" else "".

Definition fixed2 (c : Z) : string :=
  decimal (c / 100) ++ "."
    ++ String (digit_char ((c / 10) mod 10)) (String (digit_char (c mod 10)) "").

(** Neither [nan] nor an infinity. *)
Definition finite (x : float) : bool :=
  match x with
  | S754_zero _ | S754_finite _ _ _ => true
  | _ => false
  end.

(** [f"{x:.2f}"] *)
Definition format_2f (x : float) : string :=
  match x with
  | S754_nan => "nan"
  | S754_infinity s => sign_text s ++ "inf"
  | S754_zero s => sign_text s ++ "0.00"
  | S754_finite s m e => sign_text s ++ fixed2 (cents_abs m e)
  end.

End PyFloat.

(* ===================================================================== *)
(** ** [datetime.datetime.strptime(text, "%Y-%m-%d")] *)
(* ===================================================================== *)

Module PyTime.

Definition code (c : ascii) : Z := Z.of_N (N_of_ascii c).

Definition between (lo hi : ascii) (c : ascii) : bool :=
  ((code lo <=? code c) && (code c <=? code hi))%Z.

(** [\d]: among the code points below 256 the decimal digits are 0-9. *)
Definition is_digit : ascii -> bool := between "0" "9".

Definition is_char (a c : ascii) : bool := Ascii.eqb a c.

(** [int(text)] on a text of digits, around which [int] allows whitespace *)
Fixpoint int_from (acc : Z) (s : string) : Z :=
  match s with
  | "" => acc
  | String c s' => int_from (10 * acc + (code c - 48)) s'
  end.

Definition int (s : string) : Z := int_from 0 (PyStr.strip s).

(** A fragment of a regular expression, run at the head of a string:
    every way to match it, as (text consumed, rest), in the order in
    which the backtracking matcher of [re] tries them. *)
Definition matcher : Type := string -> list (string * string).

Definition one (p : ascii -> bool) : matcher := fun s =>
  match s with
  | String a r => if p a then [(String a "", r)] else []
  | _ => []
  end.

Definition two (p q : ascii -> bool) : matcher := fun s =>
  match s with
  | String a (String b r) => if p a && q b then [(String a (String b ""), r)] else []
  | _ => []
  end.

Definition four (p : ascii -> bool) : matcher := fun s =>
  match s with
  | String a (String b (String c (String d r))) =>
      if p a && p b && p c && p d
      then [(String a (String b (String c (String d ""))), r)] else []
  | _ => []
  end.

Definition alt (f g : matcher) : matcher := fun s => (f s ++ g s)%list.

(** [%Y] is [\d\d\d\d] *)
Definition re_Y : matcher := four is_digit.

(** [%m] is [1[0-2]|0[1-9]|[1-9]] *)
Definition re_m : matcher :=
  alt (two (is_char "1") (between "0" "2"))
 (alt (two (is_char "0") (between "1" "9"))
      (one (between "1" "9"))).

(** [%d] is [3[0-1]|[1-2]\d|0[1-9]|[1-9]| [1-9]] *)
Definition re_d : matcher :=
  alt (two (is_char "3") (between "0" "1"))
 (alt (two (between "1" "2") is_digit)
 (alt (two (is_char "0") (between "1" "9"))
 (alt (one (between "1" "9"))
      (two (is_char " ") (between "1" "9"))))).

Definition dash : matcher := one (is_char "-").

(** [format_regex.match(text)]: the first match of
    [(%Y)-(%m)-(%d)] at the start of the text, with what follows it. *)
Definition re_match (s : string) : option (string * string * string * string) :=
  head ('(y, r1) ← re_Y s; '(_, r2) ← dash r1;
        '(m, r3) ← re_m r2; '(_, r4) ← dash r3;
        '(d, r5) ← re_d r4; [(y, m, d, r5)]).

Definition is_leap (year : Z) : bool :=
  ((year mod 4 =? 0) && (negb (year mod 100 =? 0) || (year mod 400 =? 0)))%Z.

Definition days_in_month (year month : Z) : Z :=
  if (month =? 2)%Z then (if is_leap year then 29 else 28)%Z
  else if ((month =? 4) || (month =? 6) || (month =? 9) || (month =? 11))%Z then 30%Z
  else 31%Z.

(** The range checks of the [date] constructor (MINYEAR = 1,
    MAXYEAR = 9999). *)
Definition check_date_fields (year month day : Z) : bool :=
  ((1 <=? year) && (year <=? 9999) && (1 <=? month) && (month <=? 12)
   && (1 <=? day) && (day <=? days_in_month year month))%Z.

(** [None] is the [ValueError]: the text does not match the format,
    unconverted data remains, or the fields are no calendar date. *)
Definition strptime_Ymd (s : string) : option (Z * Z * Z) :=
  match re_match s with
  | None => None
  | Some (y, m, d, rest) =>
      if String.eqb rest "" then
        (if check_date_fields (int y) (int m) (int d)
         then Some (int y, int m, int d) else None)
      else None
  end.

End PyTime.

(* ===================================================================== *)
(** ** The program *)
(* ===================================================================== *)

Import PyStr PyFloat PyTime.

(** Constants of vendors and shipment pricings *)
Definition PRICES : gmap string (gmap string float) :=
  {[ "LP" := {[ "S" := literal 150 2; "M" := literal 490 2; "L" := literal 690 2 ]};
     "MR" := {[ "S" := literal 200 2; "M" := literal 300 2; "L" := literal 400 2 ]} ]}.

Definition valid_sizes : gset string := {[ "S"; "M"; "L" ]}.

Definition valid_providers : gset string := {[ "LP"; "MR" ]}.

(** A tuple of strings: [(date, size, provider)] or [(transaction, 'Ignored')]. *)
Abbreviation entry := (list string).

Definition Ignored (transaction : string) : entry := [transaction; "Ignored"].

Definition check_transaction (transaction : string) : entry :=
  match split transaction with
  | [date; size; provider] =>
      match strptime_Ymd date with
      | None => Ignored transaction
      | Some _ =>
          if bool_decide (size ∉ valid_sizes) || bool_decide (provider ∉ valid_providers)
          then Ignored transaction
          else [date; size; provider]
      end
  | _ => Ignored transaction
  end.

Definition validate_transactions (raw_transactions : list string) : list entry :=
  check_transaction <$> raw_transactions.

(** One value of [tracking_data]: [{"L_LP_count": _, "discount": _}]. *)
Record month_data : Type := MonthData { L_LP_count : nat; discount : float }.

Definition fresh_month : month_data := MonthData 0 zero.

Abbreviation tracking := (gmap string month_data).

(** [tracking_data[year_month]] on the [defaultdict]: a missing key is
    first bound to a fresh record. *)
Definition getitem (year_month : string) (t : tracking) : month_data * tracking :=
  match t !! year_month with
  | Some r => (r, t)
  | None => (fresh_month, <[year_month := fresh_month]> t)
  end.

(** [tracking_data[year_month]["L_LP_count"] += 1] *)
Definition incr_count (year_month : string) (t : tracking) : tracking :=
  let '(r, t) := getitem year_month t in
  <[year_month := MonthData (S (L_LP_count r)) (discount r)]> t.

(** [tracking_data[year_month]["discount"] += amount] *)
Definition add_discount (year_month : string) (amount : float) (t : tracking) : tracking :=
  let '(r, t) := getitem year_month t in
  <[year_month := MonthData (L_LP_count r) (add (discount r) amount)]> t.

(** [PRICES[provider][size]] *)
Definition price_of (provider size : string) : option float :=
  PRICES !! provider ≫= (.!! size).

Definition monthly_limit : float := literal 100 1.

Definition calculate_discount (size provider year_month : string) (tracking_data : tracking)
  : option (float * float * tracking) :=
  if String.eqb size "L" && String.eqb provider "LP" then
    let tracking_data := incr_count year_month tracking_data in
    let '(r, tracking_data) := getitem year_month tracking_data in
    let current_count := L_LP_count r in
    if Nat.eqb current_count 3 then
      discount_amount ← price_of provider "L";
      let '(r, tracking_data) := getitem year_month tracking_data in
      let total_discount := add (discount r) discount_amount in
      if gtb total_discount monthly_limit then
        let '(r, tracking_data) := getitem year_month tracking_data in
        let discount_amount := sub monthly_limit (discount r) in
        let tracking_data := add_discount year_month discount_amount tracking_data in
        base ← price_of provider "L";
        let new_price := sub base discount_amount in
        Some (new_price, discount_amount, tracking_data)
      else
        let tracking_data := add_discount year_month discount_amount tracking_data in
        Some (zero, discount_amount, tracking_data)
    else
      base ← price_of provider "L";
      Some (base, zero, tracking_data)
  else if String.eqb size "S" then
    lp ← price_of "LP" "S";
    mr ← price_of "MR" "S";
    let lowest_price_size_s := min lp mr in
    base ← price_of provider "S";
    let discount_amount := sub base lowest_price_size_s in
    if neqb discount_amount (of_Z 0) then
      let '(r, tracking_data) := getitem year_month tracking_data in
      if gtb (add (discount r) discount_amount) monthly_limit then
        let '(r, tracking_data) := getitem year_month tracking_data in
        let discount_amount := sub monthly_limit (discount r) in
        let tracking_data := add_discount year_month discount_amount tracking_data in
        base ← price_of provider "S";
        let new_price := sub base discount_amount in
        Some (new_price, discount_amount, tracking_data)
      else
        let tracking_data := add_discount year_month discount_amount tracking_data in
        Some (lowest_price_size_s, discount_amount, tracking_data)
    else
      base ← price_of provider "S";
      Some (base, zero, tracking_data)
  else
    prices ← PRICES !! provider;
    Some (default zero (prices !! size), zero, tracking_data).

(** [entry[-1] == "Ignored"] on a non-empty tuple *)
Definition is_ignored (e : entry) : bool :=
  match last_item e with
  | Some s => String.eqb s "Ignored"
  | None => false
  end.

(** [processed_transactions.append(line)] *)
Definition append_line (processed_transactions : list string) (line : string) : list string :=
  (processed_transactions ++ [line])%list.

(** One iteration of the loop of [process_transactions]. *)
Definition process_entry (e : entry) (tracking_data : tracking) (processed_transactions : list string)
  : option (list string * tracking) :=
  if is_ignored e then
    let cleaned_transaction := join " " (strip <$> e) in
    Some (append_line processed_transactions cleaned_transaction, tracking_data)
  else
    match e with
    | [date; size; provider] =>
        let year_month := slice_to 7 date in
        prices ← PRICES !! provider;
        let price := default zero (prices !! size) in
        '(new_price, discount_amount, tracking_data) ←
          calculate_discount size provider year_month tracking_data;
        if eqb new_price price && eqb discount_amount zero then
          Some (append_line processed_transactions
                  (date ++ " " ++ size ++ " " ++ provider ++ " " ++ format_2f price ++ " -"),
                tracking_data)
        else
          Some (append_line processed_transactions
                  (date ++ " " ++ size ++ " " ++ provider ++ " "
                     ++ format_2f new_price ++ " " ++ format_2f discount_amount),
                tracking_data)
    | _ => Some (processed_transactions, tracking_data)
    end.

Fixpoint process_loop (transactions : list entry) (tracking_data : tracking)
    (processed_transactions : list string) : option (list string * tracking) :=
  match transactions with
  | [] => Some (processed_transactions, tracking_data)
  | e :: rest =>
      '(processed_transactions, tracking_data) ←
        process_entry e tracking_data processed_transactions;
      process_loop rest tracking_data processed_transactions
  end.

Definition process_transactions (transactions : list entry) : option (list string) :=
  fst <$> process_loop transactions ∅ [].

(** [main] without the file and the console: validate, then process. *)
Definition pipeline (raw_transactions : list string) : option (list string) :=
  process_transactions (validate_transactions raw_transactions).

(* ===================================================================== *)
(** ** The shapes of the validator's results *)
(* ===================================================================== *)

(** A tuple of three with a known size and a known provider. *)
Definition priced_shape (e : entry) : bool :=
  match e with
  | [_; size; provider] =>
      bool_decide (size ∈ valid_sizes) && bool_decide (provider ∈ valid_providers)
  | _ => false
  end.

(** A text and the marker. *)
Definition ignored_shape (e : entry) : bool :=
  match e with
  | [_; marker] => String.eqb marker "Ignored"
  | _ => false
  end.

(** What [process_transactions] expects: every result of
    [check_transaction] has one of the two shapes. *)
Definition validated (e : entry) : bool := priced_shape e || ignored_shape e.

(** The year-month key of a priced entry. *)
Definition month_key (e : entry) : string :=
  match e with
  | date :: _ => slice_to 7 date
  | [] => ""
  end.

(** The textual form YYYY-MM-DD: four digits, a dash, two digits, a dash,
    two digits. *)
Definition iso_form (s : string) : bool :=
  match s with
  | String y1 (String y2 (String y3 (String y4 (String s1
      (String m1 (String m2 (String s2 (String d1 (String d2 ""))))))))) =>
      is_digit y1 && is_digit y2 && is_digit y3 && is_digit y4 && is_char "-" s1
      && is_digit m1 && is_digit m2 && is_char "-" s2 && is_digit d1 && is_digit d2
  | _ => false
  end.

(* ===================================================================== *)
(** ** The texts that [strptime] accepts *)
(* ===================================================================== *)

Definition digit_chars : list ascii :=
  ["0"; "1"; "2"; "3"; "4"; "5"; "6"; "7"; "8"; "9"]%char.

(** One digit, or two. *)
Definition digits12 (a : ascii) (b : option ascii) : string :=
  match b with
  | None => String a ""
  | Some b => String a (String b "")
  end.

Definition one_or_two_digits (s : string) : bool :=
  match s with
  | String a "" => is_digit a
  | String a (String b "") => is_digit a && is_digit b
  | _ => false
  end.

Definition four_digits (s : string) : bool :=
  match s with
  | String a (String b (String c (String d ""))) =>
      is_digit a && is_digit b && is_digit c && is_digit d
  | _ => false
  end.

(** A space and a digit, which [%d] accepts as well. *)
Definition space_digit (s : string) : bool :=
  match s with
  | String a (String b "") => is_char " " a && between "1" "9" b
  | _ => false
  end.

(** What [re_match] goes on to try once the four digits [y] of the year are
    read. *)
Definition after_year (y r1 : string) : list (string * string * string * string) :=
  '(_, r2) ← dash r1; '(m, r3) ← re_m r2; '(_, r4) ← dash r3;
  '(d, r5) ← re_d r4; [(y, m, d, r5)].

(** A month in 1..12 and a day in 1..31. *)
Definition in_ranges (month day : Z) : bool :=
  ((1 <=? month) && (month <=? 12) && (1 <=? day) && (day <=? 31))%Z.

(** On a month and a day of one or two digits each, the match takes both
    whole exactly when they are in range. *)
Definition lenient_check (y M D : string) : bool :=
  match head (after_year y (String "-" (M ++ String "-" D))) with
  | Some (_, m, d, "") => String.eqb m M && String.eqb d D && in_ranges (int M) (int D)
  | _ => negb (in_ranges (int M) (int D))
  end.

Definition digit_options : list (option ascii) := None :: (Some <$> digit_chars).

(** No character of the string is whitespace. *)
Fixpoint no_space (s : string) : bool :=
  match s with
  | "" => true
  | String c s' => negb (isspace c) && no_space s'
  end.

(* ===================================================================== *)
(** ** The tracking map, one month at a time *)
(* ===================================================================== *)

(** The record of a month as the program sees it: the stored one, or the
    fresh one that the [defaultdict] would create. *)
Definition item (year_month : string) (t : tracking) : month_data :=
  default fresh_month (t !! year_month).

Definition discount_used (year_month : string) (t : tracking) : float :=
  discount (item year_month t).

(** The base price of the six valid combinations. *)
Definition base_price (provider size : string) : float :=
  default zero (price_of provider size).

(** What [calculate_discount] does to the record of its own month:
    the new price, the discount, and the record written back ([None] when
    the month is not touched). *)
Definition calc_local (size provider : string) (r : month_data)
  : option (float * float * option month_data) :=
  if String.eqb size "L" && String.eqb provider "LP" then
    let n := S (L_LP_count r) in
    if Nat.eqb n 3 then
      discount_amount ← price_of provider "L";
      if gtb (add (discount r) discount_amount) monthly_limit then
        let granted := sub monthly_limit (discount r) in
        base ← price_of provider "L";
        Some (sub base granted, granted, Some (MonthData n (add (discount r) granted)))
      else
        Some (zero, discount_amount, Some (MonthData n (add (discount r) discount_amount)))
    else
      base ← price_of provider "L";
      Some (base, zero, Some (MonthData n (discount r)))
  else if String.eqb size "S" then
    lp ← price_of "LP" "S";
    mr ← price_of "MR" "S";
    base ← price_of provider "S";
    let candidate := sub base (min lp mr) in
    if neqb candidate (of_Z 0) then
      if gtb (add (discount r) candidate) monthly_limit then
        let granted := sub monthly_limit (discount r) in
        base ← price_of provider "S";
        Some (sub base granted, granted,
              Some (MonthData (L_LP_count r) (add (discount r) granted)))
      else
        Some (min lp mr, candidate,
              Some (MonthData (L_LP_count r) (add (discount r) candidate)))
    else
      base ← price_of provider "S";
      Some (base, zero, None)
  else
    prices ← PRICES !! provider;
    Some (default zero (prices !! size), zero, None).

Definition commit (year_month : string) (t : tracking) (r : option month_data) : tracking :=
  match r with
  | Some r => <[year_month := r]> t
  | None => t
  end.

(** Granting the candidate discount [candidate] at the budget value [d] on
    a shipment of base price [base], which costs [reduced] when the whole
    candidate is granted: the price, the discount and the new budget value,
    as both rules of [calculate_discount] compute them. *)
Definition grant (candidate base reduced d : float) : float * float * float :=
  if gtb (add d candidate) monthly_limit then
    (sub base (sub monthly_limit d), sub monthly_limit d, add d (sub monthly_limit d))
  else
    (reduced, candidate, add d candidate).

(* ===================================================================== *)
(** ** The values of the discount budget *)
(* ===================================================================== *)

(** The amounts that the discount of a month can take: the multiples of
    0.50 up to 10.00, and 6.90 plus a multiple of 0.50 below 10.00. *)
Definition half (k : nat) : float := literal (Z.of_nat k * 50) 2.

Definition budget_values : list float :=
  (half <$> seq 0 21) ++ ((fun j => add (literal 690 2) (half j)) <$> seq 0 7).

#[global] Instance float_eq_dec : EqDecision spec_float.
Proof. solve_decision. Defined.

Definition in_budget (d : float) : bool := bool_decide (d ∈ budget_values).

Definition base_prices : list float :=
  [literal 150 2; literal 490 2; literal 690 2; literal 200 2; literal 300 2; literal 400 2].

(** A step from the budget value [d] to [d'] that charges [price] on the
    base price [base] and grants [granted]. *)
Definition result_ok (base d : float) (res : float * float * float) : bool :=
  let '(price, granted, d') := res in
  in_budget d'
  && bool_decide (d' = add d granted)
  && leb d d' && leb d' monthly_limit
  && (cents d' =? cents d + cents granted)%Z
  && (0 <=? cents granted)%Z
  && Bool.eqb (eqb granted zero) (cents granted =? 0)%Z
  && implb (eqb granted zero) (bool_decide (price = base))
  && (cents price =? cents base - cents granted)%Z
  && finite price && finite granted && eqb price price.

(** When the candidate does not fit, the budget is used up exactly, and
    something is granted unless it was used up before. *)
Definition clamp_ok (candidate d : float) : bool :=
  implb (gtb (add d candidate) monthly_limit)
        (bool_decide (add d (sub monthly_limit d) = monthly_limit)
         && implb (ltb d monthly_limit) (ltb zero (sub monthly_limit d))
         && implb (eqb d monthly_limit) (bool_decide (d = monthly_limit))).

Definition budget_facts (d : float) : bool :=
  forallb (fun base => result_ok base d (base, zero, d)) base_prices
  && result_ok (literal 690 2) d (grant (literal 690 2) (literal 690 2) zero d)
  && result_ok (literal 200 2) d (grant (literal 50 2) (literal 200 2) (literal 150 2) d)
  && clamp_ok (literal 690 2) d
  && clamp_ok (literal 50 2) d.

(** One step of [calculate_discount] from the budget value [d] to [d'], on
    a shipment of base price [base]. *)
Record step_facts (base d price granted d' : float) : Prop := StepFacts {
  step_in_budget : in_budget d' = true;
  step_sum : d' = add d granted;
  step_mono : leb d d' = true;
  step_bound : leb d' monthly_limit = true;
  step_cents : cents d' = (cents d + cents granted)%Z;
  step_granted_nonneg : (0 <= cents granted)%Z;
  step_zero_cents : eqb granted zero = true <-> cents granted = 0%Z;
  step_zero_price : eqb granted zero = true -> price = base;
  step_price_cents : cents price = (cents base - cents granted)%Z;
  step_finite_price : finite price = true;
  step_finite_granted : finite granted = true;
  step_price_eqb : eqb price price = true;
}.

(** Every month of the map holds a budget value. *)
Definition tracking_ok (t : tracking) : Prop :=
  forall ym, in_budget (discount_used ym t) = true.

(* ===================================================================== *)
(** ** The pricing of a run, without its printing *)
(* ===================================================================== *)

(** The line that [process_transactions] prints for a priced entry. *)
Definition priced_line (date size provider : string) (price new_price discount_amount : float)
  : string :=
  if eqb new_price price && eqb discount_amount zero then
    date ++ " " ++ size ++ " " ++ provider ++ " " ++ format_2f price ++ " -"
  else
    date ++ " " ++ size ++ " " ++ provider ++ " "
      ++ format_2f new_price ++ " " ++ format_2f discount_amount.

(** The pricing of the loop without its printing: per entry, the new price
    and the discount that [calculate_discount] returns ([None] for an entry
    that is not priced). *)
Definition outcome : Type := option (float * float).

Definition charge (e : entry) (t : tracking) : option (outcome * tracking) :=
  if is_ignored e then Some (None, t)
  else
    match e with
    | [date; size; provider] =>
        '(new_price, discount_amount, t') ←
          calculate_discount size provider (slice_to 7 date) t;
        Some (Some (new_price, discount_amount), t')
    | _ => Some (None, t)
    end.

Fixpoint charges (ts : list entry) (t : tracking) : option (list outcome * tracking) :=
  match ts with
  | [] => Some ([], t)
  | e :: rest =>
      '(o, t1) ← charge e t;
      '(os, t2) ← charges rest t1;
      Some (o :: os, t2)
  end.

(** The line printed for a validated entry with a given outcome. *)
Definition render (e : entry) (o : outcome) : string :=
  match o, e with
  | Some (new_price, discount_amount), [date; size; provider] =>
      priced_line date size provider (base_price provider size) new_price discount_amount
  | _, _ => join " " (strip <$> e)
  end.

(** The tracking map after the loop has run over [ts]. *)
Definition state_after (ts : list entry) : option tracking :=
  snd <$> process_loop ts ∅ [].

(** The entry is a Large shipment with LP in the month [ym]. *)
Definition is_L_LP (ym : string) (e : entry) : bool :=
  match e with
  | [date; size; provider] =>
      String.eqb size "L" && String.eqb provider "LP" && String.eqb (slice_to 7 date) ym
  | _ => false
  end.

(** The number of Large LP shipments of the month [ym] among [ts]. *)
Definition running_count (ym : string) (ts : list entry) : nat :=
  length (List.filter (is_L_LP ym) ts).

(** The discount applied to the entry, when it is priced in the month [ym]. *)
Definition granted_in (ym : string) (e : entry) (o : outcome) : option float :=
  if String.eqb (month_key e) ym then snd <$> o else None.

(** The discounts applied to the priced entries of the month [ym], in
    processing order. *)
Definition month_discounts (ym : string) (ts : list entry) (os : list outcome) : list float :=
  omap (fun eo => granted_in ym eo.1 eo.2) (zip ts os).

Definition sum_cents (gs : list float) : Z := foldr (fun g acc => (cents g + acc)%Z) 0%Z gs.

(* ===================================================================== *)
(** ** Decimal numbers as printed *)
(* ===================================================================== *)

Definition all_digits (s : string) : bool :=
  forallb is_digit (list_ascii_of_string s).

(** A point and two digits. *)
Definition frac2 (s : string) : bool :=
  match s with
  | String p (String a (String b "")) => is_char "." p && is_digit a && is_digit b
  | _ => false
  end.

(** At least one digit, a point and two digits. *)
Fixpoint digits_frac2 (s : string) : bool :=
  match s with
  | String c rest => is_digit c && (frac2 rest || digits_frac2 rest)
  | "" => false
  end.

(** A decimal number with exactly two decimal places, with or without a
    sign. *)
Definition two_decimals (s : string) : bool :=
  match s with
  | String c rest => if is_char "-" c then digits_frac2 rest else digits_frac2 s
  | "" => false
  end.

(* ===================================================================== *)
(** ** Reading and printing *)
(* ===================================================================== *)

(** [read_transactions], from the list that [file.readlines()] returns:
    opening and reading the file is left to the caller. *)
Definition read_transactions (lines : list string) : list string :=
  strip <$> lines.

Definition newline : string := String "010" "".

(** [print(line)]: the line and a newline, after what [stdout] holds. *)
Definition print (line : string) (stdout : string) : string :=
  stdout ++ line ++ newline.

Definition write_output (output : list string) (stdout : string) : string :=
  foldl (fun out line => print line out) stdout output.

(** [main], from the lines of the file and the text already on the
    console. *)
Definition main (lines : list string) (stdout : string) : option string :=
  let raw_transactions := read_transactions lines in
  let validated_transactions := validate_transactions raw_transactions in
  processed_transactions ← process_transactions validated_transactions;
  Some (write_output processed_transactions stdout).

(* ===================================================================== *)
(** ** Words and blanks *)
(* ===================================================================== *)

(** Every character of the string is whitespace. *)
Fixpoint all_space (s : string) : bool :=
  match s with
  | "" => true
  | String c s' => isspace c && all_space s'
  end.

(** A field as [split] returns them: not empty and without whitespace. *)
Definition is_word (s : string) : bool :=
  negb (String.eqb s "") && no_space s.

(** What [split_from] returns for the run [word] at the end of the text. *)
Definition flush (word : string) : list string :=
  if String.eqb word "" then [] else [word].

(** The entries for which the loop of [process_transactions] prints a line:
    those marked Ignored and the tuples of three. *)
Definition emits (e : entry) : bool := is_ignored e || (length e =? 3)%nat.

(** What reading does to a result of the validator: the text of an ignored
    line is stripped. *)
Definition strip_ignored (e : entry) : entry :=
  if is_ignored e then strip <$> e else e.

(** The valid entries for which [calculate_discount] looks at the record of
    the month: Large with LP and Small with MR. *)
Definition touches (e : entry) : bool :=
  match e with
  | [_; size; provider] =>
      String.eqb size "L" && String.eqb provider "LP"
      || String.eqb size "S" && String.eqb provider "MR"
  | _ => false
  end.

(** Bounds on the price and on the discount of one step. *)
Definition price_bounds (base : float) (res : float * float * float) : bool :=
  let '(price, granted, _) := res in
  (0 <=? cents price)%Z && (cents price <=? cents base)%Z
  && leb zero price && leb price base && leb zero granted && leb granted base.

Definition bounds_facts (d : float) : bool :=
  forallb (fun base => price_bounds base (base, zero, d)) base_prices
  && price_bounds (literal 690 2) (grant (literal 690 2) (literal 690 2) zero d)
  && price_bounds (literal 200 2) (grant (literal 50 2) (literal 200 2) (literal 150 2) d).

(** The items of [xs] at the positions of the entries of [ts] that [sel]
    accepts. *)
Definition select {A} (sel : entry -> bool) (ts : list entry) (xs : list A) : list A :=
  snd <$> List.filter (fun ex => sel ex.1) (zip ts xs).

(** The valid transactions of the month [ym]. *)
Definition in_month (ym : string) (e : entry) : bool :=
  priced_shape e && String.eqb (month_key e) ym.

(* ===================================================================== *)
(** ** The month and the amounts, in the words of the specification *)
(* ===================================================================== *)

(** The specification's year-month key is the first seven characters of
    the date: the entry is a Large LP shipment of the month [month] when
    its date begins with [month]. *)
Definition large_LP_in_month (month : string) (e : entry) : bool :=
  match e with
  | [date; size; provider] =>
      String.eqb size "L" && String.eqb provider "LP" && String.prefix month date
  | _ => false
  end.

Definition count_large_LP (month : string) (ts : list entry) : nat :=
  length (List.filter (large_LP_in_month month) ts).

(** The number of cents that a text of digits, a point and two digits
    stands for; [acc] is the number read so far. *)
Fixpoint cents_of_digits (acc : Z) (s : string) : option Z :=
  match s with
  | "" => None
  | String c s' =>
      if is_char "." c then
        match s' with
        | String a (String b "") =>
            if is_digit a && is_digit b
            then Some (100 * acc + 10 * (code a - 48) + (code b - 48))%Z
            else None
        | _ => None
        end
      else if is_digit c then cents_of_digits (10 * acc + (code c - 48)) s'
      else None
  end.

(** The amount in cents that a printed amount stands for. *)
Definition amount_of_text (s : string) : option Z :=
  match s with
  | String c rest =>
      if is_char "-" c then Z.opp <$> cents_of_digits 0 rest else cents_of_digits 0 s
  | "" => None
  end.

(** The price list of the specification, as it is to be displayed. *)
Definition listed_price (provider size : string) : string :=
  if String.eqb provider "LP" then
    if String.eqb size "S" then "1.50"
    else if String.eqb size "M" then "4.90"
    else if String.eqb size "L" then "6.90" else "0.00"
  else if String.eqb provider "MR" then
    if String.eqb size "S" then "2.00"
    else if String.eqb size "M" then "3.00"
    else if String.eqb size "L" then "4.00" else "0.00"
  else "0.00".

(** [.2f] prints the float as the text of its amount in cents. *)
Definition shown (x : float) : bool :=
  match amount_of_text (format_2f x) with
  | Some c => (c =? cents x)%Z
  | None => false
  end.

Definition amounts_shown (res : float * float * float) : bool :=
  let '(price, granted, _) := res in shown price && shown granted.

Definition shown_facts (d : float) : bool :=
  forallb (fun base => amounts_shown (base, zero, d)) base_prices
  && amounts_shown (grant (literal 690 2) (literal 690 2) zero d)
  && amounts_shown (grant (literal 50 2) (literal 200 2) (literal 150 2) d).

(* ===================================================================== *)
(** ** The unit tests of the repository, on the embedding *)
(* ===================================================================== *)

Example test_validate_transactions_valid :
  validate_transactions ["2024-08-09 S LP"; "2024-08-10 M MR"]
  = [["2024-08-09"; "S"; "LP"]; ["2024-08-10"; "M"; "MR"]].
Proof. vm_compute. reflexivity. Qed.

Example test_validate_transactions_invalid_format :
  validate_transactions ["2024-08-09 S"; "Invalid Transaction"]
  = [["2024-08-09 S"; "Ignored"]; ["Invalid Transaction"; "Ignored"]].
Proof. vm_compute. reflexivity. Qed.

Example test_validate_transactions_invalid_date :
  validate_transactions ["2024-13-01 S LP"; "2024-02-30 M MR"]
  = [["2024-13-01 S LP"; "Ignored"]; ["2024-02-30 M MR"; "Ignored"]].
Proof. vm_compute. reflexivity. Qed.

Example test_validate_transactions_invalid_provider :
  validate_transactions ["2024-08-09 S XY"; "2024-08-10 L AB"]
  = [["2024-08-09 S XY"; "Ignored"]; ["2024-08-10 L AB"; "Ignored"]].
Proof. vm_compute. reflexivity. Qed.

Example test_process_transactions :
  process_transactions
    [["2024-08-09"; "S"; "LP"]; ["2024-08-10"; "L"; "LP"];
     ["2024-08-11"; "L"; "LP"]; ["2024-08-12"; "L"; "LP"]]
  = Some ["2024-08-09 S LP 1.50 -"; "2024-08-10 L LP 6.90 -";
          "2024-08-11 L LP 6.90 -"; "2024-08-12 L LP 0.00 6.90"].
Proof. vm_compute. reflexivity. Qed.

(** The price literals are the binary64 values nearest to the decimals; 6.90
    is not a binary fraction, and [.2f] still prints it as written. *)
Example literal_690 :
  literal 690 2 = S754_finite false 7768709357214106 (-50)
  /\ format_2f (literal 690 2) = "6.90"
  /\ format_2f (sub (literal 690 2) (sub monthly_limit (literal 350 2))) = "0.40".
Proof. vm_compute. repeat split; reflexivity. Qed.

(* ===================================================================== *)
(** ** Lemmas on the tracking map *)
(* ===================================================================== *)

Section Tracking.

Implicit Types (t : tracking) (r : month_data) (ym k : string).

Lemma getitem_item ym t : getitem ym t = (item ym t, <[ym := item ym t]> t).
Proof.
  unfold getitem, item. destruct (t !! ym) as [r|] eqn:E; simpl.
  - by rewrite insert_id.
  - done.
Qed.

Lemma item_insert_eq ym r t : item ym (<[ym := r]> t) = r.
Proof. unfold item. by rewrite lookup_insert_eq. Qed.

Lemma item_insert_ne ym k r t : ym ≠ k -> item k (<[ym := r]> t) = item k t.
Proof. intros. unfold item. by rewrite lookup_insert_ne. Qed.

Lemma discount_used_insert ym r t : discount_used ym (<[ym := r]> t) = discount r.
Proof. unfold discount_used. by rewrite item_insert_eq. Qed.

Lemma item_empty ym : item ym ∅ = fresh_month.
Proof. unfold item. by rewrite lookup_empty. Qed.

Lemma incr_count_item ym t :
  incr_count ym t = <[ym := MonthData (S (L_LP_count (item ym t))) (discount (item ym t))]> t.
Proof. unfold incr_count. rewrite getitem_item. by rewrite insert_insert_eq. Qed.

Lemma add_discount_item ym x t :
  add_discount ym x t = <[ym := MonthData (L_LP_count (item ym t)) (add (discount (item ym t)) x)]> t.
Proof. unfold add_discount. rewrite getitem_item. by rewrite insert_insert_eq. Qed.

Lemma item_commit_eq ym t o : item ym (commit ym t o) = default (item ym t) o.
Proof. destruct o; simpl; [apply item_insert_eq | done]. Qed.

Lemma item_commit_ne ym k t o : ym ≠ k -> item k (commit ym t o) = item k t.
Proof. intros. destruct o; simpl; [by apply item_insert_ne | done]. Qed.

Lemma commit_commute ym k t o1 o2 :
  ym ≠ k -> commit k (commit ym t o1) o2 = commit ym (commit k t o2) o1.
Proof.
  intros. destruct o1, o2; simpl; try done. by apply insert_insert_ne.
Qed.

End Tracking.

Ltac track :=
  repeat first
    [ rewrite getitem_item
    | rewrite incr_count_item
    | rewrite add_discount_item
    | rewrite item_insert_eq
    | rewrite insert_insert_eq
    | progress cbn [L_LP_count discount fst snd commit mbind option_bind] ].

(** [calculate_discount] reads and writes the record of its month only. *)
Lemma calculate_discount_local size provider ym (t : tracking) :
  calculate_discount size provider ym t =
  '(new_price, discount_amount, r) ← calc_local size provider (item ym t);
  Some (new_price, discount_amount, commit ym t r).
Proof.
  unfold calculate_discount, calc_local.
  destruct (String.eqb size "L" && String.eqb provider "LP").
  - track.
    destruct (Nat.eqb (S (L_LP_count (item ym t))) 3).
    + destruct (price_of provider "L") as [p|]; [|done]. track.
      destruct (gtb _ _); track; done.
    + destruct (price_of provider "L") as [p|]; [|done]. by track.
  - destruct (String.eqb size "S").
    + destruct (price_of "LP" "S") as [lp|]; [|done].
      destruct (price_of "MR" "S") as [mr|]; [|done].
      destruct (price_of provider "S") as [b|]; [|done]. track.
      destruct (neqb _ _); [|done]. track.
      destruct (gtb _ _); track; done.
    + destruct (PRICES !! provider); done.
Qed.

(* ===================================================================== *)
(** ** The price table and the six priced cases *)
(* ===================================================================== *)

Lemma valid_sizes_cases size :
  size ∈ valid_sizes -> size = "S" \/ size = "M" \/ size = "L".
Proof.
  unfold valid_sizes. rewrite !elem_of_union, !elem_of_singleton. tauto.
Qed.

Lemma valid_providers_cases provider :
  provider ∈ valid_providers -> provider = "LP" \/ provider = "MR".
Proof.
  unfold valid_providers. rewrite !elem_of_union, !elem_of_singleton. tauto.
Qed.

Lemma priced_shape_cases (e : entry) :
  priced_shape e = true ->
  exists date size provider,
    e = [date; size; provider]
    /\ (size = "S" \/ size = "M" \/ size = "L")
    /\ (provider = "LP" \/ provider = "MR").
Proof.
  destruct e as [|date [|size [|provider [|? ?]]]]; simpl; try discriminate.
  intros [Hs Hp]%andb_true_iff.
  apply bool_decide_eq_true in Hs, Hp.
  exists date, size, provider. split; [done|].
  split; [by apply valid_sizes_cases | by apply valid_providers_cases].
Qed.

(** The provider of a priced entry is never the marker of an ignored one. *)
Lemma priced_not_ignored (e : entry) : priced_shape e = true -> is_ignored e = false.
Proof.
  intros (date & size & provider & -> & _ & [-> | ->])%priced_shape_cases; reflexivity.
Qed.

Lemma ignored_shape_cases (e : entry) :
  ignored_shape e = true -> exists text, e = Ignored text.
Proof.
  destruct e as [|text [|marker [|? ?]]]; simpl; try discriminate.
  intros ->%String.eqb_eq. by exists text.
Qed.

Lemma calc_local_L_LP (r : month_data) :
  calc_local "L" "LP" r =
  Some (if Nat.eqb (S (L_LP_count r)) 3 then
          let '(price, granted, d) := grant (literal 690 2) (literal 690 2) zero (discount r) in
          (price, granted, Some (MonthData (S (L_LP_count r)) d))
        else
          (literal 690 2, zero, Some (MonthData (S (L_LP_count r)) (discount r)))).
Proof.
  unfold calc_local, grant.
  change (String.eqb "L" "L" && String.eqb "LP" "LP") with true.
  change (price_of "LP" "L") with (Some (literal 690 2)).
  cbn [mbind option_bind].
  destruct (Nat.eqb _ 3); [|done]. destruct (gtb _ _); done.
Qed.

Lemma calc_local_S_MR (r : month_data) :
  calc_local "S" "MR" r =
  Some (let '(price, granted, d) :=
          grant (literal 50 2) (literal 200 2) (literal 150 2) (discount r) in
        (price, granted, Some (MonthData (L_LP_count r) d))).
Proof.
  unfold calc_local, grant.
  change (String.eqb "S" "L" && String.eqb "MR" "LP") with false.
  change (String.eqb "S" "S") with true.
  change (price_of "LP" "S") with (Some (literal 150 2)).
  change (price_of "MR" "S") with (Some (literal 200 2)).
  cbn [mbind option_bind].
  change (min (literal 150 2) (literal 200 2)) with (literal 150 2).
  change (sub (literal 200 2) (literal 150 2)) with (literal 50 2).
  change (neqb (literal 50 2) (of_Z 0)) with true.
  cbn iota.
  destruct (gtb _ _); done.
Qed.

Lemma calc_local_quiet size provider (r : month_data) :
  (size = "S" /\ provider = "LP") \/ size = "M" \/ (size = "L" /\ provider = "MR") ->
  provider = "LP" \/ provider = "MR" ->
  calc_local size provider r = Some (base_price provider size, zero, None).
Proof.
  intros [[-> ->] | [-> | [-> ->]]] [E | E]; try discriminate E; subst; reflexivity.
Qed.

(* ===================================================================== *)
(** ** The discount budget of one month *)
(* ===================================================================== *)

(** A property of every budget value is checked by evaluation. *)
Lemma budget_forall (P : float -> bool) :
  forallb P budget_values = true -> forall d, in_budget d = true -> P d = true.
Proof.
  intros HP d Hd. apply bool_decide_eq_true in Hd.
  rewrite forallb_forall in HP. apply HP. by apply list_elem_of_In.
Qed.

Lemma budget_facts_hold d : in_budget d = true -> budget_facts d = true.
Proof. apply budget_forall. vm_compute. reflexivity. Qed.

Lemma in_budget_zero : in_budget zero = true.
Proof. vm_compute. reflexivity. Qed.

Lemma in_budget_limit : in_budget monthly_limit = true.
Proof. vm_compute. reflexivity. Qed.

Lemma result_ok_facts base d price granted d' :
  result_ok base d (price, granted, d') = true ->
  step_facts base d price granted d'.
Proof.
  unfold result_ok. intros H.
  apply andb_true_iff in H as [H E3].
  apply andb_true_iff in H as [H E2].
  apply andb_true_iff in H as [H E1].
  apply andb_true_iff in H as [H H9%Z.eqb_eq].
  apply andb_true_iff in H as [H H8].
  apply andb_true_iff in H as [H H7%Bool.eqb_prop].
  apply andb_true_iff in H as [H H6%Z.leb_le].
  apply andb_true_iff in H as [H H5%Z.eqb_eq].
  apply andb_true_iff in H as [H H4].
  apply andb_true_iff in H as [H H3].
  apply andb_true_iff in H as [H1 H2%bool_decide_eq_true].
  constructor; try done.
  - rewrite H7. apply Z.eqb_eq.
  - intros E. rewrite E in H8. by apply bool_decide_eq_true in H8.
Qed.

Lemma base_price_listed size provider :
  (size = "S" \/ size = "M" \/ size = "L") ->
  (provider = "LP" \/ provider = "MR") ->
  In (base_price provider size) base_prices.
Proof.
  intros [-> | [-> | ->]] [-> | ->]; unfold base_prices.
  - change (base_price "LP" "S") with (literal 150 2). auto with datatypes.
  - change (base_price "MR" "S") with (literal 200 2). auto 7 with datatypes.
  - change (base_price "LP" "M") with (literal 490 2). auto with datatypes.
  - change (base_price "MR" "M") with (literal 300 2). auto 7 with datatypes.
  - change (base_price "LP" "L") with (literal 690 2). auto with datatypes.
  - change (base_price "MR" "L") with (literal 400 2). auto 7 with datatypes.
Qed.

Lemma calc_local_facts size provider (r : month_data) :
  (size = "S" \/ size = "M" \/ size = "L") ->
  (provider = "LP" \/ provider = "MR") ->
  in_budget (discount r) = true ->
  exists price granted o,
    calc_local size provider r = Some (price, granted, o)
    /\ step_facts (base_price provider size) (discount r) price granted
         (discount (default r o))
    /\ L_LP_count (default r o) =
         (if String.eqb size "L" && String.eqb provider "LP"
          then S (L_LP_count r) else L_LP_count r).
Proof.
  intros Hs Hp Hr.
  pose proof (budget_facts_hold _ Hr) as F. unfold budget_facts in F.
  apply andb_true_iff in F as [F _].
  apply andb_true_iff in F as [F _].
  apply andb_true_iff in F as [F FB].
  apply andb_true_iff in F as [Fq FA].
  rewrite forallb_forall in Fq.
  pose proof (Fq _ (base_price_listed _ _ Hs Hp)) as Fbase.
  assert (Quiet :
    (size = "S" /\ provider = "LP") \/ size = "M" \/ (size = "L" /\ provider = "MR") ->
    exists price granted o,
      calc_local size provider r = Some (price, granted, o)
      /\ step_facts (base_price provider size) (discount r) price granted
           (discount (default r o))
      /\ L_LP_count (default r o) =
           (if String.eqb size "L" && String.eqb provider "LP"
            then S (L_LP_count r) else L_LP_count r)).
  { intros Hq. rewrite (calc_local_quiet _ _ _ Hq Hp).
    eexists _, _, _. split; [reflexivity|]. simpl. split; [by apply result_ok_facts|].
    destruct Hq as [[-> ->] | [-> | [-> ->]]]; reflexivity. }
  destruct Hs as [-> | [-> | ->]], Hp as [-> | ->]; try (apply Quiet; tauto).
  - (* S MR *)
    rewrite calc_local_S_MR. clear FA.
    destruct (grant _ _ _ _) as [[price granted] d'] eqn:G.
    eexists _, _, _. split; [reflexivity|]. simpl. split; [|done].
    by apply result_ok_facts.
  - (* L LP *)
    rewrite calc_local_L_LP. clear FB.
    destruct (Nat.eqb (S (L_LP_count r)) 3).
    + destruct (grant _ _ _ _) as [[price granted] d'] eqn:G.
      eexists _, _, _. split; [reflexivity|]. simpl. split; [|done].
      by apply result_ok_facts.
    + eexists _, _, _. split; [reflexivity|]. simpl. split; [|done].
      by apply result_ok_facts.
Qed.

(* ===================================================================== *)
(** ** The loop of [process_transactions] *)
(* ===================================================================== *)

Lemma tracking_ok_empty : tracking_ok ∅.
Proof. intros ym. unfold discount_used. rewrite item_empty. apply in_budget_zero. Qed.

Lemma process_entry_priced date size provider (t : tracking) acc :
  (size = "S" \/ size = "M" \/ size = "L") ->
  (provider = "LP" \/ provider = "MR") ->
  process_entry [date; size; provider] t acc =
  '(new_price, discount_amount, t') ← calculate_discount size provider (slice_to 7 date) t;
  Some (append_line acc (priced_line date size provider (base_price provider size)
                      new_price discount_amount), t').
Proof.
  intros Hs Hp. unfold process_entry.
  rewrite (priced_not_ignored [date; size; provider]).
  2:{ simpl. apply andb_true_iff.
      split; apply bool_decide_eq_true;
        [ destruct Hs as [-> | [-> | ->]] | destruct Hp as [-> | ->] ];
        unfold valid_sizes, valid_providers;
        rewrite !elem_of_union, !elem_of_singleton; tauto. }
  assert (exists prices, PRICES !! provider = Some prices
                         /\ default zero (prices !! size) = base_price provider size)
    as (prices & -> & Hb).
  { destruct Hp as [-> | ->]; eexists; (split; [reflexivity|]);
      destruct Hs as [-> | [-> | ->]]; reflexivity. }
  cbn [mbind option_bind]. rewrite Hb.
  destruct (calculate_discount _ _ _ _) as [[[np g] t']|]; [|done].
  cbn [mbind option_bind]. unfold priced_line.
  destruct (eqb np _ && eqb g zero); done.
Qed.

Lemma calc_local_total size provider (r : month_data) :
  (size = "S" \/ size = "M" \/ size = "L") ->
  (provider = "LP" \/ provider = "MR") ->
  is_Some (calc_local size provider r).
Proof.
  intros [-> | [-> | ->]] [-> | ->];
    rewrite ?calc_local_S_MR, ?calc_local_L_LP, ?calc_local_quiet by tauto; done.
Qed.

Lemma calculate_discount_total size provider ym (t : tracking) :
  (size = "S" \/ size = "M" \/ size = "L") ->
  (provider = "LP" \/ provider = "MR") ->
  is_Some (calculate_discount size provider ym t).
Proof.
  intros Hs Hp. rewrite calculate_discount_local.
  destruct (calc_local_total size provider (item ym t) Hs Hp) as [[[p g] o] ->]. done.
Qed.

(** One iteration on a validated entry prints exactly one line, the
    rendering of its outcome. *)
Lemma process_entry_charge (e : entry) (t : tracking) acc :
  validated e = true ->
  exists o t',
    charge e t = Some (o, t')
    /\ process_entry e t acc = Some (append_line acc (render e o), t').
Proof.
  intros [H | H]%orb_true_iff.
  - pose proof (priced_not_ignored _ H) as Hi.
    apply priced_shape_cases in H as (date & size & provider & -> & Hs & Hp).
    rewrite process_entry_priced by done. unfold charge. rewrite Hi.
    destruct (calculate_discount_total size provider (slice_to 7 date) t Hs Hp)
      as [[[p g] t'] ->].
    by exists (Some (p, g)), t'.
  - apply ignored_shape_cases in H as [text ->].
    exists None, t. split; reflexivity.
Qed.

Lemma process_loop_charges (ts : list entry) :
  forallb validated ts = true ->
  forall (t : tracking) acc,
  exists os t',
    charges ts t = Some (os, t')
    /\ length os = length ts
    /\ process_loop ts t acc = Some ((acc ++ zip_with render ts os)%list, t').
Proof.
  induction ts as [|e ts IH]; intros Hv t acc.
  - exists [], t. simpl. by rewrite app_nil_r.
  - simpl in Hv. apply andb_true_iff in Hv as [He Hts].
    destruct (process_entry_charge e t acc He) as (o & t1 & Hc & Hp).
    destruct (IH Hts t1 (append_line acc (render e o))) as (os & t2 & Hcs & Hlen & Hl).
    exists (o :: os), t2. simpl. rewrite Hc, Hp. simpl. rewrite Hcs, Hl. simpl.
    split; [done|]. split; [by rewrite Hlen|].
    unfold append_line. by rewrite <- app_assoc.
Qed.

Lemma charges_app (ts1 ts2 : list entry) (t : tracking) :
  charges (ts1 ++ ts2) t =
  '(os1, t1) ← charges ts1 t; '(os2, t2) ← charges ts2 t1; Some ((os1 ++ os2)%list, t2).
Proof.
  revert t. induction ts1 as [|e ts1 IH]; intros t; simpl.
  - destruct (charges ts2 t) as [[os2 t2]|]; done.
  - destruct (charge e t) as [[o t1]|]; simpl; [|done].
    rewrite IH. destruct (charges ts1 t1) as [[os1 t1']|]; simpl; [|done].
    destruct (charges ts2 t1') as [[os2 t2]|]; done.
Qed.

Lemma state_after_charges (ts : list entry) :
  forallb validated ts = true ->
  state_after ts = snd <$> charges ts ∅.
Proof.
  intros Hv. unfold state_after.
  destruct (process_loop_charges ts Hv ∅ []) as (os & t' & -> & _ & ->). done.
Qed.

Lemma forallb_take {A} (f : A -> bool) (l : list A) n :
  forallb f l = true -> forallb f (take n l) = true.
Proof.
  revert n. induction l as [|x l IH]; intros [|n]; simpl; try done.
  intros [-> H]%andb_true_iff. simpl. by apply IH.
Qed.

(* ===================================================================== *)
(** ** Invariants of a run over validated entries *)
(* ===================================================================== *)

Lemma calculate_discount_facts size provider ym (t : tracking) :
  (size = "S" \/ size = "M" \/ size = "L") ->
  (provider = "LP" \/ provider = "MR") ->
  tracking_ok t ->
  exists price granted t',
    calculate_discount size provider ym t = Some (price, granted, t')
    /\ step_facts (base_price provider size) (discount_used ym t) price granted
         (discount_used ym t')
    /\ L_LP_count (item ym t') =
         (if String.eqb size "L" && String.eqb provider "LP"
          then S (L_LP_count (item ym t)) else L_LP_count (item ym t))
    /\ (forall k, ym ≠ k -> item k t' = item k t).
Proof.
  intros Hs Hp Hok. rewrite calculate_discount_local.
  destruct (calc_local_facts size provider (item ym t) Hs Hp (Hok ym))
    as (price & granted & o & -> & Hf & Hc).
  exists price, granted, (commit ym t o). cbn [mbind option_bind].
  split; [done|]. unfold discount_used. rewrite item_commit_eq.
  split; [done|]. split; [done|].
  intros k Hk. by apply item_commit_ne.
Qed.

Lemma tracking_ok_step ym (t t' : tracking) :
  tracking_ok t ->
  in_budget (discount_used ym t') = true ->
  (forall k, ym ≠ k -> item k t' = item k t) ->
  tracking_ok t'.
Proof.
  intros Hok Hym Hne k. destruct (decide (ym = k)) as [<- | Hk]; [done|].
  unfold discount_used. rewrite Hne by done. apply Hok.
Qed.

Lemma leb_cents a b :
  in_budget a = true -> in_budget b = true -> leb a b = (cents a <=? cents b)%Z.
Proof.
  intros Ha Hb.
  assert (forallb (fun a => forallb (fun b =>
            Bool.eqb (leb a b) (cents a <=? cents b)%Z) budget_values) budget_values = true)
    as H by (vm_compute; reflexivity).
  pose proof (budget_forall _ H a Ha) as H1. cbv beta in H1.
  pose proof (budget_forall _ H1 b Hb) as H2. cbv beta in H2.
  by apply Bool.eqb_prop.
Qed.

Lemma leb_budget_refl a : in_budget a = true -> leb a a = true.
Proof. intros Ha. rewrite leb_cents by done. apply Z.leb_refl. Qed.

Lemma leb_budget_trans a b c :
  in_budget a = true -> in_budget b = true -> in_budget c = true ->
  leb a b = true -> leb b c = true -> leb a c = true.
Proof.
  intros Ha Hb Hc. rewrite !leb_cents by done. rewrite !Z.leb_le. lia.
Qed.

Lemma leb_budget_limit a : in_budget a = true -> leb a monthly_limit = true.
Proof.
  apply (budget_forall (fun d => leb d monthly_limit)). vm_compute. reflexivity.
Qed.

(** What one validated entry does to the record of the month [ym]. *)
Lemma charge_facts (e : entry) (t : tracking) o (t' : tracking) :
  validated e = true ->
  tracking_ok t ->
  charge e t = Some (o, t') ->
  tracking_ok t'
  /\ forall ym,
       L_LP_count (item ym t') = (if is_L_LP ym e then 1 else 0) + L_LP_count (item ym t)
       /\ discount_used ym t' =
            foldl add (discount_used ym t) (option_list (granted_in ym e o))
       /\ cents (discount_used ym t') =
            (cents (discount_used ym t) + sum_cents (option_list (granted_in ym e o)))%Z
       /\ leb (discount_used ym t) (discount_used ym t') = true.
Proof.
  intros [H | H]%orb_true_iff Hok Hc.
  - pose proof (priced_not_ignored _ H) as Hi.
    apply priced_shape_cases in H as (date & size & provider & -> & Hs & Hp).
    unfold charge in Hc. rewrite Hi in Hc.
    destruct (calculate_discount_facts size provider (slice_to 7 date) t Hs Hp Hok)
      as (price & granted & t1 & Hcd & Hf & Hcount & Hother).
    rewrite Hcd in Hc. cbn [mbind option_bind] in Hc. injection Hc as <- <-.
    split.
    { eapply tracking_ok_step; [done | | done]. by destruct Hf. }
    intros ym. unfold granted_in, is_L_LP. cbn [month_key].
    destruct (String.eqb_spec (slice_to 7 date) ym) as [<- | Hne].
    + rewrite Hcount. rewrite andb_true_r.
      split; [by destruct (String.eqb size "L" && String.eqb provider "LP")|].
      destruct Hf. cbn. split; [done|]. split; [lia|done].
    + rewrite andb_false_r. unfold discount_used. rewrite Hother by done.
      cbn. split; [done|]. split; [done|]. split; [lia|].
      apply leb_budget_refl, Hok.
  - apply ignored_shape_cases in H as [text ->].
    injection Hc as <- <-. split; [done|].
    intros ym. unfold granted_in. cbn.
    destruct (String.eqb _ ym); cbn; (split; [done|]); (split; [done|]);
      (split; [lia|]); apply leb_budget_refl, Hok.
Qed.

Lemma month_discounts_cons ym e ts o os :
  month_discounts ym (e :: ts) (o :: os) =
  (option_list (granted_in ym e o) ++ month_discounts ym ts os)%list.
Proof.
  unfold month_discounts. cbn. by destruct (granted_in ym e o).
Qed.

Lemma sum_cents_app gs hs : sum_cents (gs ++ hs) = (sum_cents gs + sum_cents hs)%Z.
Proof.
  unfold sum_cents. induction gs as [|g gs IH]; simpl; [done|]. rewrite IH. lia.
Qed.

(** What a run over validated entries does to the record of the month [ym]. *)
Lemma charges_facts (ts : list entry) :
  forallb validated ts = true ->
  forall (t : tracking) os (t' : tracking),
  tracking_ok t ->
  charges ts t = Some (os, t') ->
  tracking_ok t'
  /\ length os = length ts
  /\ forall ym,
       L_LP_count (item ym t') = running_count ym ts + L_LP_count (item ym t)
       /\ discount_used ym t' = foldl add (discount_used ym t) (month_discounts ym ts os)
       /\ cents (discount_used ym t') =
            (cents (discount_used ym t) + sum_cents (month_discounts ym ts os))%Z
       /\ leb (discount_used ym t) (discount_used ym t') = true.
Proof.
  induction ts as [|e ts IH]; intros Hv t os t' Hok Hc.
  - injection Hc as <- <-. split; [done|]. split; [done|]. intros ym. cbn.
    split; [done|]. split; [done|]. split; [lia|]. apply leb_budget_refl, Hok.
  - simpl in Hv. apply andb_true_iff in Hv as [He Hts].
    simpl in Hc. destruct (charge e t) as [[o t1]|] eqn:Hce; [|done].
    cbn [mbind option_bind] in Hc.
    destruct (charges ts t1) as [[os1 t2]|] eqn:Hcs; [|done].
    cbn [mbind option_bind] in Hc. injection Hc as <- <-.
    destruct (charge_facts e t o t1 He Hok Hce) as [Hok1 H1].
    destruct (IH Hts t1 os1 t2 Hok1 Hcs) as (Hok2 & Hlen & H2).
    split; [done|]. split; [cbn; by rewrite Hlen|].
    intros ym. destruct (H1 ym) as (Hc1 & Hd1 & Hz1 & Hm1).
    destruct (H2 ym) as (Hc2 & Hd2 & Hz2 & Hm2).
    rewrite month_discounts_cons, foldl_app, sum_cents_app.
    split.
    { rewrite Hc2, Hc1. unfold running_count. cbn.
      destruct (is_L_LP ym e); cbn; lia. }
    split; [by rewrite Hd2, Hd1|]. split; [lia|].
    eapply leb_budget_trans; [apply Hok | apply Hok1 | apply Hok2 | done | done].
Qed.

(** The outcome at position [i] is the one of the entry at position [i], in
    the state that the entries before it leave. *)
Lemma charges_lookup (ts : list entry) (t : tracking) os (t' : tracking) i e :
  charges ts t = Some (os, t') ->
  ts !! i = Some e ->
  exists os_i ti o ti',
    charges (take i ts) t = Some (os_i, ti)
    /\ charge e ti = Some (o, ti')
    /\ os !! i = Some o.
Proof.
  revert t os i. induction ts as [|e0 ts IH]; intros t os i Hc Hi; [done|].
  simpl in Hc. destruct (charge e0 t) as [[o0 t1]|] eqn:H0; [|done].
  cbn [mbind option_bind] in Hc.
  destruct (charges ts t1) as [[os1 t2]|] eqn:H1; [|done].
  cbn [mbind option_bind] in Hc. injection Hc as <- <-.
  destruct i as [|i].
  - injection Hi as ->. exists [], t, o0, t1. by rewrite H0.
  - destruct (IH t1 os1 i H1 Hi) as (os_i & ti & o & ti' & Ht & Hch & Ho).
    exists (o0 :: os_i), ti, o, ti'. cbn. rewrite H0. cbn. rewrite Ht. done.
Qed.

Lemma charge_priced date size provider (t : tracking) o (t' : tracking) :
  priced_shape [date; size; provider] = true ->
  charge [date; size; provider] t = Some (o, t') ->
  exists new_price discount_amount,
    o = Some (new_price, discount_amount)
    /\ calculate_discount size provider (slice_to 7 date) t
         = Some (new_price, discount_amount, t').
Proof.
  intros Hp Hc. unfold charge in Hc. rewrite (priced_not_ignored _ Hp) in Hc.
  destruct (calculate_discount _ _ _ _) as [[[p g] t1]|]; [|done].
  injection Hc as <- <-. by exists p, g.
Qed.

(* ===================================================================== *)
(** ** The validator *)
(* ===================================================================== *)

Lemma check_transaction_cases (line : string) :
  check_transaction line = Ignored line
  \/ exists date size provider,
       split line = [date; size; provider]
       /\ is_Some (strptime_Ymd date)
       /\ size ∈ valid_sizes /\ provider ∈ valid_providers
       /\ check_transaction line = [date; size; provider].
Proof.
  unfold check_transaction.
  destruct (split line) as [|date [|size [|provider [|? ?]]]]; auto.
  destruct (strptime_Ymd date) as [ymd|] eqn:Hd; auto.
  destruct (bool_decide (size ∉ valid_sizes)) eqn:Hs; auto.
  destruct (bool_decide (provider ∉ valid_providers)) eqn:Hp; auto.
  right. exists date, size, provider.
  apply bool_decide_eq_false in Hs, Hp.
  repeat split; eauto.
  - by destruct (decide (size ∈ valid_sizes)).
  - by destruct (decide (provider ∈ valid_providers)).
Qed.

Lemma check_transaction_validated (line : string) :
  validated (check_transaction line) = true.
Proof.
  destruct (check_transaction_cases line)
    as [-> | (date & size & provider & _ & _ & Hs & Hp & ->)]; [reflexivity|].
  unfold validated. cbn [priced_shape].
  by rewrite !bool_decide_eq_true_2.
Qed.

Lemma validate_transactions_validated (raw : list string) :
  forallb validated (validate_transactions raw) = true.
Proof.
  induction raw as [|line raw IH]; [done|].
  cbn. by rewrite check_transaction_validated.
Qed.

(** The pipeline prints the rendering of every validated line, in order. *)
Lemma pipeline_render (raw : list string) :
  exists os t,
    charges (validate_transactions raw) ∅ = Some (os, t)
    /\ length os = length raw
    /\ pipeline raw = Some (zip_with render (validate_transactions raw) os).
Proof.
  destruct (process_loop_charges _ (validate_transactions_validated raw) ∅ [])
    as (os & t & Hc & Hlen & Hl).
  exists os, t. split; [done|]. split.
  - rewrite Hlen. unfold validate_transactions. by rewrite length_fmap.
  - unfold pipeline, process_transactions. by rewrite Hl.
Qed.

Lemma pipeline_line (raw : list string) i line :
  raw !! i = Some line ->
  exists out o,
    pipeline raw = Some out
    /\ length out = length raw
    /\ out !! i = Some (render (check_transaction line) o).
Proof.
  intros Hi. destruct (pipeline_render raw) as (os & t & _ & Hlen & ->).
  assert (is_Some (os !! i)) as [o Ho].
  { apply lookup_lt_is_Some. rewrite Hlen. by apply lookup_lt_Some in Hi. }
  exists (zip_with render (validate_transactions raw) os), o.
  split; [done|]. split.
  - rewrite length_zip_with. unfold validate_transactions. rewrite length_fmap. lia.
  - rewrite lookup_zip_with. unfold validate_transactions.
    rewrite list_lookup_fmap, Hi, Ho. done.
Qed.

Lemma render_Ignored text o : render (Ignored text) o = strip text ++ " Ignored".
Proof. by destruct o as [[? ?]|]. Qed.

(* ===================================================================== *)
(** ** Ignored lines (C1) and totality of the pipeline (C7) *)
(* ===================================================================== *)

(** C1, as stated, fails: the line printed for an invalid input line is not
    the input line. On the input ["bad line"] the pipeline prints
    "bad line Ignored". *)
Lemma ignored_line_not_verbatim :
  ~ (forall (raw : list string) i line,
       raw !! i = Some line ->
       check_transaction line = Ignored line ->
       exists out, pipeline raw = Some out /\ out !! i = Some line).
Proof.
  intros H.
  destruct (H ["bad line"] 0 "bad line" eq_refl eq_refl) as (out & Hp & Hi).
  vm_compute in Hp. injection Hp as <-. discriminate Hi.
Qed.

(** C1, amended: for every input line that the validator classifies as
    invalid, the output line of the pipeline at the same position is the
    input line with leading and trailing whitespace removed, followed by a
    space and the word Ignored. *)
Theorem ignored_line_output (raw : list string) i line :
  raw !! i = Some line ->
  check_transaction line = Ignored line ->
  exists out,
    pipeline raw = Some out /\ out !! i = Some (strip line ++ " Ignored").
Proof.
  intros Hi Hc. destruct (pipeline_line raw i line Hi) as (out & o & Hp & _ & Ho).
  exists out. split; [done|]. by rewrite Ho, Hc, render_Ignored.
Qed.

Lemma ignored_line_output_witness :
  exists out,
    pipeline ["2024-13-01 S LP"; "  bad line "] = Some out
    /\ out !! 1 = Some "bad line Ignored".
Proof.
  exact (ignored_line_output ["2024-13-01 S LP"; "  bad line "] 1 "  bad line "
           eq_refl eq_refl).
Defined.

(** C7: the pipeline prints exactly one line per input line, in input
    order: the line at position [i] is the one of the input line at position
    [i], whatever the other lines are; the pipeline never fails; and the
    branch of the loop that prints nothing is never taken on a result of the
    validator, which is either marked Ignored or a tuple of three. *)
Theorem pipeline_total (raw : list string) :
  exists out,
    pipeline raw = Some out
    /\ length out = length raw
    /\ (forall i line, raw !! i = Some line ->
          exists l, out !! i = Some l
            /\ ((check_transaction line = Ignored line /\ l = strip line ++ " Ignored")
                \/ (exists date size provider new_price discount_amount,
                      check_transaction line = [date; size; provider]
                      /\ l = priced_line date size provider (base_price provider size)
                               new_price discount_amount)))
    /\ (forall line,
          is_ignored (check_transaction line) = true
          \/ exists date size provider, check_transaction line = [date; size; provider]).
Proof.
  destruct (pipeline_render raw) as (os & t & Hcs & Hlen & Hp).
  exists (zip_with render (validate_transactions raw) os).
  split; [done|]. split.
  { rewrite length_zip_with. unfold validate_transactions. rewrite length_fmap. lia. }
  split.
  - intros i line Hi.
    assert (is_Some (os !! i)) as [o Ho].
    { apply lookup_lt_is_Some. rewrite Hlen. by apply lookup_lt_Some in Hi. }
    exists (render (check_transaction line) o). split.
    { rewrite lookup_zip_with. unfold validate_transactions.
      rewrite list_lookup_fmap, Hi, Ho. done. }
    destruct (check_transaction_cases line)
      as [Hc | (date & size & provider & _ & _ & Hs & Hpr & Hc)].
    + left. split; [done|]. by rewrite Hc, render_Ignored.
    + right. rewrite Hc.
      assert (exists p g, o = Some (p, g)) as (p & g & ->).
      { assert (validate_transactions raw !! i = Some [date; size; provider]) as Hv.
        { unfold validate_transactions. by rewrite list_lookup_fmap, Hi, <- Hc. }
        destruct (charges_lookup _ _ _ _ _ _ Hcs Hv) as (os_i & ti & o' & ti' & _ & Hch & Ho').
        rewrite Ho in Ho'. injection Ho' as <-.
        apply charge_priced in Hch as (p & g & -> & _); [by exists p, g|].
        cbn. by rewrite !bool_decide_eq_true_2. }
      by exists date, size, provider, p, g.
  - intros line.
    destruct (check_transaction_cases line)
      as [-> | (date & size & provider & _ & _ & _ & _ & ->)]; [by left|].
    right. by exists date, size, provider.
Qed.

(* ===================================================================== *)
(** ** Dates accepted by the validator (C2) *)
(* ===================================================================== *)

(** The validator accepts a line exactly when it has three fields, the
    first is accepted by [strptime] and the two others are a known size and
    a known provider; it marks every other line Ignored, with its text. *)
Lemma check_transaction_accepts (line : string) (e : entry) :
  check_transaction line = e ->
  (exists date size provider,
     e = [date; size; provider]
     /\ split line = [date; size; provider]
     /\ is_Some (strptime_Ymd date)
     /\ size ∈ valid_sizes /\ provider ∈ valid_providers)
  \/ (e = Ignored line
      /\ ~ exists date size provider,
             split line = [date; size; provider]
             /\ is_Some (strptime_Ymd date)
             /\ size ∈ valid_sizes /\ provider ∈ valid_providers).
Proof.
  intros <-. unfold check_transaction.
  destruct (split line) as [|date [|size [|provider [|? ?]]]];
    try (right; split; [done|]; intros (? & ? & ? & ? & _); discriminate).
  destruct (strptime_Ymd date) as [ymd|] eqn:Hd.
  2:{ right. split; [done|]. intros (? & ? & ? & [= <- <- <-] & [? Hs] & _).
      rewrite Hd in Hs. discriminate. }
  destruct (decide (size ∈ valid_sizes)) as [Hs|Hs].
  2:{ right. rewrite (bool_decide_eq_true_2 (size ∉ valid_sizes)) by done.
      split; [done|]. by intros (? & ? & ? & [= <- <- <-] & _ & ? & _). }
  destruct (decide (provider ∈ valid_providers)) as [Hp|Hp].
  2:{ right. rewrite (bool_decide_eq_true_2 (provider ∉ valid_providers)) by done.
      rewrite orb_true_r.
      split; [done|]. by intros (? & ? & ? & [= <- <- <-] & _ & _ & ?). }
  left. rewrite !bool_decide_eq_false_2 by (intros H; by apply H).
  exists date, size, provider. rewrite Hd. eauto 10.
Qed.

Lemma lenient_check_holds (y : string) (m1 d1 : ascii) (m2 d2 : option ascii) :
  In m1 digit_chars -> In m2 digit_options -> In d1 digit_chars -> In d2 digit_options ->
  lenient_check y (digits12 m1 m2) (digits12 d1 d2) = true.
Proof.
  intros H1 H2 H3 H4.
  assert (forallb (fun m1 => forallb (fun m2 => forallb (fun d1 => forallb (fun d2 =>
            lenient_check y (digits12 m1 m2) (digits12 d1 d2))
              digit_options) digit_chars) digit_options) digit_chars
          = true) as H by (vm_compute; reflexivity).
  rewrite forallb_forall in H. specialize (H _ H1).
  rewrite forallb_forall in H. specialize (H _ H2).
  rewrite forallb_forall in H. specialize (H _ H3).
  rewrite forallb_forall in H. exact (H _ H4).
Qed.

Lemma is_digit_listed (c : ascii) : is_digit c = true -> In c digit_chars.
Proof.
  destruct c as [[] [] [] [] [] [] [] []]; try discriminate; intros _;
    unfold digit_chars; simpl; tauto.
Qed.

Lemma one_or_two_digits_cases (s : string) :
  one_or_two_digits s = true ->
  exists a b, s = digits12 a b /\ In a digit_chars /\ In b digit_options.
Proof.
  destruct s as [|a [|b [|? ?]]]; try discriminate; cbn [one_or_two_digits].
  - intros Ha. exists a, None. split; [done|]. split; [by apply is_digit_listed|].
    by left.
  - intros [Ha Hb]%andb_true_iff. exists a, (Some b).
    split; [done|]. split; [by apply is_digit_listed|].
    right. apply in_map. by apply is_digit_listed.
Qed.

Lemma re_match_digits (y1 y2 y3 y4 : ascii) (r1 : string) :
  is_digit y1 = true -> is_digit y2 = true -> is_digit y3 = true -> is_digit y4 = true ->
  re_match (String y1 (String y2 (String y3 (String y4 r1))))
  = head (after_year (String y1 (String y2 (String y3 (String y4 "")))) r1).
Proof.
  intros H1 H2 H3 H4. unfold re_match, re_Y, four. rewrite H1, H2, H3, H4.
  cbn [andb]. unfold after_year. cbn [mbind list_bind]. simpl. by rewrite app_nil_r.
Qed.

Lemma after_year_year (y r1 : string) y' m d r5 :
  head (after_year y r1) = Some (y', m, d, r5) -> y' = y.
Proof.
  intros H. apply head_Some_elem_of in H. unfold after_year in H.
  repeat (apply list_elem_of_bind in H as ([? ?] & H & _); cbn beta iota zeta in H).
  apply list_elem_of_singleton in H. congruence.
Qed.

Lemma check_date_fields_ranges (year month day : Z) :
  check_date_fields year month day = true -> in_ranges month day = true.
Proof.
  unfold check_date_fields, in_ranges, days_in_month.
  intros H. repeat (apply andb_true_iff in H as [H ?]).
  repeat (apply andb_true_iff; split); try done.
  apply Z.leb_le. apply Z.leb_le in H0.
  destruct (month =? 2)%Z; [destruct (is_leap year); lia|].
  destruct ((month =? 4) || (month =? 6) || (month =? 9) || (month =? 11))%Z; lia.
Qed.

(** [strptime] on four digits, a dash, one or two digits, a dash and one or
    two digits: it succeeds exactly on the calendar dates of the years 1 to
    9999. *)
Lemma strptime_Ymd_digits (Y M D : string) :
  four_digits Y = true -> one_or_two_digits M = true -> one_or_two_digits D = true ->
  strptime_Ymd (Y ++ "-" ++ M ++ "-" ++ D) =
  if check_date_fields (int Y) (int M) (int D) then Some (int Y, int M, int D) else None.
Proof.
  intros HY HM HD.
  destruct Y as [|y1 [|y2 [|y3 [|y4 [|? ?]]]]]; try discriminate.
  cbn [four_digits] in HY.
  apply andb_true_iff in HY as [HY Hy4]. apply andb_true_iff in HY as [HY Hy3].
  apply andb_true_iff in HY as [Hy1 Hy2].
  destruct (one_or_two_digits_cases M HM) as (m1 & m2 & -> & Hm1 & Hm2).
  destruct (one_or_two_digits_cases D HD) as (d1 & d2 & -> & Hd1 & Hd2).
  pose proof (lenient_check_holds (String y1 (String y2 (String y3 (String y4 ""))))
                m1 d1 m2 d2 Hm1 Hm2 Hd1 Hd2) as C.
  change (String y1 (String y2 (String y3 (String y4 ""))) ++ "-" ++ digits12 m1 m2
            ++ "-" ++ digits12 d1 d2)
    with (String y1 (String y2 (String y3 (String y4
           (String "-" (digits12 m1 m2 ++ String "-" (digits12 d1 d2))))))).
  unfold strptime_Ymd. rewrite re_match_digits by done.
  unfold lenient_check in C.
  destruct (head (after_year _ _)) as [[[[y m] d] rest]|] eqn:E.
  - apply after_year_year in E as ->.
    destruct rest.
    + apply andb_true_iff in C as [C _]. apply andb_true_iff in C as [Cm Cd].
      apply String.eqb_eq in Cm, Cd. subst m d. reflexivity.
    + cbn [String.eqb]. apply negb_true_iff in C.
      destruct (check_date_fields _ _ _) eqn:F; [|done].
      apply check_date_fields_ranges in F. congruence.
  - apply negb_true_iff in C.
    destruct (check_date_fields _ _ _) eqn:F; [|done].
    apply check_date_fields_ranges in F. congruence.
Qed.

Lemma elem_one (p : ascii -> bool) t r s :
  (t, r) ∈ one p s -> exists a, s = String a r /\ t = String a "" /\ p a = true.
Proof.
  unfold one. destruct s as [|a s]; [by intros ?%elem_of_nil|].
  destruct (p a) eqn:Hp; [|by intros ?%elem_of_nil].
  intros [= -> ->]%list_elem_of_singleton. by exists a.
Qed.

Lemma elem_two (p q : ascii -> bool) t r s :
  (t, r) ∈ two p q s ->
  exists a b, s = String a (String b r) /\ t = String a (String b "")
              /\ p a = true /\ q b = true.
Proof.
  unfold two. destruct s as [|a [|b s]]; try by intros ?%elem_of_nil.
  destruct (p a) eqn:Hp, (q b) eqn:Hq; try by intros ?%elem_of_nil.
  intros [= -> ->]%list_elem_of_singleton. by exists a, b.
Qed.

Lemma elem_four (p : ascii -> bool) t r s :
  (t, r) ∈ four p s ->
  exists a b c d,
    s = String a (String b (String c (String d r)))
    /\ t = String a (String b (String c (String d "")))
    /\ p a = true /\ p b = true /\ p c = true /\ p d = true.
Proof.
  unfold four. destruct s as [|a [|b [|c [|d s]]]]; try by intros ?%elem_of_nil.
  destruct (p a) eqn:Ha, (p b) eqn:Hb, (p c) eqn:Hc, (p d) eqn:Hd;
    try by intros ?%elem_of_nil.
  intros [= -> ->]%list_elem_of_singleton. by exists a, b, c, d.
Qed.

Lemma elem_alt (f g : matcher) x s : x ∈ alt f g s -> x ∈ f s \/ x ∈ g s.
Proof. unfold alt. by intros ?%elem_of_app. Qed.

Lemma between_digit (lo hi c : ascii) :
  is_digit lo = true -> is_digit hi = true -> between lo hi c = true -> is_digit c = true.
Proof.
  unfold is_digit, between. rewrite !andb_true_iff, !Z.leb_le. lia.
Qed.

Lemma is_char_eq (a c : ascii) : is_char a c = true -> c = a.
Proof. unfold is_char. by intros ->%Ascii.eqb_eq. Qed.

Lemma re_m_text m r s :
  (m, r) ∈ re_m s -> s = m ++ r /\ one_or_two_digits m = true.
Proof.
  unfold re_m. intros [H | [H | H]%elem_alt]%elem_alt.
  - apply elem_two in H as (a & b & -> & -> & ->%is_char_eq & Hb).
    split; [done|]. cbn. by apply (between_digit "0" "2").
  - apply elem_two in H as (a & b & -> & -> & ->%is_char_eq & Hb).
    split; [done|]. cbn. by apply (between_digit "1" "9").
  - apply elem_one in H as (a & -> & -> & Ha).
    split; [done|]. cbn. by apply (between_digit "1" "9").
Qed.

Lemma re_d_text d r s :
  (d, r) ∈ re_d s ->
  s = d ++ r /\ (one_or_two_digits d = true \/ space_digit d = true).
Proof.
  unfold re_d. intros [H | [H | [H | [H | H]%elem_alt]%elem_alt]%elem_alt]%elem_alt.
  - apply elem_two in H as (a & b & -> & -> & ->%is_char_eq & Hb).
    split; [done|]. left. cbn. by apply (between_digit "0" "1").
  - apply elem_two in H as (a & b & -> & -> & Ha & Hb).
    split; [done|]. left. cbn. rewrite Hb. by rewrite (between_digit "1" "2" a).
  - apply elem_two in H as (a & b & -> & -> & ->%is_char_eq & Hb).
    split; [done|]. left. cbn. by apply (between_digit "1" "9").
  - apply elem_one in H as (a & -> & -> & Ha).
    split; [done|]. left. cbn. by apply (between_digit "1" "9").
  - apply elem_two in H as (a & b & -> & -> & Ha & Hb).
    split; [done|]. right. unfold space_digit. by rewrite Ha, Hb.
Qed.

Lemma string_app_empty (s : string) : s ++ "" = s.
Proof. induction s as [|a s IH]; [done|]. cbv [String.append]. fold String.append. by rewrite IH. Qed.

(** What [strptime] accepts has four digits, a dash, one or two digits, a
    dash and one or two digits (or a space and a digit), and is a calendar
    date. *)
Lemma strptime_Ymd_inv (s : string) (y m d : Z) :
  strptime_Ymd s = Some (y, m, d) ->
  exists Y M D,
    s = Y ++ "-" ++ M ++ "-" ++ D
    /\ four_digits Y = true /\ one_or_two_digits M = true
    /\ (one_or_two_digits D = true \/ space_digit D = true)
    /\ y = int Y /\ m = int M /\ d = int D
    /\ check_date_fields y m d = true.
Proof.
  unfold strptime_Ymd.
  destruct (re_match s) as [[[[Y M] D] rest]|] eqn:E; [|done].
  destruct (String.eqb_spec rest "") as [-> | ?]; [|done].
  destruct (check_date_fields (int Y) (int M) (int D)) eqn:F; [|done].
  intros [= <- <- <-]. exists Y, M, D.
  unfold re_match in E. apply head_Some_elem_of in E.
  apply list_elem_of_bind in E as ([y' r1] & E & HY). cbn beta iota zeta in E.
  apply list_elem_of_bind in E as ([t1 r2] & E & H1). cbn beta iota zeta in E.
  apply list_elem_of_bind in E as ([m' r3] & E & HM). cbn beta iota zeta in E.
  apply list_elem_of_bind in E as ([t2 r4] & E & H2). cbn beta iota zeta in E.
  apply list_elem_of_bind in E as ([d' r5] & E & HD). cbn beta iota zeta in E.
  apply list_elem_of_singleton in E. injection E as <- <- <- <-.
  apply elem_four in HY as (a & b & c & e & -> & -> & Ha & Hb & Hc & He).
  apply elem_one in H1 as (? & -> & _ & ->%is_char_eq).
  apply re_m_text in HM as [-> HM].
  apply elem_one in H2 as (? & -> & _ & ->%is_char_eq).
  apply re_d_text in HD as [-> HD].
  split.
  { rewrite string_app_empty. reflexivity. }
  split; [cbn; by rewrite Ha, Hb, Hc, He|].
  done.
Qed.

Lemma no_space_app (a b : string) : no_space (a ++ b) = no_space a && no_space b.
Proof.
  induction a as [|c a IH]; [done|].
  change (String c a ++ b) with (String c (a ++ b)). cbn [no_space].
  by rewrite IH, andb_assoc.
Qed.

Lemma split_from_no_space (s word : string) :
  no_space word = true ->
  Forall (fun tok => no_space tok = true) (split_from s word).
Proof.
  revert word. induction s as [|c s IH]; intros word Hw; cbn [split_from].
  - destruct (String.eqb word ""); by repeat constructor.
  - destruct (isspace c) eqn:Hc.
    + destruct (String.eqb word ""); [by apply IH|]. constructor; [done|]. by apply IH.
    + apply IH. rewrite no_space_app, Hw. cbn. by rewrite Hc.
Qed.

Lemma split_no_space (s : string) :
  Forall (fun tok => no_space tok = true) (split s).
Proof. by apply split_from_no_space. Qed.

(** The lines that the validator accepts: three fields, the first of which
    is a calendar date written with four digits for the year and one or two
    digits for the month and for the day, the second a known size and the
    third a known provider. *)
Lemma check_transaction_valid_iff (line date size provider : string) :
  check_transaction line = [date; size; provider]
  <-> split line = [date; size; provider]
      /\ (exists Y M D,
            date = Y ++ "-" ++ M ++ "-" ++ D
            /\ four_digits Y = true /\ one_or_two_digits M = true
            /\ one_or_two_digits D = true
            /\ check_date_fields (int Y) (int M) (int D) = true)
      /\ size ∈ valid_sizes /\ provider ∈ valid_providers.
Proof.
  split.
  - intros H. apply check_transaction_accepts in H
      as [(d & s & p & [= <- <- <-] & Hsplit & [[[y m] dd] Hd] & Hs & Hp) | [[=] _]].
    split; [done|]. split; [|done].
    apply strptime_Ymd_inv in Hd as (Y & M & D & -> & HY & HM & [HD | HD] & -> & -> & -> & F).
    { by exists Y, M, D. }
    exfalso. pose proof (split_no_space line) as Hns. rewrite Hsplit in Hns.
    apply Forall_cons in Hns as [Hns _].
    rewrite !no_space_app in Hns.
    repeat (apply andb_true_iff in Hns as [_ Hns]).
    destruct D as [|a [|b [|? ?]]]; try discriminate HD.
    cbn [space_digit] in HD. apply andb_true_iff in HD as [->%is_char_eq _].
    discriminate Hns.
  - intros (Hsplit & (Y & M & D & -> & HY & HM & HD & F) & Hs & Hp).
    unfold check_transaction. rewrite Hsplit.
    rewrite strptime_Ymd_digits, F by done.
    rewrite !bool_decide_eq_false_2 by (intros H; by apply H). done.
Qed.

(** In particular, on a first field of the form YYYY-MM-DD the validator
    accepts exactly the calendar dates. *)
Lemma strptime_iso_form (s : string) :
  iso_form s = true ->
  strptime_Ymd s =
  if check_date_fields (int (substring 0 4 s)) (int (substring 5 2 s)) (int (substring 8 2 s))
  then Some (int (substring 0 4 s), int (substring 5 2 s), int (substring 8 2 s))
  else None.
Proof.
  destruct s as [|y1 [|y2 [|y3 [|y4 [|s1 [|m1 [|m2 [|s2 [|d1 [|d2 [|? ?]]]]]]]]]]];
    try discriminate.
  cbn [iso_form]. intros H.
  apply andb_true_iff in H as [H Hd2]. apply andb_true_iff in H as [H Hd1].
  apply andb_true_iff in H as [H Hs2]. apply andb_true_iff in H as [H Hm2].
  apply andb_true_iff in H as [H Hm1]. apply andb_true_iff in H as [H Hs1].
  apply andb_true_iff in H as [H Hy4]. apply andb_true_iff in H as [H Hy3].
  apply andb_true_iff in H as [Hy1 Hy2].
  apply is_char_eq in Hs1, Hs2. subst s1 s2. cbn [substring].
  apply (strptime_Ymd_digits (String y1 (String y2 (String y3 (String y4 ""))))
           (String m1 (String m2 "")) (String d1 (String d2 ""))).
  - cbn. by rewrite Hy1, Hy2, Hy3, Hy4.
  - cbn. by rewrite Hm1, Hm2.
  - cbn. by rewrite Hd1, Hd2.
Qed.

(** C2 (the code departs from the claim): the line "2024-8-9 S LP" splits
    into three fields whose first one is not of the form YYYY-MM-DD, and
    the validator accepts it: [strptime] reads months and days of one
    digit. The year-month key of the accepted date is then "2024-8-", not
    the "2024-08" of the other dates of August 2024. *)
Theorem single_digit_date_accepted :
  split "2024-8-9 S LP" = ["2024-8-9"; "S"; "LP"]
  /\ iso_form "2024-8-9" = false
  /\ check_transaction "2024-8-9 S LP" = ["2024-8-9"; "S"; "LP"]
  /\ month_key (check_transaction "2024-8-9 S LP") = "2024-8-"
  /\ month_key (check_transaction "2024-08-09 S LP") = "2024-08".
Proof. repeat split; reflexivity. Qed.

(** A consequence: August 2024 written in both ways is tracked as two
    months, and their third Large LP shipments are both free. *)
Lemma single_digit_month_two_budgets :
  pipeline ["2024-08-01 L LP"; "2024-08-02 L LP"; "2024-08-03 L LP";
            "2024-8-4 L LP"; "2024-8-5 L LP"; "2024-8-6 L LP"]
  = Some ["2024-08-01 L LP 6.90 -"; "2024-08-02 L LP 6.90 -"; "2024-08-03 L LP 0.00 6.90";
          "2024-8-4 L LP 6.90 -"; "2024-8-5 L LP 6.90 -"; "2024-8-6 L LP 0.00 6.90"].
Proof. vm_compute. reflexivity. Qed.

(* ===================================================================== *)
(** ** The monthly budget (C3) *)
(* ===================================================================== *)

Lemma forallb_app_inv {A} (f : A -> bool) (l1 l2 : list A) :
  forallb f (l1 ++ l2) = true -> forallb f l1 = true /\ forallb f l2 = true.
Proof. rewrite forallb_app. apply andb_true_iff. Qed.

(** A validated run, cut in two. *)
Lemma charges_segments (pre mid : list entry) :
  forallb validated pre = true ->
  forallb validated mid = true ->
  exists os1 t1 os2 t2,
    charges pre ∅ = Some (os1, t1) /\ state_after pre = Some t1
    /\ charges mid t1 = Some (os2, t2) /\ state_after (pre ++ mid) = Some t2
    /\ tracking_ok t1 /\ tracking_ok t2
    /\ length os1 = length pre
    /\ forall ym,
         L_LP_count (item ym t1) = running_count ym pre
         /\ L_LP_count (item ym t2) = running_count ym mid + L_LP_count (item ym t1)
         /\ leb (discount_used ym t1) (discount_used ym t2) = true.
Proof.
  intros Hpre Hmid.
  destruct (process_loop_charges pre Hpre ∅ []) as (os1 & t1 & Hc1 & Hl1 & _).
  destruct (process_loop_charges mid Hmid t1 []) as (os2 & t2 & Hc2 & _ & _).
  destruct (charges_facts pre Hpre ∅ os1 t1 tracking_ok_empty Hc1) as (Hok1 & _ & F1).
  destruct (charges_facts mid Hmid t1 os2 t2 Hok1 Hc2) as (Hok2 & _ & F2).
  exists os1, t1, os2, t2.
  split; [done|]. split; [by rewrite state_after_charges, Hc1|].
  split; [done|]. split.
  { rewrite state_after_charges, charges_app, Hc1 by (rewrite forallb_app; by rewrite Hpre, Hmid).
    cbn. by rewrite Hc2. }
  split; [done|]. split; [done|]. split; [done|].
  intros ym. destruct (F1 ym) as (C1 & _). destruct (F2 ym) as (C2 & _ & _ & M2).
  rewrite item_empty in C1. cbn in C1. split; [lia|]. split; done.
Qed.

(** C3: over a run on validated transactions, the discount recorded for a
    month never decreases from one point of the pass to a later one and
    never exceeds 10.00; it is the sum, in processing order, of the
    discounts applied to the priced transactions of the month, so this sum
    never exceeds 10.00 either, neither as a float nor as printed cents. *)
Theorem monthly_budget (ts : list entry) (ym : string) :
  forallb validated ts = true ->
  exists os t,
    charges ts ∅ = Some (os, t) /\ state_after ts = Some t
    /\ (forall i j, i <= j ->
          exists ti tj,
            state_after (take i ts) = Some ti /\ state_after (take j ts) = Some tj
            /\ leb (discount_used ym ti) (discount_used ym tj) = true
            /\ leb (discount_used ym tj) monthly_limit = true)
    /\ foldl add zero (month_discounts ym ts os) = discount_used ym t
    /\ leb (foldl add zero (month_discounts ym ts os)) monthly_limit = true
    /\ (sum_cents (month_discounts ym ts os) = cents (discount_used ym t))%Z
    /\ (sum_cents (month_discounts ym ts os) <= 1000)%Z.
Proof.
  intros Hv.
  destruct (process_loop_charges ts Hv ∅ []) as (os & t & Hc & _ & _).
  destruct (charges_facts ts Hv ∅ os t tracking_ok_empty Hc) as (Hok & _ & F).
  exists os, t. split; [done|]. split; [by rewrite state_after_charges, Hc|].
  split.
  { intros i j Hij.
    assert (take j ts = (take i ts ++ drop i (take j ts))%list) as Hcut.
    { rewrite <- (take_drop i (take j ts)) at 1. rewrite take_take.
      by replace (i `min` j) with i by lia. }
    assert (forallb validated (take j ts) = true) as Hj by by apply forallb_take.
    rewrite Hcut in Hj. apply forallb_app_inv in Hj as [Hi Hd].
    destruct (charges_segments _ _ Hi Hd)
      as (os1 & t1 & os2 & t2 & _ & S1 & _ & S2 & _ & Hok2 & _ & M).
    exists t1, t2. rewrite Hcut. split; [done|]. split; [done|].
    split; [apply M|]. apply leb_budget_limit, Hok2. }
  destruct (F ym) as (_ & Hsum & Hcents & _).
  unfold discount_used in Hsum at 2, Hcents at 2. rewrite item_empty in Hsum, Hcents.
  cbn [discount fresh_month] in Hsum, Hcents.
  split; [done|]. split; [rewrite <- Hsum; apply leb_budget_limit, Hok|].
  change (cents zero) with 0%Z in Hcents. split; [lia|].
  pose proof (leb_budget_limit _ (Hok ym)) as Hle.
  rewrite (leb_cents _ _ (Hok ym) in_budget_limit) in Hle.
  apply Z.leb_le in Hle. change (cents monthly_limit) with 1000%Z in Hle. lia.
Qed.

Lemma monthly_budget_witness :
  exists os t,
    charges [["2024-08-09"; "S"; "MR"]; ["2024-08-10"; "L"; "LP"]] ∅ = Some (os, t)
    /\ (sum_cents (month_discounts "2024-08"
                     [["2024-08-09"; "S"; "MR"]; ["2024-08-10"; "L"; "LP"]] os) <= 1000)%Z.
Proof.
  destruct (monthly_budget [["2024-08-09"; "S"; "MR"]; ["2024-08-10"; "L"; "LP"]]
              "2024-08" eq_refl) as (os & t & H1 & _ & _ & _ & _ & _ & H2).
  exists os, t. split; [exact H1 | exact H2].
Defined.

(* ===================================================================== *)
(** ** The third Large LP shipment (C4) and the cap (C5) *)
(* ===================================================================== *)

Lemma clamp_facts candidate d :
  candidate = literal 690 2 \/ candidate = literal 50 2 ->
  in_budget d = true ->
  gtb (add d candidate) monthly_limit = true ->
  add d (sub monthly_limit d) = monthly_limit
  /\ (ltb d monthly_limit = true -> ltb zero (sub monthly_limit d) = true)
  /\ (eqb d monthly_limit = true -> d = monthly_limit).
Proof.
  intros Hc Hd Hg.
  pose proof (budget_facts_hold _ Hd) as F. unfold budget_facts in F.
  apply andb_true_iff in F as [F FB].
  apply andb_true_iff in F as [_ FA].
  assert (clamp_ok candidate d = true) as H by (by destruct Hc as [-> | ->]).
  unfold clamp_ok in H. rewrite Hg in H. cbn [implb] in H.
  apply andb_true_iff in H as [H H3].
  apply andb_true_iff in H as [H1%bool_decide_eq_true H2].
  split; [done|]. split.
  - intros E. by rewrite E in H2.
  - intros E. rewrite E in H3. by apply bool_decide_eq_true in H3.
Qed.

Lemma state_after_facts (pre : list entry) :
  forallb validated pre = true ->
  exists t,
    state_after pre = Some t /\ tracking_ok t
    /\ forall ym, L_LP_count (item ym t) = running_count ym pre.
Proof.
  intros Hpre.
  destruct (charges_segments pre [] Hpre eq_refl)
    as (os1 & t & os2 & t2 & _ & S1 & _ & _ & Hok & _ & _ & F).
  exists t. split; [done|]. split; [done|]. intros ym. apply F.
Qed.

Lemma process_entry_L_LP date (t : tracking) acc :
  process_entry [date; "L"; "LP"] t acc =
  '(new_price, discount_amount, t') ← calculate_discount "L" "LP" (slice_to 7 date) t;
  Some (append_line acc (priced_line date "L" "LP" (literal 690 2) new_price discount_amount), t').
Proof. rewrite process_entry_priced by auto. reflexivity. Qed.

(** A Large LP shipment that comes after the validated transactions [pre],
    by the running count [n] of its year-month key: the price, the
    discount, the line and the counter. *)
Lemma large_LP_run (pre : list entry) (date : string) :
  forallb validated pre = true ->
  let ym := slice_to 7 date in
  let n := S (running_count ym pre) in
  exists t new_price discount_amount t',
    state_after pre = Some t
    /\ calculate_discount "L" "LP" ym t = Some (new_price, discount_amount, t')
    /\ process_entry [date; "L"; "LP"] t []
       = Some ([priced_line date "L" "LP" (literal 690 2) new_price discount_amount], t')
    /\ L_LP_count (item ym t') = n
    /\ (n <> 3 ->
        new_price = literal 690 2 /\ discount_amount = zero
        /\ discount_used ym t' = discount_used ym t
        /\ priced_line date "L" "LP" (literal 690 2) new_price discount_amount
           = date ++ " L LP 6.90 -")
    /\ (n = 3 ->
        gtb (add (discount_used ym t) (literal 690 2)) monthly_limit = false ->
        new_price = zero /\ discount_amount = literal 690 2
        /\ priced_line date "L" "LP" (literal 690 2) new_price discount_amount
           = date ++ " L LP 0.00 6.90")
    /\ (n = 3 ->
        ltb (discount_used ym t) monthly_limit = true ->
        ltb zero discount_amount = true).
Proof.
  intros Hpre ym n.
  destruct (state_after_facts pre Hpre) as (t & Hs & Hok & Hcount).
  exists t. rewrite process_entry_L_LP. fold ym.
  rewrite calculate_discount_local, calc_local_L_LP. cbn [mbind option_bind].
  rewrite (Hcount ym). fold n.
  destruct (Nat.eqb_spec n 3) as [Hn | Hn].
  - unfold grant. fold (discount_used ym t).
    destruct (gtb (add (discount_used ym t) (literal 690 2)) monthly_limit) eqn:G.
    + eexists _, _, _. split; [done|]. split; [reflexivity|]. split; [reflexivity|].
      cbn [commit]. rewrite item_insert_eq. cbn [L_LP_count].
      split; [done|]. split; [done|]. split; [done|].
      intros _ Hlt. by apply (clamp_facts (literal 690 2) _ (or_introl eq_refl) (Hok ym) G).
    + eexists _, _, _. split; [done|]. split; [reflexivity|]. split; [reflexivity|].
      cbn [commit]. rewrite item_insert_eq. cbn [L_LP_count].
      split; [done|]. split; [done|]. split; [done|]. done.
  - eexists _, _, _. split; [done|]. split; [reflexivity|]. split; [reflexivity|].
    cbn [commit]. rewrite item_insert_eq. cbn [L_LP_count].
    split; [done|]. split; [|split; done].
    intros _. by rewrite discount_used_insert.
Qed.

(** The year-month key is the first seven characters of the date. *)
Lemma slice_to_app (a b : string) : slice_to (String.length a) (a ++ b) = a.
Proof.
  unfold slice_to. induction a as [|c a IH].
  - cbn. by destruct b.
  - cbn [String.length]. change (String c a ++ b) with (String c (a ++ b)).
    cbn [substring]. by rewrite IH.
Qed.

Lemma slice_to_prefix (month date : string) :
  String.length month = 7 ->
  String.eqb (slice_to 7 date) month = String.prefix month date.
Proof.
  intros Hlen.
  destruct (String.prefix month date) eqn:E.
  - apply prefix_correct in E. rewrite Hlen in E. apply String.eqb_eq. exact E.
  - apply String.eqb_neq. intros H. unfold slice_to in H. rewrite <- Hlen in H.
    apply prefix_correct in H. congruence.
Qed.

Lemma running_count_month (month : string) (ts : list entry) :
  String.length month = 7 ->
  running_count month ts = count_large_LP month ts.
Proof.
  intros Hlen. unfold running_count, count_large_LP. f_equal.
  apply List.filter_ext. intros e.
  destruct e as [|date [|size [|provider [|? ?]]]]; try reflexivity.
  cbn [is_L_LP large_LP_in_month]. by rewrite slice_to_prefix.
Qed.

(** C4: the month of a Large LP shipment is the first seven characters of
    its date, and the shipment is the [n]-th of its month, [n] being one
    more than the number of Large LP shipments of [pre] whose date begins
    with the same seven characters: the shipments of the other months do
    not count. When [n] is not 3 it is charged 6.90 with no discount and
    leaves the budget as it is; when [n] is 3 it is free with a discount of
    6.90 if the budget allows, and gets some discount as long as the budget
    is not used up. The counter of the month becomes [n], so that no later
    shipment is the third again. *)
Theorem third_large_LP (pre : list entry) (date : string) :
  forallb validated pre = true ->
  let ym := slice_to 7 date in
  let n := S (running_count ym pre) in
  (forall month rest,
     date = month ++ rest -> String.length month = 7 ->
     ym = month /\ n = S (count_large_LP month pre))
  /\ exists t new_price discount_amount t',
    state_after pre = Some t
    /\ calculate_discount "L" "LP" ym t = Some (new_price, discount_amount, t')
    /\ process_entry [date; "L"; "LP"] t []
       = Some ([priced_line date "L" "LP" (literal 690 2) new_price discount_amount], t')
    /\ L_LP_count (item ym t') = n
    /\ (n <> 3 ->
        new_price = literal 690 2 /\ discount_amount = zero
        /\ discount_used ym t' = discount_used ym t
        /\ priced_line date "L" "LP" (literal 690 2) new_price discount_amount
           = date ++ " L LP 6.90 -")
    /\ (n = 3 ->
        gtb (add (discount_used ym t) (literal 690 2)) monthly_limit = false ->
        new_price = zero /\ discount_amount = literal 690 2
        /\ priced_line date "L" "LP" (literal 690 2) new_price discount_amount
           = date ++ " L LP 0.00 6.90")
    /\ (n = 3 ->
        ltb (discount_used ym t) monthly_limit = true ->
        ltb zero discount_amount = true).
Proof.
  intros Hpre ym n. split; [|by apply large_LP_run].
  intros month rest -> Hlen.
  assert (ym = month) as Hym.
  { unfold ym. rewrite <- Hlen. apply slice_to_app. }
  split; [exact Hym|]. unfold n. rewrite Hym. f_equal. by apply running_count_month.
Qed.

Lemma third_large_LP_witness :
  (exists t t',
     state_after [["2024-07-30"; "L"; "LP"]; ["2024-07-31"; "L"; "LP"]] = Some t
     /\ process_entry ["2024-08-01"; "L"; "LP"] t []
        = Some (["2024-08-01 L LP 6.90 -"], t')
     /\ L_LP_count (item "2024-08" t') = 1)
  /\ (exists t t',
        state_after [["2024-07-30"; "L"; "LP"]; ["2024-07-31"; "L"; "LP"];
                     ["2024-08-01"; "L"; "LP"]; ["2024-08-02"; "L"; "LP"]] = Some t
        /\ process_entry ["2024-08-03"; "L"; "LP"] t []
           = Some (["2024-08-03 L LP 0.00 6.90"], t')
        /\ L_LP_count (item "2024-08" t') = 3).
Proof.
  split.
  - destruct (third_large_LP [["2024-07-30"; "L"; "LP"]; ["2024-07-31"; "L"; "LP"]]
                "2024-08-01" eq_refl)
      as (Hm & t & p & g & t' & Hs & _ & Hp & Hn & H12 & _).
    destruct (Hm "2024-08" "-01" eq_refl eq_refl) as [_ Hcount].
    cbv zeta in Hn, H12. rewrite Hcount in Hn, H12.
    destruct (H12 ltac:(vm_compute; discriminate)) as (_ & _ & _ & Hline).
    exists t, t'. split; [exact Hs|]. split; [|exact Hn].
    rewrite Hp, Hline. reflexivity.
  - destruct (third_large_LP
                [["2024-07-30"; "L"; "LP"]; ["2024-07-31"; "L"; "LP"];
                 ["2024-08-01"; "L"; "LP"]; ["2024-08-02"; "L"; "LP"]]
                "2024-08-03" eq_refl)
      as (Hm & t & p & g & t' & Hs & _ & Hp & Hn & _ & H3 & _).
    destruct (Hm "2024-08" "-03" eq_refl eq_refl) as [_ Hcount].
    cbv zeta in Hn, H3. rewrite Hcount in Hn, H3.
    assert (state_after [["2024-07-30"; "L"; "LP"]; ["2024-07-31"; "L"; "LP"];
                         ["2024-08-01"; "L"; "LP"]; ["2024-08-02"; "L"; "LP"]]
            = Some {["2024-07" := MonthData 2 zero; "2024-08" := MonthData 2 zero]}) as Hs'
      by (vm_compute; reflexivity).
    pose proof Hs as Hst. rewrite Hs' in Hst. apply (inj Some) in Hst.
    assert (gtb (add (discount_used (slice_to 7 "2024-08-03") t) (literal 690 2))
              monthly_limit = false) as G by (rewrite <- Hst; vm_compute; reflexivity).
    destruct (H3 eq_refl G) as (_ & _ & Hline).
    exists t, t'. split; [exact Hs|]. split; [|exact Hn].
    rewrite Hp, Hline. reflexivity.
Defined.

Lemma PRICES_lookup provider (prices : gmap string float) :
  PRICES !! provider = Some prices -> provider = "LP" \/ provider = "MR".
Proof.
  unfold PRICES. rewrite lookup_insert_Some, lookup_singleton_Some. intuition.
Qed.

Lemma price_of_provider provider size base :
  price_of provider size = Some base -> provider = "LP" \/ provider = "MR".
Proof.
  unfold price_of. destruct (PRICES !! provider) as [prices|] eqn:E; [|done].
  intros _. by apply PRICES_lookup in E.
Qed.

(** C5: in a state reached by a run on validated transactions, when Rule A
    fires (the Large LP shipment is the third of its month) or Rule B fires
    with a candidate that is not zero: if the discount used plus the
    candidate exceeds 10.00, the discount granted is 10.00 minus the
    discount used, the discount used becomes exactly 10.00 and the price is
    the base price minus the discount granted; otherwise the candidate is
    granted, the discount used grows by the candidate and the price is 0.00
    for Rule A and the cheapest price of a Small shipment for Rule B. In
    both cases the amounts are exact to the cent: the discount used grows
    by the cents granted and the price is the base price less the cents
    granted. *)
Theorem cap_clamp (pre : list entry) (ym : string) :
  forallb validated pre = true ->
  exists t,
    state_after pre = Some t
    /\ (L_LP_count (item ym t) = 2 ->
        let candidate := literal 690 2 in
        exists new_price granted t',
          calculate_discount "L" "LP" ym t = Some (new_price, granted, t')
          /\ (if gtb (add (discount_used ym t) candidate) monthly_limit then
                granted = sub monthly_limit (discount_used ym t)
                /\ discount_used ym t' = monthly_limit
                /\ new_price = sub (literal 690 2) granted
              else
                granted = candidate
                /\ discount_used ym t' = add (discount_used ym t) candidate
                /\ new_price = zero)
          /\ cents (discount_used ym t') = (cents (discount_used ym t) + cents granted)%Z
          /\ cents new_price = (690 - cents granted)%Z)
    /\ (forall provider base lp mr,
        price_of provider "S" = Some base ->
        price_of "LP" "S" = Some lp ->
        price_of "MR" "S" = Some mr ->
        let cheapest := min lp mr in
        let candidate := sub base cheapest in
        neqb candidate zero = true ->
        exists new_price granted t',
          calculate_discount "S" provider ym t = Some (new_price, granted, t')
          /\ (if gtb (add (discount_used ym t) candidate) monthly_limit then
                granted = sub monthly_limit (discount_used ym t)
                /\ discount_used ym t' = monthly_limit
                /\ new_price = sub base granted
              else
                granted = candidate
                /\ discount_used ym t' = add (discount_used ym t) candidate
                /\ new_price = cheapest)
          /\ cents (discount_used ym t') = (cents (discount_used ym t) + cents granted)%Z
          /\ cents new_price = (cents base - cents granted)%Z).
Proof.
  intros Hpre.
  destruct (state_after_facts pre Hpre) as (t & Hs & Hok & _).
  exists t. split; [done|]. split.
  - intros Hcount candidate. subst candidate.
    destruct (calculate_discount_facts "L" "LP" ym t) as (p & g & t' & Hc & Hf & _);
      [auto | auto | done |].
    exists p, g, t'. split; [done|].
    destruct Hf as [_ _ _ _ Hcents _ _ _ Hprice _ _ _].
    split; [|split; [exact Hcents | exact Hprice]].
    rewrite calculate_discount_local, calc_local_L_LP, Hcount in Hc.
    cbn [Nat.eqb] in Hc. unfold grant in Hc. fold (discount_used ym t) in Hc.
    destruct (gtb (add (discount_used ym t) (literal 690 2)) monthly_limit) eqn:G;
      cbn [mbind option_bind commit] in Hc;
      apply (inj Some) in Hc; apply pair_equal_spec in Hc as [Hc <-];
      apply pair_equal_spec in Hc as [<- <-];
      rewrite discount_used_insert; cbn [discount].
    + split; [reflexivity|]. split; [|reflexivity].
      apply (clamp_facts (literal 690 2) _ (or_introl eq_refl) (Hok ym) G).
    + repeat split; reflexivity.
  - intros provider base lp mr Hb Hlp Hmr cheapest candidate Hne.
    change (price_of "LP" "S") with (Some (literal 150 2)) in Hlp.
    change (price_of "MR" "S") with (Some (literal 200 2)) in Hmr.
    injection Hlp as <-. injection Hmr as <-.
    destruct (price_of_provider _ _ _ Hb) as [-> | ->].
    { change (price_of "LP" "S") with (Some (literal 150 2)) in Hb.
      injection Hb as <-. vm_compute in Hne. discriminate Hne. }
    change (price_of "MR" "S") with (Some (literal 200 2)) in Hb. injection Hb as <-.
    change candidate with (literal 50 2). change cheapest with (literal 150 2).
    destruct (calculate_discount_facts "S" "MR" ym t) as (p & g & t' & Hc & Hf & _);
      [auto | auto | done |].
    exists p, g, t'. split; [done|].
    destruct Hf as [_ _ _ _ Hcents _ _ _ Hprice _ _ _].
    split; [|split; [exact Hcents | exact Hprice]].
    rewrite calculate_discount_local, calc_local_S_MR in Hc.
    unfold grant in Hc. fold (discount_used ym t) in Hc.
    destruct (gtb (add (discount_used ym t) (literal 50 2)) monthly_limit) eqn:G;
      cbn [mbind option_bind commit] in Hc;
      apply (inj Some) in Hc; apply pair_equal_spec in Hc as [Hc <-];
      apply pair_equal_spec in Hc as [<- <-];
      rewrite discount_used_insert; cbn [discount].
    + split; [reflexivity|]. split; [|reflexivity].
      apply (clamp_facts (literal 50 2) _ (or_intror eq_refl) (Hok ym) G).
    + repeat split; reflexivity.
Qed.

Lemma cap_clamp_witness :
  exists t new_price granted t',
    state_after (replicate 8 ["2024-08-09"; "S"; "MR"]
                   ++ replicate 2 ["2024-08-10"; "L"; "LP"]) = Some t
    /\ calculate_discount "L" "LP" "2024-08" t = Some (new_price, granted, t')
    /\ granted = sub monthly_limit (literal 400 2)
    /\ discount_used "2024-08" t' = monthly_limit
    /\ cents granted = 600%Z /\ cents new_price = 90%Z.
Proof.
  assert (state_after (replicate 8 ["2024-08-09"; "S"; "MR"]
                         ++ replicate 2 ["2024-08-10"; "L"; "LP"])
          = Some {["2024-08" := MonthData 2 (literal 400 2)]}) as Hs
    by (vm_compute; reflexivity).
  destruct (cap_clamp (replicate 8 ["2024-08-09"; "S"; "MR"]
                         ++ replicate 2 ["2024-08-10"; "L"; "LP"]) "2024-08" eq_refl)
    as (t & Hs' & HA & _).
  rewrite Hs in Hs'. injection Hs' as <-.
  destruct (HA eq_refl) as (p & g & t' & Hc & Hif & Hcents & Hprice).
  exists {["2024-08" := MonthData 2 (literal 400 2)]}, p, g, t'.
  split; [exact Hs|]. split; [exact Hc|].
  assert (gtb (add (discount_used "2024-08" {["2024-08" := MonthData 2 (literal 400 2)]})
                 (literal 690 2)) monthly_limit = true) as G by (vm_compute; reflexivity).
  cbv zeta in Hif. rewrite G in Hif. destruct Hif as (Hg & Hd & _).
  assert (discount_used "2024-08" {["2024-08" := MonthData 2 (literal 400 2)]}
          = literal 400 2) as Hd0 by (vm_compute; reflexivity).
  rewrite Hd0 in Hg. split; [exact Hg|]. split; [exact Hd|].
  assert (cents g = 600%Z) as Hg600 by (rewrite Hg; vm_compute; reflexivity).
  split; [exact Hg600|]. rewrite Hprice, Hg600. reflexivity.
Defined.

(* ===================================================================== *)
(** ** Small shipments (C6) *)
(* ===================================================================== *)



(* ===================================================================== *)
(** ** Transactions of different months commute (C8) *)
(* ===================================================================== *)

Lemma charge_swap (e1 e2 : entry) (t : tracking) o1 (t1 : tracking) o2 (t2 : tracking) :
  priced_shape e1 = true -> priced_shape e2 = true ->
  month_key e1 ≠ month_key e2 ->
  charge e1 t = Some (o1, t1) ->
  charge e2 t1 = Some (o2, t2) ->
  exists t1', charge e2 t = Some (o2, t1') /\ charge e1 t1' = Some (o1, t2).
Proof.
  intros Hp1 Hp2 Hk H1 H2.
  pose proof (priced_not_ignored _ Hp1) as Hi1.
  pose proof (priced_not_ignored _ Hp2) as Hi2.
  destruct (priced_shape_cases _ Hp1) as (d1 & s1 & p1 & -> & _).
  destruct (priced_shape_cases _ Hp2) as (d2 & s2 & p2 & -> & _).
  cbn [month_key] in Hk.
  unfold charge in H1, H2. rewrite Hi1 in H1. rewrite Hi2 in H2.
  rewrite calculate_discount_local in H1, H2.
  destruct (calc_local s1 p1 (item (slice_to 7 d1) t)) as [[[a1 g1] r1]|] eqn:C1; [|done].
  cbn [mbind option_bind] in H1. injection H1 as <- <-.
  rewrite item_commit_ne in H2 by done.
  destruct (calc_local s2 p2 (item (slice_to 7 d2) t)) as [[[a2 g2] r2]|] eqn:C2; [|done].
  cbn [mbind option_bind] in H2. injection H2 as <- <-.
  exists (commit (slice_to 7 d2) t r2).
  unfold charge. rewrite Hi1, Hi2. rewrite !calculate_discount_local.
  rewrite item_commit_ne by done. rewrite C1, C2. cbn [mbind option_bind].
  split; [reflexivity|]. by rewrite commit_commute.
Qed.

(** C8: in a sequence of validated transactions, swapping two adjacent
    priced transactions whose year-month keys differ swaps their two output
    lines and changes nothing else: each of the two keeps its price and its
    discount, all the other outcomes and lines are the same, and so is the
    final tracking map. *)
Theorem swap_across_months (pre post : list entry) (e1 e2 : entry) :
  forallb validated pre = true ->
  forallb validated post = true ->
  priced_shape e1 = true ->
  priced_shape e2 = true ->
  month_key e1 ≠ month_key e2 ->
  exists os_pre o1 o2 os_post t,
    length os_pre = length pre /\ length os_post = length post
    /\ charges (pre ++ e1 :: e2 :: post) ∅ = Some ((os_pre ++ o1 :: o2 :: os_post)%list, t)
    /\ charges (pre ++ e2 :: e1 :: post) ∅ = Some ((os_pre ++ o2 :: o1 :: os_post)%list, t)
    /\ process_transactions (pre ++ e1 :: e2 :: post)
       = Some (zip_with render pre os_pre
                 ++ render e1 o1 :: render e2 o2 :: zip_with render post os_post)%list
    /\ process_transactions (pre ++ e2 :: e1 :: post)
       = Some (zip_with render pre os_pre
                 ++ render e2 o2 :: render e1 o1 :: zip_with render post os_post)%list.
Proof.
  intros Hpre Hpost Hp1 Hp2 Hk.
  assert (validated e1 = true) as Hv1 by (unfold validated; by rewrite Hp1).
  assert (validated e2 = true) as Hv2 by (unfold validated; by rewrite Hp2).
  assert (forallb validated (pre ++ e1 :: e2 :: post) = true) as Hall.
  { rewrite forallb_app. cbn. by rewrite Hpre, Hv1, Hv2, Hpost. }
  assert (forallb validated (pre ++ e2 :: e1 :: post) = true) as Hall'.
  { rewrite forallb_app. cbn. by rewrite Hpre, Hv1, Hv2, Hpost. }
  destruct (process_loop_charges pre Hpre ∅ []) as (os_pre & t0 & Hc0 & Hl0 & _).
  destruct (process_entry_charge e1 t0 [] Hv1) as (o1 & t1 & Hc1 & _).
  destruct (process_entry_charge e2 t1 [] Hv2) as (o2 & t2 & Hc2 & _).
  destruct (process_loop_charges post Hpost t2 []) as (os_post & t & Hc3 & Hl3 & _).
  destruct (charge_swap e1 e2 t0 o1 t1 o2 t2 Hp1 Hp2 Hk Hc1 Hc2) as (t1' & Hc2' & Hc1').
  assert (charges (pre ++ e1 :: e2 :: post) ∅ = Some ((os_pre ++ o1 :: o2 :: os_post)%list, t))
    as Horig.
  { rewrite charges_app, Hc0. cbn. rewrite Hc1. cbn. rewrite Hc2. cbn. by rewrite Hc3. }
  assert (charges (pre ++ e2 :: e1 :: post) ∅ = Some ((os_pre ++ o2 :: o1 :: os_post)%list, t))
    as Hswap.
  { rewrite charges_app, Hc0. cbn. rewrite Hc2'. cbn. rewrite Hc1'. cbn. by rewrite Hc3. }
  exists os_pre, o1, o2, os_post, t.
  split; [done|]. split; [done|]. split; [done|]. split; [done|].
  unfold process_transactions. split.
  - destruct (process_loop_charges _ Hall ∅ []) as (os & t' & Hc & _ & ->).
    rewrite Horig in Hc. injection Hc as <- <-. cbn.
    by rewrite zip_with_app.
  - destruct (process_loop_charges _ Hall' ∅ []) as (os & t' & Hc & _ & ->).
    rewrite Hswap in Hc. injection Hc as <- <-. cbn.
    by rewrite zip_with_app.
Qed.

Lemma swap_across_months_witness :
  exists l1 l2,
    process_transactions [["2024-08-31"; "S"; "MR"]; ["2024-09-01"; "L"; "LP"]] = Some [l1; l2]
    /\ process_transactions [["2024-09-01"; "L"; "LP"]; ["2024-08-31"; "S"; "MR"]] = Some [l2; l1].
Proof.
  assert ("2024-08" ≠ "2024-09") as Hk by discriminate.
  destruct (swap_across_months [] [] ["2024-08-31"; "S"; "MR"] ["2024-09-01"; "L"; "LP"]
              eq_refl eq_refl eq_refl eq_refl Hk)
    as (os_pre & o1 & o2 & os_post & t & L1 & L2 & _ & _ & H1 & H2).
  destruct os_pre; [|discriminate L1]. destruct os_post; [|discriminate L2].
  eexists _, _. split; [exact H1 | exact H2].
Defined.

(* ===================================================================== *)
(** ** The printed line (C9) *)
(* ===================================================================== *)

Lemma string_of_uint_digits (u : Decimal.uint) :
  all_digits (NilEmpty.string_of_uint u) = true.
Proof. induction u; simpl; try done; unfold all_digits in *; simpl; by rewrite IHu. Qed.

Lemma decimal_digits (n : Z) :
  exists c rest, decimal n = String c rest /\ is_digit c = true /\ all_digits rest = true.
Proof.
  unfold decimal. destruct (N.to_uint (Z.to_N n)) as [|u|u|u|u|u|u|u|u|u|u] eqn:E;
    simpl; eexists _, _; (split; [reflexivity|]); (split; [reflexivity|]);
    try apply string_of_uint_digits; reflexivity.
Qed.

Lemma digit_char_digit (d : Z) : (0 <= d < 10)%Z -> is_digit (digit_char d) = true.
Proof.
  intros H.
  assert (d = 0 \/ d = 1 \/ d = 2 \/ d = 3 \/ d = 4 \/ d = 5 \/ d = 6 \/ d = 7 \/ d = 8
          \/ d = 9)%Z as Hd by lia.
  repeat (destruct Hd as [-> | Hd]; [reflexivity|]). subst. reflexivity.
Qed.

Lemma digits_frac2_app (c : ascii) (ds tail : string) :
  is_digit c = true -> all_digits ds = true -> frac2 tail = true ->
  digits_frac2 (String c ds ++ tail) = true.
Proof.
  revert c. induction ds as [|c' ds IH]; intros c Hc Hds Ht.
  - change (String c "" ++ tail) with (String c tail).
    cbn [digits_frac2]. by rewrite Hc, Ht.
  - change (String c (String c' ds) ++ tail) with (String c (String c' ds ++ tail)).
    cbn [digits_frac2]. fold digits_frac2.
    unfold all_digits in Hds. simpl in Hds.
    apply andb_true_iff in Hds as [Hc' Hds].
    rewrite Hc, (IH c' Hc' Hds Ht). apply orb_true_r.
Qed.

Lemma is_digit_not_dash (c : ascii) : is_digit c = true -> is_char "-" c = false.
Proof.
  intros H. unfold is_char. destruct (Ascii.eqb_spec "-" c) as [<- | ?]; [|done].
  discriminate H.
Qed.

Lemma fixed2_two_decimals (c : Z) : (0 <= c)%Z -> digits_frac2 (fixed2 c) = true.
Proof.
  intros Hc. unfold fixed2.
  destruct (decimal_digits (c / 100)) as (d & rest & -> & Hd & Hrest).
  apply digits_frac2_app; [done | done |].
  cbv [String.append frac2]. change (is_char "." ".") with true.
  rewrite !digit_char_digit; [done | |]; apply Z.mod_pos_bound; lia.
Qed.

Lemma cents_abs_nonneg (m : positive) (e : Z) : (0 <= cents_abs m e)%Z.
Proof.
  unfold cents_abs. destruct e as [|p|p].
  - lia.
  - apply Z.mul_nonneg_nonneg; [lia|]. apply Z.pow_nonneg. lia.
  - assert (0 < 2 ^ Z.pos p)%Z as Hd by (apply Z.pow_pos_nonneg; lia).
    assert (0 <= 100 * Z.pos m / 2 ^ Z.pos p)%Z as Hq by (apply Z.div_pos; lia).
    destruct (2 * ((100 * Z.pos m) mod 2 ^ Z.pos p) ?= 2 ^ Z.pos p)%Z; [|lia|lia].
    destruct (Z.even _); lia.
Qed.

(** [.2f] prints every finite float with exactly two decimal places. *)
Lemma format_2f_two_decimals (x : float) :
  finite x = true -> two_decimals (format_2f x) = true.
Proof.
  destruct x as [[]|[]| |s m e]; try done. intros _. unfold format_2f.
  pose proof (fixed2_two_decimals _ (cents_abs_nonneg m e)) as H.
  destruct s; [exact H|].
  change (two_decimals (fixed2 (cents_abs m e)) = true).
  unfold two_decimals. destruct (fixed2 (cents_abs m e)) as [|c rest] eqn:E; [done|].
  rewrite is_digit_not_dash; [exact H|].
  simpl in H. by apply andb_true_iff in H as [? _].
Qed.

(** The shape of the line printed for a valid transaction that follows the
    validated transactions [pre]. *)
Lemma priced_line_shape (pre : list entry) (date size provider : string) :
  forallb validated pre = true ->
  priced_shape [date; size; provider] = true ->
  exists t new_price discount_amount t',
    state_after pre = Some t
    /\ calculate_discount size provider (slice_to 7 date) t
       = Some (new_price, discount_amount, t')
    /\ process_entry [date; size; provider] t []
       = Some ([date ++ " " ++ size ++ " " ++ provider ++ " " ++ format_2f new_price ++ " "
                  ++ (if eqb discount_amount zero then "-" else format_2f discount_amount)],
               t')
    /\ (eqb discount_amount zero = true <-> cents discount_amount = 0%Z)
    /\ two_decimals (format_2f new_price) = true
    /\ two_decimals (format_2f discount_amount) = true.
Proof.
  intros Hpre Hp.
  destruct (priced_shape_cases _ Hp) as (d & s & p & [= <- <- <-] & Hs & Hpr).
  destruct (state_after_facts pre Hpre) as (t & Hst & Hok & _).
  destruct (calculate_discount_facts size provider (slice_to 7 date) t Hs Hpr Hok)
    as (np & g & t' & Hc & Hf & _).
  exists t, np, g, t'. split; [done|]. split; [done|].
  rewrite process_entry_priced, Hc by done. cbn [mbind option_bind].
  destruct Hf. split.
  { unfold append_line, priced_line. cbn [app].
    destruct (eqb g zero) eqn:Eg.
    - rewrite (step_zero_price0 eq_refl) in *. rewrite step_price_eqb0. reflexivity.
    - rewrite andb_false_r. reflexivity. }
  split; [done|]. split; by apply format_2f_two_decimals.
Qed.

(* --------------------------------------------------------------------- *)
(** The amounts that the texts stand for *)

Lemma shown_spec (x : float) :
  shown x = true -> amount_of_text (format_2f x) = Some (cents x).
Proof.
  unfold shown. destruct (amount_of_text (format_2f x)) as [c|]; [|discriminate].
  intros H%Z.eqb_eq. by rewrite H.
Qed.

Lemma shown_facts_hold d : in_budget d = true -> shown_facts d = true.
Proof. apply (budget_forall shown_facts). vm_compute. reflexivity. Qed.

Lemma calc_local_shown size provider (r : month_data) price granted o :
  (size = "S" \/ size = "M" \/ size = "L") ->
  (provider = "LP" \/ provider = "MR") ->
  in_budget (discount r) = true ->
  calc_local size provider r = Some (price, granted, o) ->
  amounts_shown (price, granted, discount r) = true.
Proof.
  intros Hs Hp Hr.
  pose proof (shown_facts_hold _ Hr) as F. unfold shown_facts in F.
  apply andb_true_iff in F as [F FB]. apply andb_true_iff in F as [Fq FA].
  rewrite forallb_forall in Fq.
  pose proof (Fq _ (base_price_listed _ _ Hs Hp)) as Fbase.
  destruct Hs as [-> | [-> | ->]], Hp as [-> | ->];
    rewrite ?calc_local_S_MR, ?calc_local_L_LP, ?calc_local_quiet by tauto;
    try (intros [= <- <- <-]; exact Fbase).
  - clear FA. destruct (grant _ _ _ (discount r)) as [[? ?] ?].
    intros [= <- <- <-]. exact FB.
  - clear FB. destruct (Nat.eqb _ 3).
    + destruct (grant _ _ _ (discount r)) as [[? ?] ?]. intros [= <- <- <-]. exact FA.
    + intros [= <- <- <-]. exact Fbase.
Qed.

Lemma listed_price_base size provider :
  (size = "S" \/ size = "M" \/ size = "L") ->
  (provider = "LP" \/ provider = "MR") ->
  format_2f (base_price provider size) = listed_price provider size
  /\ amount_of_text (listed_price provider size) = Some (cents (base_price provider size)).
Proof. intros [-> | [-> | ->]] [-> | ->]; split; vm_compute; reflexivity. Qed.

(** What [.2f] prints for the price and the discount of a valid
    transaction are the texts of their amounts in cents, and the two
    amounts add up to the listed price. *)
Lemma calculate_discount_shown size provider ym (t : tracking)
    new_price discount_amount (t' : tracking) :
  (size = "S" \/ size = "M" \/ size = "L") ->
  (provider = "LP" \/ provider = "MR") ->
  tracking_ok t ->
  calculate_discount size provider ym t = Some (new_price, discount_amount, t') ->
  amount_of_text (format_2f new_price) = Some (cents new_price)
  /\ amount_of_text (format_2f discount_amount) = Some (cents discount_amount)
  /\ amount_of_text (listed_price provider size)
     = Some (cents new_price + cents discount_amount)%Z
  /\ (eqb discount_amount zero = true -> format_2f new_price = listed_price provider size).
Proof.
  intros Hs Hp Hok Hc.
  destruct (calculate_discount_facts size provider ym t Hs Hp Hok)
    as (np & g & t'' & Hc' & Hf & _).
  rewrite Hc in Hc'. apply (inj Some) in Hc'.
  apply pair_equal_spec in Hc' as [Hc' _]. apply pair_equal_spec in Hc' as [<- <-].
  pose proof Hc as Hl. rewrite calculate_discount_local in Hl.
  destruct (calc_local _ _ _) as [[[np' g'] o]|] eqn:E; [|done].
  cbn [mbind option_bind] in Hl. apply (inj Some) in Hl.
  apply pair_equal_spec in Hl as [Hl _]. apply pair_equal_spec in Hl as [-> ->].
  apply calc_local_shown in E; [|done | done | apply Hok].
  unfold amounts_shown in E. apply andb_true_iff in E as [E1%shown_spec E2%shown_spec].
  destruct (listed_price_base size provider Hs Hp) as [Ht Ha].
  destruct Hf as [_ _ _ _ _ _ _ Hz Hprice _ _ _].
  split; [exact E1|]. split; [exact E2|]. split.
  - rewrite Ha. f_equal. lia.
  - intros Hg. by rewrite (Hz Hg).
Qed.

(** C9: the line printed for a valid transaction that follows the validated
    transactions [pre] is the date, the size, the provider, the price with
    two decimal places and then either a dash or the discount with two
    decimal places; the dash is printed exactly when the discount is zero,
    which is exactly when it would print as 0.00. The texts are those of
    the amounts: the text of the price stands for the price in cents, the
    text of the discount for the discount in cents, the two amounts add up
    to the listed price, and without a discount the text of the price is
    the listed price itself. *)
Theorem priced_line_format (pre : list entry) (date size provider : string) :
  forallb validated pre = true ->
  priced_shape [date; size; provider] = true ->
  exists t new_price discount_amount t',
    state_after pre = Some t
    /\ calculate_discount size provider (slice_to 7 date) t
       = Some (new_price, discount_amount, t')
    /\ process_entry [date; size; provider] t []
       = Some ([date ++ " " ++ size ++ " " ++ provider ++ " " ++ format_2f new_price ++ " "
                  ++ (if eqb discount_amount zero then "-" else format_2f discount_amount)],
               t')
    /\ (eqb discount_amount zero = true <-> cents discount_amount = 0%Z)
    /\ two_decimals (format_2f new_price) = true
    /\ two_decimals (format_2f discount_amount) = true
    /\ amount_of_text (format_2f new_price) = Some (cents new_price)
    /\ amount_of_text (format_2f discount_amount) = Some (cents discount_amount)
    /\ amount_of_text (listed_price provider size)
       = Some (cents new_price + cents discount_amount)%Z
    /\ (eqb discount_amount zero = true -> format_2f new_price = listed_price provider size).
Proof.
  intros Hpre Hp.
  destruct (priced_line_shape pre date size provider Hpre Hp)
    as (t & np & g & t' & Hs & Hc & Hl & Hz & Hnp & Hg).
  destruct (priced_shape_cases _ Hp) as (d & s & p & [= <- <- <-] & Hsz & Hpr).
  destruct (state_after_facts pre Hpre) as (t0 & Hs0 & Hok & _).
  rewrite Hs in Hs0. apply (inj Some) in Hs0 as <-.
  exists t, np, g, t'. do 6 (split; [done|]).
  by apply (calculate_discount_shown size provider (slice_to 7 date) t np g t').
Qed.

Lemma priced_line_format_witness :
  exists t t',
    state_after (replicate 19 ["2024-08-01"; "S"; "MR"] ++ replicate 2 ["2024-08-02"; "L"; "LP"])
    = Some t
    /\ process_entry ["2024-08-03"; "L"; "LP"] t []
       = Some (["2024-08-03 L LP 6.40 0.50"], t').
Proof.
  destruct (priced_line_format
              (replicate 19 ["2024-08-01"; "S"; "MR"] ++ replicate 2 ["2024-08-02"; "L"; "LP"])
              "2024-08-03" "L" "LP" eq_refl eq_refl)
    as (t & np & g & t' & Hs & Hc & Hl & _).
  exists t, t'. split; [exact Hs|]. rewrite Hl.
  pose proof Hs as Hs'. vm_compute in Hs'. apply (inj Some) in Hs'.
  rewrite <- Hs' in Hc. vm_compute in Hc. apply (inj Some) in Hc.
  apply pair_equal_spec in Hc as [Hc _]. apply pair_equal_spec in Hc as [<- <-].
  vm_compute. reflexivity.
Defined.

(* ===================================================================== *)
(** ** The third Large LP shipment on a used-up budget (C10) *)
(* ===================================================================== *)

Lemma running_count_snoc_L_LP (pre : list entry) date :
  running_count (slice_to 7 date) (pre ++ [[date; "L"; "LP"]])
  = S (running_count (slice_to 7 date) pre).
Proof.
  unfold running_count. rewrite List.filter_app, length_app.
  cbn. rewrite String.eqb_refl. cbn. lia.
Qed.

Lemma late_large_LP (t : tracking) (date : string) :
  3 <= L_LP_count (item (slice_to 7 date) t) ->
  exists t',
    calculate_discount "L" "LP" (slice_to 7 date) t = Some (literal 690 2, zero, t')
    /\ L_LP_count (item (slice_to 7 date) t') = S (L_LP_count (item (slice_to 7 date) t))
    /\ process_entry [date; "L"; "LP"] t [] = Some ([date ++ " L LP 6.90 -"], t').
Proof.
  intros Hn. rewrite process_entry_L_LP.
  rewrite calculate_discount_local, calc_local_L_LP.
  destruct (Nat.eqb_spec (S (L_LP_count (item (slice_to 7 date) t))) 3) as [E | _]; [lia|].
  eexists. cbn [mbind option_bind commit]. split; [reflexivity|].
  rewrite item_insert_eq. split; reflexivity.
Qed.

(** C10: when the budget of the month is used up (the discount used is
    10.00) and the third Large LP shipment of the month arrives, it is
    charged 6.90 with a discount of zero and its line ends with a dash; the
    counter of the month still goes to 3, and whatever validated
    transactions follow, the counter stays at 3 or more, so that every later
    Large LP shipment of the month is charged 6.90 without discount, and
    counted. *)
Theorem exhausted_budget_third_large (pre mid : list entry) (date date' : string)
    (t : tracking) :
  forallb validated pre = true ->
  forallb validated mid = true ->
  state_after pre = Some t ->
  item (slice_to 7 date) t = MonthData 2 monthly_limit ->
  slice_to 7 date' = slice_to 7 date ->
  exists t',
    calculate_discount "L" "LP" (slice_to 7 date) t = Some (literal 690 2, zero, t')
    /\ process_entry [date; "L"; "LP"] t [] = Some ([date ++ " L LP 6.90 -"], t')
    /\ item (slice_to 7 date) t' = MonthData 3 monthly_limit
    /\ exists t2 t3,
         state_after (pre ++ [date; "L"; "LP"] :: mid) = Some t2
         /\ 3 <= L_LP_count (item (slice_to 7 date) t2)
         /\ calculate_discount "L" "LP" (slice_to 7 date) t2 = Some (literal 690 2, zero, t3)
         /\ L_LP_count (item (slice_to 7 date) t3)
            = S (L_LP_count (item (slice_to 7 date) t2))
         /\ process_entry [date'; "L"; "LP"] t2 [] = Some ([date' ++ " L LP 6.90 -"], t3).
Proof.
  intros Hpre Hmid Hst Hitem Hkey.
  rewrite process_entry_L_LP.
  rewrite calculate_discount_local, calc_local_L_LP, Hitem.
  cbn [L_LP_count discount Nat.eqb].
  change (grant (literal 690 2) (literal 690 2) zero monthly_limit)
    with (literal 690 2, zero, monthly_limit).
  eexists. cbn [mbind option_bind commit]. split; [reflexivity|].
  split; [reflexivity|]. split; [by rewrite item_insert_eq|].
  assert (forallb validated (pre ++ [[date; "L"; "LP"]]) = true) as Hpre'.
  { rewrite forallb_app, Hpre. reflexivity. }
  destruct (charges_segments _ _ Hpre' Hmid)
    as (os1 & t1 & os2 & t2 & _ & _ & _ & S2 & _ & _ & _ & F).
  destruct (F (slice_to 7 date)) as (C1 & C2 & _).
  destruct (state_after_facts pre Hpre) as (t0 & Hst0 & _ & C0).
  rewrite Hst in Hst0. injection Hst0 as <-.
  rewrite running_count_snoc_L_LP, <- C0, Hitem in C1. cbn [L_LP_count] in C1.
  assert (3 <= L_LP_count (item (slice_to 7 date) t2)) as Hn by lia.
  rewrite <- Hkey in Hn.
  destruct (late_large_LP t2 date' Hn) as (t3 & Hc & Hcount & Hline).
  rewrite Hkey in Hc, Hcount, Hn.
  exists t2, t3. rewrite <- app_assoc in S2. by cbn in S2.
Qed.

Lemma exhausted_budget_third_large_witness :
  exists t t',
    state_after (replicate 20 ["2024-08-01"; "S"; "MR"]
                   ++ replicate 2 ["2024-08-02"; "L"; "LP"]) = Some t
    /\ process_entry ["2024-08-03"; "L"; "LP"] t [] = Some (["2024-08-03 L LP 6.90 -"], t').
Proof.
  assert (state_after (replicate 20 ["2024-08-01"; "S"; "MR"]
                         ++ replicate 2 ["2024-08-02"; "L"; "LP"])
          = Some {["2024-08" := MonthData 2 monthly_limit]}) as Hs
    by (vm_compute; reflexivity).
  destruct (exhausted_budget_third_large
              (replicate 20 ["2024-08-01"; "S"; "MR"] ++ replicate 2 ["2024-08-02"; "L"; "LP"])
              [] "2024-08-03" "2024-08-04" {["2024-08" := MonthData 2 monthly_limit]}
              eq_refl eq_refl Hs eq_refl eq_refl) as (t' & _ & Hl & _).
  exists {["2024-08" := MonthData 2 monthly_limit]}, t'. split; [exact Hs | exact Hl].
Defined.

(* ===================================================================== *)
(** ** Fields and blanks: [split], [strip] and [join] together *)
(* ===================================================================== *)

Lemma string_app_cons (c : ascii) (a b : string) : String c a ++ b = String c (a ++ b).
Proof. reflexivity. Qed.

Lemma string_app_assoc (a b c : string) : (a ++ b) ++ c = a ++ b ++ c.
Proof.
  induction a as [|x a IH]; [done|]. rewrite !string_app_cons. by rewrite IH.
Qed.

Lemma split_from_all_space (s word : string) :
  all_space s = true -> split_from s word = flush word.
Proof.
  revert word. induction s as [|c s IH]; intros word; cbn [all_space split_from].
  - done.
  - intros [Hc Hs]%andb_true_iff. rewrite Hc. unfold flush.
    destruct (String.eqb word ""); rewrite IH by done; reflexivity.
Qed.

(** A whitespace character ends the field that is being read. *)
Lemma split_from_space (s r word : string) (c : ascii) :
  isspace c = true ->
  split_from (s ++ String c r) word = (split_from s word ++ split_from r "")%list.
Proof.
  intros Hc. revert word. induction s as [|a s IH]; intros word.
  - change ("" ++ String c r) with (String c r). cbn [split_from]. rewrite Hc.
    by destruct (String.eqb word "").
  - rewrite string_app_cons. cbn [split_from].
    destruct (isspace a); [|by apply IH].
    destruct (String.eqb word ""); rewrite IH; reflexivity.
Qed.

Lemma split_from_word (s word : string) :
  no_space s = true -> split_from s word = flush (word ++ s).
Proof.
  revert word. induction s as [|c s IH]; intros word; cbn [no_space split_from].
  - intros _. by rewrite string_app_empty.
  - intros [Hc Hs]%andb_true_iff. apply negb_true_iff in Hc. rewrite Hc.
    rewrite IH by done. by rewrite string_app_assoc.
Qed.

Lemma split_lstrip (s : string) : split (lstrip s) = split s.
Proof.
  unfold split. induction s as [|c s IH]; [done|].
  cbn [lstrip]. destruct (isspace c) eqn:Hc; [|reflexivity].
  cbn [split_from]. rewrite Hc. exact IH.
Qed.

Lemma rstrip_empty (s : string) : rstrip s = "" <-> all_space s = true.
Proof.
  induction s as [|c s IH]; [done|]. cbn [rstrip all_space].
  destruct (rstrip s) as [|a r] eqn:E.
  - destruct (isspace c); cbn; [by rewrite <- IH|]. split; discriminate.
  - split; [discriminate|]. intros [_ H]%andb_true_iff. apply IH in H. discriminate.
Qed.

Lemma split_from_rstrip (s word : string) :
  split_from (rstrip s) word = split_from s word.
Proof.
  revert word. induction s as [|c s IH]; intros word; [done|].
  cbn [rstrip]. destruct (rstrip s) as [|a r] eqn:E.
  - apply rstrip_empty in E.
    destruct (isspace c) eqn:Hc.
    + cbn [split_from]. rewrite Hc.
      destruct (String.eqb word ""); by rewrite split_from_all_space.
    + cbn [split_from]. rewrite Hc. by rewrite split_from_all_space.
  - rewrite <- E in IH |- *. cbn [split_from]. destruct (isspace c); [|apply IH].
    destruct (String.eqb word ""); by rewrite IH.
Qed.

Lemma split_strip (s : string) : split (strip s) = split s.
Proof. unfold strip, split. rewrite split_from_rstrip. apply split_lstrip. Qed.

Lemma rstrip_idem (s : string) : rstrip (rstrip s) = rstrip s.
Proof.
  induction s as [|c s IH]; [done|]. cbn [rstrip].
  destruct (rstrip s) as [|a r] eqn:E.
  - destruct (isspace c) eqn:Hc; [done|]. cbn [rstrip]. by rewrite Hc.
  - change (rstrip (String c (String a r))) with
      (match rstrip (String a r) with
       | "" => if isspace c then "" else String c ""
       | r' => String c r'
       end).
    by rewrite IH.
Qed.

Lemma lstrip_head (s : string) :
  lstrip s = "" \/ exists c r, lstrip s = String c r /\ isspace c = false.
Proof.
  induction s as [|c s IH]; [by left|]. cbn [lstrip].
  destruct (isspace c) eqn:Hc; [exact IH|]. right. by exists c, s.
Qed.

Lemma rstrip_head (c : ascii) (s : string) :
  isspace c = false -> exists r, rstrip (String c s) = String c r.
Proof.
  intros Hc. cbn [rstrip]. rewrite Hc. destruct (rstrip s); eauto.
Qed.

Lemma strip_head (s : string) :
  strip s = "" \/ exists c r, strip s = String c r /\ isspace c = false.
Proof.
  unfold strip. destruct (lstrip_head s) as [-> | (c & r & -> & Hc)]; [by left|].
  right. destruct (rstrip_head c r Hc) as [r' ->]. by exists c, r'.
Qed.

Lemma strip_idem (s : string) : strip (strip s) = strip s.
Proof.
  destruct (strip_head s) as [E | (c & r & E & Hc)].
  - by rewrite E.
  - unfold strip at 1. rewrite E. cbn [lstrip]. rewrite Hc. rewrite <- E.
    unfold strip. apply rstrip_idem.
Qed.

(* ===================================================================== *)
(** ** Reading: [read_transactions] and [main] *)
(* ===================================================================== *)

Lemma check_transaction_strip (line : string) :
  check_transaction (strip line) = strip_ignored (check_transaction line).
Proof.
  unfold check_transaction. rewrite split_strip.
  destruct (split line) as [|date [|size [|provider [|? ?]]]]; try reflexivity.
  destruct (strptime_Ymd date); [|reflexivity].
  destruct (decide (size ∈ valid_sizes)) as [Hs|Hs].
  2:{ by rewrite (bool_decide_eq_true_2 (size ∉ valid_sizes)). }
  destruct (decide (provider ∈ valid_providers)) as [Hp|Hp].
  2:{ rewrite (bool_decide_eq_true_2 (provider ∉ valid_providers)) by done.
      by rewrite orb_true_r. }
  rewrite !bool_decide_eq_false_2 by (intros H; by apply H).
  cbn [orb]. unfold strip_ignored.
  by rewrite (priced_not_ignored [date; size; provider])
    by (cbn; by rewrite !bool_decide_eq_true_2).
Qed.

Lemma validate_transactions_strip (lines : list string) :
  validate_transactions (strip <$> lines)
  = strip_ignored <$> validate_transactions lines.
Proof.
  unfold validate_transactions.
  rewrite <- !list_fmap_compose. apply list_fmap_ext.
  intros i line _. apply check_transaction_strip.
Qed.

(** X1: the stripping of [read_transactions] changes no verdict of the
    validator: a stripped line gives the same valid tuple as the line
    itself, and an invalid line stays invalid, marked with its stripped
    text. *)
Theorem validate_after_read (lines : list string) :
  validate_transactions (read_transactions lines)
  = strip_ignored <$> validate_transactions lines
  /\ forall line date size provider,
       check_transaction (strip line) = [date; size; provider]
       <-> check_transaction line = [date; size; provider].
Proof.
  split; [apply validate_transactions_strip|].
  intros line date size provider. rewrite check_transaction_strip. unfold strip_ignored.
  destruct (check_transaction_cases line)
    as [-> | (d & s & p & _ & _ & Hs & Hp & ->)].
  - change (is_ignored (Ignored line)) with true. cbn iota.
    change (strip <$> Ignored line) with (Ignored (strip line)).
    split; discriminate.
  - by rewrite (priced_not_ignored [d; s; p])
      by (cbn; by rewrite !bool_decide_eq_true_2).
Qed.

Lemma process_entry_strip_ignored (e : entry) (t : tracking) acc :
  validated e = true ->
  process_entry (strip_ignored e) t acc = process_entry e t acc.
Proof.
  intros [H | H]%orb_true_iff; unfold strip_ignored.
  - by rewrite (priced_not_ignored _ H).
  - apply ignored_shape_cases in H as [text ->].
    change (is_ignored (Ignored text)) with true. cbn iota.
    change (strip <$> Ignored text) with (Ignored (strip text)).
    unfold process_entry.
    change (is_ignored (Ignored (strip text))) with true.
    change (is_ignored (Ignored text)) with true. cbn iota.
    change (strip <$> Ignored (strip text)) with [strip (strip text); "Ignored"].
    change (strip <$> Ignored text) with [strip text; "Ignored"].
    by rewrite strip_idem.
Qed.

Lemma process_loop_strip_ignored (ts : list entry) (t : tracking) acc :
  forallb validated ts = true ->
  process_loop (strip_ignored <$> ts) t acc = process_loop ts t acc.
Proof.
  revert t acc. induction ts as [|e ts IH]; intros t acc Hv; [done|].
  cbn in Hv. apply andb_true_iff in Hv as [He Hts].
  cbn [fmap list_fmap process_loop]. rewrite process_entry_strip_ignored by done.
  destruct (process_entry e t acc) as [[acc' t']|]; [|done]. cbn. by apply IH.
Qed.

(** X2: reading does not change what is printed: the pipeline gives the
    same lines on the stripped lines as on the lines as they are, so [main]
    prints what the pipeline computes from the unstripped lines of the
    file. *)
Theorem main_prints_pipeline (lines : list string) (stdout : string) :
  pipeline (read_transactions lines) = pipeline lines
  /\ main lines stdout = (fun out => write_output out stdout) <$> pipeline lines.
Proof.
  assert (pipeline (read_transactions lines) = pipeline lines) as H.
  { unfold pipeline, process_transactions. unfold read_transactions. rewrite validate_transactions_strip.
    by rewrite process_loop_strip_ignored by apply validate_transactions_validated. }
  split; [done|]. unfold main. fold (pipeline (read_transactions lines)). rewrite H.
  by destruct (pipeline lines).
Qed.

(* ===================================================================== *)
(** ** [process_transactions] on tuples that were not validated *)
(* ===================================================================== *)

Lemma process_loop_app (ts1 ts2 : list entry) (t : tracking) acc :
  process_loop (ts1 ++ ts2) t acc =
  '(acc', t') ← process_loop ts1 t acc; process_loop ts2 t' acc'.
Proof.
  revert t acc. induction ts1 as [|e ts1 IH]; intros t acc; [done|].
  cbn [app process_loop].
  destruct (process_entry e t acc) as [[acc1 t1]|]; [|done]. cbn. apply IH.
Qed.

Lemma is_ignored_three (date size provider : string) :
  is_ignored [date; size; provider] = String.eqb provider "Ignored".
Proof. reflexivity. Qed.

(** X3: a tuple of three whose provider is no key of [PRICES] (and is not
    the marker Ignored) makes the whole of [process_transactions] fail with
    the [KeyError]: no line is returned, whatever comes before and after
    it. *)
Theorem unknown_provider_aborts (pre post : list entry) (date size provider : string) :
  PRICES !! provider = None ->
  provider <> "Ignored" ->
  process_transactions (pre ++ [date; size; provider] :: post) = None.
Proof.
  intros Hp Hi. unfold process_transactions. rewrite process_loop_app.
  destruct (process_loop pre ∅ []) as [[acc t]|]; [|done].
  cbn [mbind option_bind process_loop]. unfold process_entry.
  rewrite is_ignored_three. apply String.eqb_neq in Hi. rewrite Hi, Hp. done.
Qed.

Lemma unknown_provider_aborts_witness :
  process_transactions
    [["2024-08-09"; "S"; "LP"]; ["2024-08-10"; "S"; "XY"]; ["2024-08-11"; "M"; "MR"]] = None.
Proof.
  assert ("XY" <> "Ignored") as Hi by discriminate.
  exact (unknown_provider_aborts [["2024-08-09"; "S"; "LP"]] [["2024-08-11"; "M"; "MR"]]
           "2024-08-10" "S" "XY" eq_refl Hi).
Defined.

Lemma prices_unknown_size (provider size : string) (prices : gmap string float) :
  PRICES !! provider = Some prices ->
  size <> "S" -> size <> "M" -> size <> "L" ->
  prices !! size = None.
Proof.
  intros Hp HS HM HL.
  destruct (PRICES_lookup _ _ Hp) as [-> | ->];
    [change (PRICES !! "LP") with
       (Some ({[ "S" := literal 150 2; "M" := literal 490 2; "L" := literal 690 2 ]}
              : gmap string float)) in Hp
    |change (PRICES !! "MR") with
       (Some ({[ "S" := literal 200 2; "M" := literal 300 2; "L" := literal 400 2 ]}
              : gmap string float)) in Hp];
    injection Hp as <-;
    rewrite !lookup_insert_ne by done; by rewrite lookup_singleton_ne.
Qed.

(** X4: a tuple of three with a known provider and a size that is none of
    S, M and L is not refused: it is priced 0.00 without discount, by the
    default of [PRICES[provider].get(size, 0.0)], and the tracking map is
    not touched. *)
Theorem unknown_size_priced_zero (date size provider : string) (t : tracking) acc :
  provider = "LP" \/ provider = "MR" ->
  size <> "S" -> size <> "M" -> size <> "L" ->
  calculate_discount size provider (slice_to 7 date) t = Some (zero, zero, t)
  /\ process_entry [date; size; provider] t acc
     = Some (append_line acc (date ++ " " ++ size ++ " " ++ provider ++ " 0.00 -"), t).
Proof.
  intros Hp HS HM HL.
  assert (exists prices, PRICES !! provider = Some prices) as [prices Hprices]
    by (destruct Hp as [-> | ->]; eexists; reflexivity).
  pose proof (prices_unknown_size _ _ _ Hprices HS HM HL) as Hsize.
  assert (calculate_discount size provider (slice_to 7 date) t = Some (zero, zero, t)) as Hc.
  { unfold calculate_discount.
    apply String.eqb_neq in HL, HS. rewrite HL, HS. cbn [andb].
    rewrite Hprices. cbn [mbind option_bind]. by rewrite Hsize. }
  split; [done|]. unfold process_entry. rewrite is_ignored_three.
  assert (String.eqb provider "Ignored" = false) as ->
    by (destruct Hp as [-> | ->]; reflexivity).
  rewrite Hprices. cbn [mbind option_bind]. rewrite Hsize, Hc. reflexivity.
Qed.

Lemma unknown_size_priced_zero_witness :
  process_transactions [["2024-08-09"; "XL"; "MR"]] = Some ["2024-08-09 XL MR 0.00 -"].
Proof.
  assert ("XL" <> "S") as HS by discriminate.
  assert ("XL" <> "M") as HM by discriminate.
  assert ("XL" <> "L") as HL by discriminate.
  destruct (unknown_size_priced_zero "2024-08-09" "XL" "MR" ∅ [] (or_intror eq_refl) HS HM HL)
    as [_ H].
  unfold process_transactions. cbn [process_loop]. rewrite H. reflexivity.
Defined.

Lemma process_entry_length (e : entry) (t : tracking) acc acc' (t' : tracking) :
  process_entry e t acc = Some (acc', t') ->
  length acc' = (if emits e then 1 else 0) + length acc.
Proof.
  unfold process_entry, emits.
  destruct (is_ignored e).
  { intros [= <- <-]. unfold append_line. rewrite length_app. cbn. lia. }
  cbn [orb].
  destruct e as [|date [|size [|provider [|? ?]]]]; try by intros [= <- <-].
  destruct (PRICES !! provider) as [prices|]; [|done]. cbn [mbind option_bind].
  destruct (calculate_discount _ _ _ _) as [[[np gr] t1]|]; [|done].
  cbn [mbind option_bind].
  destruct (_ && _); intros [= <- <-]; unfold append_line; rewrite length_app; cbn; lia.
Qed.

Lemma process_loop_length (ts : list entry) (t : tracking) acc out (t' : tracking) :
  process_loop ts t acc = Some (out, t') ->
  length out = length (List.filter emits ts) + length acc.
Proof.
  revert t acc. induction ts as [|e ts IH]; intros t acc.
  - by intros [= <- <-].
  - cbn [process_loop]. destruct (process_entry e t acc) as [[acc1 t1]|] eqn:E; [|done].
    cbn [mbind option_bind]. intros H. apply IH in H.
    apply process_entry_length in E. cbn [List.filter].
    destruct (emits e); cbn [length]; lia.
Qed.

(** X5: when [process_transactions] succeeds, it returns one line for each
    tuple that is marked Ignored or has three fields, and none for the
    others: a tuple of another length is dropped without a trace, so the
    output is never longer than the input and can be shorter. *)
Theorem output_length (ts : list entry) (out : list string) :
  process_transactions ts = Some out ->
  length out = length (List.filter emits ts) /\ length out <= length ts.
Proof.
  unfold process_transactions.
  destruct (process_loop ts ∅ []) as [[o t]|] eqn:E; [|done].
  intros [= <-]. apply process_loop_length in E. cbn in E.
  split; [lia|]. rewrite E, Nat.add_0_r. apply List.filter_length_le.
Qed.

Lemma output_length_witness :
  process_transactions [["2024-08-09"; "S"; "LP"]; ["2024-08-09"; "S"]]
  = Some ["2024-08-09 S LP 1.50 -"]
  /\ length ["2024-08-09 S LP 1.50 -"] <= 2.
Proof.
  split; [reflexivity|].
  apply (output_length [["2024-08-09"; "S"; "LP"]; ["2024-08-09"; "S"]]
           ["2024-08-09 S LP 1.50 -"] eq_refl).
Defined.

(* ===================================================================== *)
(** ** The records of the months *)
(* ===================================================================== *)

Lemma calc_local_record size provider (r : month_data) price granted o :
  (size = "S" \/ size = "M" \/ size = "L") ->
  (provider = "LP" \/ provider = "MR") ->
  calc_local size provider r = Some (price, granted, o) ->
  is_Some o <-> touches ["": string; size; provider] = true.
Proof.
  intros Hs Hp.
  destruct Hs as [-> | [-> | ->]], Hp as [-> | ->];
    rewrite ?calc_local_S_MR, ?calc_local_L_LP, ?calc_local_quiet by tauto.
  - intros [= <- <- <-]. split; [by intros [? ?] | discriminate].
  - destruct (grant _ _ _ _) as [[? ?] ?]. intros [= <- <- <-]. by split.
  - intros [= <- <- <-]. split; [by intros [? ?] | discriminate].
  - intros [= <- <- <-]. split; [by intros [? ?] | discriminate].
  - destruct (Nat.eqb _ 3); [destruct (grant _ _ _ _) as [[? ?] ?]|];
      intros [= <- <- <-]; by split.
  - intros [= <- <- <-]. split; [by intros [? ?] | discriminate].
Qed.

Lemma charge_domain (e : entry) (t : tracking) o (t' : tracking) :
  validated e = true ->
  charge e t = Some (o, t') ->
  forall k, is_Some (t' !! k)
            <-> is_Some (t !! k) \/ (touches e = true /\ month_key e = k).
Proof.
  intros [H | H]%orb_true_iff Hc k.
  - pose proof (priced_not_ignored _ H) as Hi.
    apply priced_shape_cases in H as (date & size & provider & -> & Hs & Hp).
    unfold charge in Hc. rewrite Hi, calculate_discount_local in Hc.
    destruct (calc_local _ _ _) as [[[p g] r]|] eqn:E; [|done].
    cbn [mbind option_bind] in Hc. injection Hc as <- <-.
    apply calc_local_record in E; [|done..].
    change (touches [date; size; provider]) with (touches [""; size; provider]).
    cbn [month_key]. rewrite <- E. destruct r as [r|]; cbn [commit].
    + rewrite lookup_insert_is_Some. assert (is_Some (Some r)) as Hr by eauto.
      destruct (decide (slice_to 7 date = k)); tauto.
    + split; [by left | intros [? | [[? [=]] _]]; done].
  - apply ignored_shape_cases in H as [text ->]. injection Hc as <- <-.
    split; [by left | by intros [? | [[=] _]]].
Qed.

Lemma charges_domain (ts : list entry) :
  forallb validated ts = true ->
  forall (t : tracking) os (t' : tracking),
  charges ts t = Some (os, t') ->
  forall k, is_Some (t' !! k)
            <-> is_Some (t !! k) \/ exists e, In e ts /\ touches e = true /\ month_key e = k.
Proof.
  induction ts as [|e ts IH]; intros Hv t os t' Hc k.
  - injection Hc as <- <-. split; [by left | by intros [? | (? & [] & _)]].
  - cbn in Hv. apply andb_true_iff in Hv as [He Hts].
    cbn [charges] in Hc. destruct (charge e t) as [[o t1]|] eqn:E; [|done].
    cbn [mbind option_bind] in Hc.
    destruct (charges ts t1) as [[os1 t2]|] eqn:Es; [|done].
    cbn [mbind option_bind] in Hc. injection Hc as <- <-.
    rewrite (IH Hts _ _ _ Es k), (charge_domain _ _ _ _ He E k).
    split.
    + intros [[? | [? ?]] | (e' & ? & ? & ?)]; [by left | right..].
      * exists e. split; [by left | done].
      * exists e'. split; [by right | done].
    + intros [? | (e' & [<- | ?] & ? & ?)]; [by left; left | by left; right |].
      right. by exists e'.
Qed.

(** X6: the record of a month is created lazily. After a run on validated
    transactions, the tracking map has a record for a year-month key exactly
    when some Large LP or Small MR transaction of the run has that key: the
    other transactions and the ignored lines never create one. *)
Theorem month_records_lazy (ts : list entry) :
  forallb validated ts = true ->
  exists t,
    state_after ts = Some t
    /\ forall ym, is_Some (t !! ym)
                  <-> exists e, In e ts /\ touches e = true /\ month_key e = ym.
Proof.
  intros Hv. destruct (process_loop_charges ts Hv ∅ []) as (os & t & Hc & _ & _).
  exists t. split; [by rewrite state_after_charges, Hc|].
  intros ym. rewrite (charges_domain ts Hv _ _ _ Hc ym), lookup_empty.
  split; [by intros [[? [=]] | ?] | by right].
Qed.

Lemma month_records_lazy_witness :
  exists t,
    state_after [["2024-07-01"; "M"; "LP"]; ["2024-08-09"; "S"; "MR"]] = Some t
    /\ is_Some (t !! "2024-08") /\ t !! "2024-07" = None.
Proof.
  destruct (month_records_lazy [["2024-07-01"; "M"; "LP"]; ["2024-08-09"; "S"; "MR"]]
              eq_refl) as (t & Hs & H).
  exists t. split; [exact Hs|]. split.
  - apply H. exists ["2024-08-09"; "S"; "MR"]. split; [right; left; reflexivity|].
    split; reflexivity.
  - destruct (t !! "2024-07") eqn:E; [|reflexivity]. exfalso.
    assert (is_Some (t !! "2024-07")) as Hsome by (rewrite E; eauto).
    apply H in Hsome as (e & [<- | [<- | []]] & Ht & Hk); discriminate.
Defined.

(** X7: after a run on validated transactions, the counter of every
    year-month key is the number of Large LP transactions of the run with
    that key: each of them counts once, whatever the budget, and nothing
    else changes the counter. *)
Theorem counter_counts_large_LP (ts : list entry) (ym : string) :
  forallb validated ts = true ->
  exists t,
    state_after ts = Some t
    /\ L_LP_count (item ym t) = running_count ym ts.
Proof.
  intros Hv. destruct (state_after_facts ts Hv) as (t & Hs & _ & Hc).
  exists t. split; [exact Hs | apply Hc].
Qed.

Lemma counter_counts_large_LP_witness :
  exists t,
    state_after [["2024-08-09"; "L"; "LP"]; ["2024-08-10"; "L"; "MR"];
                 ["2024-09-01"; "L"; "LP"]; ["2024-08-11"; "L"; "LP"]] = Some t
    /\ L_LP_count (item "2024-08" t) = 2.
Proof.
  exact (counter_counts_large_LP
           [["2024-08-09"; "L"; "LP"]; ["2024-08-10"; "L"; "MR"];
            ["2024-09-01"; "L"; "LP"]; ["2024-08-11"; "L"; "LP"]] "2024-08" eq_refl).
Defined.

(* ===================================================================== *)
(** ** Prices and discounts of a run *)
(* ===================================================================== *)

Lemma bounds_facts_hold d : in_budget d = true -> bounds_facts d = true.
Proof. apply (budget_forall bounds_facts). vm_compute. reflexivity. Qed.

Lemma calc_local_bounds size provider (r : month_data) price granted o :
  (size = "S" \/ size = "M" \/ size = "L") ->
  (provider = "LP" \/ provider = "MR") ->
  in_budget (discount r) = true ->
  calc_local size provider r = Some (price, granted, o) ->
  price_bounds (base_price provider size) (price, granted, discount r) = true.
Proof.
  intros Hs Hp Hr.
  pose proof (bounds_facts_hold _ Hr) as F. unfold bounds_facts in F.
  apply andb_true_iff in F as [F FB]. apply andb_true_iff in F as [Fq FA].
  rewrite forallb_forall in Fq.
  pose proof (Fq _ (base_price_listed _ _ Hs Hp)) as Fbase.
  destruct Hs as [-> | [-> | ->]], Hp as [-> | ->];
    rewrite ?calc_local_S_MR, ?calc_local_L_LP, ?calc_local_quiet by tauto;
    try (intros [= <- <- <-]; exact Fbase).
  - clear FA. destruct (grant _ _ _ (discount r)) as [[? ?] ?].
    intros [= <- <- <-]. exact FB.
  - clear FB. destruct (Nat.eqb _ 3).
    + destruct (grant _ _ _ (discount r)) as [[? ?] ?]. intros [= <- <- <-]. exact FA.
    + intros [= <- <- <-]. exact Fbase.
Qed.

(** X8: for every valid transaction that follows validated transactions,
    the price charged plus the discount applied is the base price, to the
    cent; the price is never negative and never above the base price, and
    the discount is never negative and never above the base price. *)
Theorem price_plus_discount (pre : list entry) (date size provider : string) :
  forallb validated pre = true ->
  priced_shape [date; size; provider] = true ->
  exists t new_price discount_amount t',
    state_after pre = Some t
    /\ calculate_discount size provider (slice_to 7 date) t
       = Some (new_price, discount_amount, t')
    /\ (cents new_price + cents discount_amount = cents (base_price provider size))%Z
    /\ (0 <= cents new_price <= cents (base_price provider size))%Z
    /\ (0 <= cents discount_amount <= cents (base_price provider size))%Z
    /\ leb zero new_price = true /\ leb new_price (base_price provider size) = true
    /\ leb zero discount_amount = true
    /\ leb discount_amount (base_price provider size) = true.
Proof.
  intros Hpre Hp.
  destruct (priced_shape_cases _ Hp) as (d & s & p & [= <- <- <-] & Hs & Hpr).
  destruct (state_after_facts pre Hpre) as (t & Hst & Hok & _).
  destruct (calculate_discount_facts size provider (slice_to 7 date) t Hs Hpr Hok)
    as (np & g & t' & Hc & Hf & _).
  exists t, np, g, t'. split; [done|]. split; [done|].
  pose proof Hc as Hc'. rewrite calculate_discount_local in Hc'.
  destruct (calc_local _ _ _) as [[[np' g'] o]|] eqn:E; [|done].
  cbn [mbind option_bind] in Hc'. apply (inj Some) in Hc'.
  apply pair_equal_spec in Hc' as [Hc' _]. apply pair_equal_spec in Hc' as [-> ->].
  apply calc_local_bounds in E; [|done | done | apply Hok].
  unfold price_bounds in E.
  apply andb_true_iff in E as [E B6]. apply andb_true_iff in E as [E B5].
  apply andb_true_iff in E as [E B4]. apply andb_true_iff in E as [E B3].
  apply andb_true_iff in E as [B1%Z.leb_le B2%Z.leb_le].
  destruct Hf as [_ _ _ _ _ Hg _ _ Hprice _ _ _].
  repeat split; try done; lia.
Qed.

Lemma price_plus_discount_witness :
  exists t new_price discount_amount t',
    state_after (replicate 19 ["2024-08-01"; "S"; "MR"] ++ replicate 2 ["2024-08-02"; "L"; "LP"])
    = Some t
    /\ calculate_discount "L" "LP" "2024-08" t = Some (new_price, discount_amount, t')
    /\ (cents new_price + cents discount_amount = 690)%Z.
Proof.
  destruct (price_plus_discount
              (replicate 19 ["2024-08-01"; "S"; "MR"] ++ replicate 2 ["2024-08-02"; "L"; "LP"])
              "2024-08-03" "L" "LP" eq_refl eq_refl)
    as (t & np & g & t' & Hs & Hc & Hsum & _).
  exists t, np, g, t'. split; [exact Hs|]. split; [exact Hc | exact Hsum].
Defined.

Lemma base_price_eqb size provider :
  (size = "S" \/ size = "M" \/ size = "L") ->
  (provider = "LP" \/ provider = "MR") ->
  eqb (base_price provider size) (base_price provider size) = true.
Proof. intros [-> | [-> | ->]] [-> | ->]; reflexivity. Qed.

Lemma used_up_step size provider ym (t : tracking) :
  (size = "S" \/ size = "M" \/ size = "L") ->
  (provider = "LP" \/ provider = "MR") ->
  discount_used ym t = monthly_limit ->
  exists t',
    calculate_discount size provider ym t = Some (base_price provider size, zero, t')
    /\ discount_used ym t' = monthly_limit
    /\ (forall k, ym <> k -> item k t' = item k t).
Proof.
  intros Hs Hp Hd. unfold discount_used in Hd.
  rewrite calculate_discount_local.
  assert (forall o, default (item ym t) o = item ym t \/
                    (exists n, o = Some (MonthData n monthly_limit)) ->
                    discount_used ym (commit ym t o) = monthly_limit) as Hcommit.
  { intros o Ho. unfold discount_used. rewrite item_commit_eq.
    destruct Ho as [-> | [n ->]]; [done | reflexivity]. }
  destruct Hs as [-> | [-> | ->]], Hp as [-> | ->];
    rewrite ?calc_local_S_MR, ?calc_local_L_LP, ?calc_local_quiet by tauto;
    rewrite ?Hd;
    try change (grant (literal 50 2) (literal 200 2) (literal 150 2) monthly_limit)
      with (literal 200 2, zero, monthly_limit);
    try change (grant (literal 690 2) (literal 690 2) zero monthly_limit)
      with (literal 690 2, zero, monthly_limit);
    try (destruct (Nat.eqb _ 3));
    cbn [mbind option_bind]; eexists; (split; [reflexivity|]);
    (split; [apply Hcommit; cbn; eauto | intros k Hk; by apply item_commit_ne]).
Qed.

Lemma charge_other_month (e : entry) (t : tracking) o (t' : tracking) (ym : string) :
  charge e t = Some (o, t') ->
  is_ignored e = true \/ month_key e <> ym ->
  item ym t' = item ym t.
Proof.
  unfold charge. intros Hc [Hi | Hk].
  - rewrite Hi in Hc. by injection Hc as <- <-.
  - destruct (is_ignored e); [by injection Hc as <- <-|].
    destruct e as [|date [|size [|provider [|? ?]]]]; try by injection Hc as <- <-.
    rewrite calculate_discount_local in Hc.
    destruct (calc_local _ _ _) as [[[p g] r]|]; [|done].
    cbn [mbind option_bind] in Hc. injection Hc as <- <-.
    by apply item_commit_ne.
Qed.

Lemma charges_used_up (mid : list entry) (ym : string) :
  forallb validated mid = true ->
  forall t : tracking,
  discount_used ym t = monthly_limit ->
  exists os t',
    charges mid t = Some (os, t')
    /\ discount_used ym t' = monthly_limit
    /\ forall i date size provider,
         mid !! i = Some [date; size; provider] ->
         priced_shape [date; size; provider] = true ->
         slice_to 7 date = ym ->
         os !! i = Some (Some (base_price provider size, zero)).
Proof.
  induction mid as [|e mid IH]; intros Hv t Hd.
  - exists [], t. split; [done|]. split; [done|]. intros i ? ? ? [=].
  - cbn in Hv. apply andb_true_iff in Hv as [He Hmid].
    assert (exists o t1, charge e t = Some (o, t1)
              /\ discount_used ym t1 = monthly_limit
              /\ (forall date size provider,
                    e = [date; size; provider] ->
                    priced_shape [date; size; provider] = true ->
                    slice_to 7 date = ym ->
                    o = Some (base_price provider size, zero)))
      as (o & t1 & Hc & Hd1 & Ho).
    { destruct (process_entry_charge e t [] He) as (o & t1 & Hc & _).
      destruct (decide (priced_shape e = true /\ month_key e = ym)) as [[Hp Hk] | Hn].
      - pose proof (priced_not_ignored _ Hp) as Hi.
        destruct (priced_shape_cases _ Hp) as (d & s & p & -> & Hs & Hpr).
        cbn [month_key] in Hk. subst ym.
        destruct (used_up_step s p (slice_to 7 d) t Hs Hpr Hd) as (t2 & Hcd & Hd2 & _).
        unfold charge in Hc. rewrite Hi, Hcd in Hc. cbn [mbind option_bind] in Hc.
        injection Hc as <- <-.
        eexists _, _. split; [unfold charge; rewrite Hi, Hcd; reflexivity|].
        split; [done|]. by intros ? ? ? [= <- <- <-] _ _.
      - exists o, t1. split; [done|].
        assert (is_ignored e = true \/ month_key e <> ym) as Hor.
        { unfold validated in He. destruct (priced_shape e) eqn:Hp.
          - right. intros Hk. by apply Hn.
          - cbn in He. apply ignored_shape_cases in He as [text ->]. by left. }
        split.
        + unfold discount_used. by rewrite (charge_other_month _ _ _ _ ym Hc Hor).
        + intros ? ? ? -> Hp Hk. exfalso. by apply Hn. }
    destruct (IH Hmid t1 Hd1) as (os & t' & Hcs & Hd' & Hos).
    exists (o :: os), t'. cbn [charges]. rewrite Hc. cbn [mbind option_bind].
    rewrite Hcs. cbn [mbind option_bind]. split; [done|]. split; [done|].
    intros [|i] date size provider Hi Hp Hk; cbn in Hi |- *.
    + injection Hi as ->. f_equal. by apply (Ho date).
    + by apply (Hos i date).
Qed.

(** X9: a used-up budget stays used up. From a tracking map in which the
    discount of a month is 10.00, a run on validated transactions keeps it
    at 10.00, and every valid transaction of that month in the run is
    printed at its base price with a dash: no rule grants anything in that
    month any more. *)
Theorem budget_used_up_stays (mid : list entry) (t : tracking) (ym : string) :
  forallb validated mid = true ->
  discount_used ym t = monthly_limit ->
  exists outs t',
    process_loop mid t [] = Some (outs, t')
    /\ discount_used ym t' = monthly_limit
    /\ forall i date size provider,
         mid !! i = Some [date; size; provider] ->
         priced_shape [date; size; provider] = true ->
         slice_to 7 date = ym ->
         outs !! i = Some (date ++ " " ++ size ++ " " ++ provider ++ " "
                             ++ format_2f (base_price provider size) ++ " -").
Proof.
  intros Hv Hd.
  destruct (charges_used_up mid ym Hv t Hd) as (os & t' & Hc & Hd' & Hos).
  destruct (process_loop_charges mid Hv t []) as (os' & t'' & Hc' & Hlen & Hl).
  rewrite Hc in Hc'. injection Hc' as <- <-.
  exists (zip_with render mid os), t'. split; [exact Hl|]. split; [done|].
  intros i date size provider Hi Hp Hk.
  rewrite lookup_zip_with, Hi. cbn [mbind option_bind].
  pose proof (Hos i date size provider Hi Hp Hk) as Ho.
  unfold outcome in *. rewrite Ho.
  cbn [mbind option_bind render]. f_equal. unfold priced_line.
  destruct (priced_shape_cases _ Hp) as (d & s & p & [= <- <- <-] & Hs & Hpr).
  by rewrite (base_price_eqb size provider Hs Hpr).
Qed.

Lemma budget_used_up_stays_witness :
  exists t outs t',
    state_after (replicate 20 ["2024-08-01"; "S"; "MR"]) = Some t
    /\ process_loop [["2024-08-02"; "S"; "MR"]; ["2024-08-03"; "S"; "MR"]] t []
       = Some (outs, t')
    /\ outs !! 1 = Some "2024-08-03 S MR 2.00 -".
Proof.
  assert (state_after (replicate 20 ["2024-08-01"; "S"; "MR"])
          = Some {["2024-08" := MonthData 0 monthly_limit]}) as Hs
    by (vm_compute; reflexivity).
  assert (discount_used "2024-08" {["2024-08" := MonthData 0 monthly_limit]}
          = monthly_limit) as Hd by (vm_compute; reflexivity).
  destruct (budget_used_up_stays [["2024-08-02"; "S"; "MR"]; ["2024-08-03"; "S"; "MR"]]
              {["2024-08" := MonthData 0 monthly_limit]} "2024-08" eq_refl Hd)
    as (outs & t' & Hl & _ & H).
  exists {["2024-08" := MonthData 0 monthly_limit]}, outs, t'.
  split; [exact Hs|]. split; [exact Hl|].
  exact (H 1 "2024-08-03" "S" "MR" eq_refl eq_refl eq_refl).
Defined.

(* ===================================================================== *)
(** ** Runs on a part of the transactions *)
(* ===================================================================== *)

Lemma select_cons {A} (sel : entry -> bool) e ts (x : A) xs :
  select sel (e :: ts) (x :: xs) = if sel e then x :: select sel ts xs else select sel ts xs.
Proof. unfold select. cbn. by destruct (sel e). Qed.

Lemma select_render (sel : entry -> bool) (ts : list entry) (os : list outcome) :
  length os = length ts ->
  zip_with render (List.filter sel ts) (select sel ts os)
  = select sel ts (zip_with render ts os).
Proof.
  revert os. induction ts as [|e ts IH]; intros [|o os] Hlen; try done.
  cbn [zip_with List.filter]. rewrite !select_cons.
  destruct (sel e); cbn [zip_with]; rewrite IH by (cbn in Hlen; lia); done.
Qed.

Lemma forallb_filter {A} (f sel : A -> bool) (l : list A) :
  forallb f l = true -> forallb f (List.filter sel l) = true.
Proof.
  induction l as [|x l IH]; [done|]. cbn. intros [Hx Hl]%andb_true_iff.
  destruct (sel x); cbn; [rewrite Hx|]; by apply IH.
Qed.

Lemma charge_same_month (e : entry) (t1 t2 : tracking) o (t1' : tracking) :
  item (month_key e) t1 = item (month_key e) t2 ->
  charge e t1 = Some (o, t1') ->
  exists t2', charge e t2 = Some (o, t2')
              /\ item (month_key e) t1' = item (month_key e) t2'.
Proof.
  unfold charge. intros Hitem Hc.
  destruct (is_ignored e); [injection Hc as <- <-; by exists t2|].
  destruct e as [|date [|size [|provider [|? ?]]]];
    try (injection Hc as <- <-; by exists t2).
  cbn [month_key] in Hitem. rewrite calculate_discount_local in Hc |- *.
  rewrite <- Hitem.
  destruct (calc_local _ _ _) as [[[p g] r]|]; [|done].
  cbn [mbind option_bind] in Hc |- *. injection Hc as <- <-.
  eexists. split; [reflexivity|]. cbn [month_key]. by rewrite !item_commit_eq, Hitem.
Qed.

Lemma charges_in_month (ts : list entry) (ym : string) :
  forallb validated ts = true ->
  forall (t1 t2 : tracking) os (t1' : tracking),
  item ym t1 = item ym t2 ->
  charges ts t1 = Some (os, t1') ->
  exists t2',
    charges (List.filter (in_month ym) ts) t2 = Some (select (in_month ym) ts os, t2')
    /\ item ym t1' = item ym t2'.
Proof.
  induction ts as [|e ts IH]; intros Hv t1 t2 os t1' Hitem Hc.
  - injection Hc as <- <-. by exists t2.
  - cbn in Hv. apply andb_true_iff in Hv as [He Hts].
    cbn [charges] in Hc. destruct (charge e t1) as [[o t1a]|] eqn:E; [|done].
    cbn [mbind option_bind] in Hc.
    destruct (charges ts t1a) as [[os1 t1b]|] eqn:Es; [|done].
    cbn [mbind option_bind] in Hc. injection Hc as <- <-.
    cbn [List.filter]. rewrite select_cons.
    destruct (in_month ym e) eqn:Hin.
    + unfold in_month in Hin. apply andb_true_iff in Hin as [Hp Hk%String.eqb_eq].
      subst ym. destruct (charge_same_month e t1 t2 o t1a Hitem E) as (t2a & E2 & Hitem2).
      destruct (IH Hts t1a t2a os1 t1b Hitem2 Es) as (t2' & Hcs & Hitem').
      exists t2'. cbn [charges]. rewrite E2. cbn [mbind option_bind].
      rewrite Hcs. by cbn [mbind option_bind].
    + apply (IH Hts t1a t2 os1 t1b); [|done].
      rewrite (charge_other_month e t1 o t1a ym E); [done|].
      unfold in_month in Hin. unfold validated in He.
      destruct (priced_shape e); cbn in Hin, He.
      * right. by apply String.eqb_neq.
      * left. by apply ignored_shape_cases in He as [text ->].
Qed.

(** X10: the months are priced independently. In a run on validated
    transactions, the lines of the valid transactions of one year-month key
    are the lines that [process_transactions] returns for these
    transactions alone, and the record of that month at the end is the
    same. *)
Theorem month_alone (ts : list entry) (ym : string) :
  forallb validated ts = true ->
  exists out t t_m,
    process_transactions ts = Some out
    /\ process_transactions (List.filter (in_month ym) ts)
       = Some (select (in_month ym) ts out)
    /\ state_after ts = Some t
    /\ state_after (List.filter (in_month ym) ts) = Some t_m
    /\ item ym t_m = item ym t.
Proof.
  intros Hv.
  destruct (process_loop_charges ts Hv ∅ []) as (os & t & Hc & Hlen & Hl).
  destruct (charges_in_month ts ym Hv ∅ ∅ os t eq_refl Hc) as (t_m & Hcm & Hitem).
  pose proof (forallb_filter validated (in_month ym) ts Hv) as Hvm.
  destruct (process_loop_charges _ Hvm ∅ []) as (os' & t'' & Hc' & _ & Hl').
  rewrite Hcm in Hc'. injection Hc' as <- <-.
  exists (zip_with render ts os), t, t_m.
  unfold process_transactions, state_after. rewrite Hl, Hl'. cbn.
  split; [done|]. split; [by rewrite select_render|]. done.
Qed.

Lemma month_alone_witness :
  exists out,
    process_transactions
      [["2024-08-30"; "L"; "LP"]; ["2024-09-01"; "L"; "LP"]; ["2024-08-31"; "S"; "MR"]]
    = Some out
    /\ process_transactions [["2024-08-30"; "L"; "LP"]; ["2024-08-31"; "S"; "MR"]]
       = Some (select (in_month "2024-08")
                 [["2024-08-30"; "L"; "LP"]; ["2024-09-01"; "L"; "LP"];
                  ["2024-08-31"; "S"; "MR"]] out).
Proof.
  destruct (month_alone
              [["2024-08-30"; "L"; "LP"]; ["2024-09-01"; "L"; "LP"]; ["2024-08-31"; "S"; "MR"]]
              "2024-08" eq_refl) as (out & t & t_m & H1 & H2 & _).
  exists out. split; [exact H1 | exact H2].
Defined.

Lemma charges_priced_only (ts : list entry) :
  forallb validated ts = true ->
  forall (t : tracking) os (t' : tracking),
  charges ts t = Some (os, t') ->
  charges (List.filter priced_shape ts) t = Some (select priced_shape ts os, t').
Proof.
  induction ts as [|e ts IH]; intros Hv t os t' Hc.
  - by injection Hc as <- <-.
  - cbn in Hv. apply andb_true_iff in Hv as [He Hts].
    cbn [charges] in Hc. destruct (charge e t) as [[o t1]|] eqn:E; [|done].
    cbn [mbind option_bind] in Hc.
    destruct (charges ts t1) as [[os1 t2]|] eqn:Es; [|done].
    cbn [mbind option_bind] in Hc. injection Hc as <- <-.
    cbn [List.filter]. rewrite select_cons.
    destruct (priced_shape e) eqn:Hp.
    + cbn [charges]. rewrite E. cbn [mbind option_bind].
      rewrite (IH Hts t1 os1 t2 Es). done.
    + unfold validated in He. rewrite Hp in He. cbn in He.
      apply ignored_shape_cases in He as [text ->]. injection E as <- <-.
      by apply IH.
Qed.

(** X11: the ignored lines leave no trace in the pricing. In a run on
    validated entries, the lines of the valid transactions are the lines
    that [process_transactions] returns when the ignored entries are taken
    out of the input, and the tracking map at the end is the same. *)
Theorem ignored_entries_inert (ts : list entry) :
  forallb validated ts = true ->
  exists out t,
    process_transactions ts = Some out
    /\ process_transactions (List.filter priced_shape ts)
       = Some (select priced_shape ts out)
    /\ state_after ts = Some t
    /\ state_after (List.filter priced_shape ts) = Some t.
Proof.
  intros Hv.
  destruct (process_loop_charges ts Hv ∅ []) as (os & t & Hc & Hlen & Hl).
  pose proof (charges_priced_only ts Hv ∅ os t Hc) as Hcp.
  pose proof (forallb_filter validated priced_shape ts Hv) as Hvp.
  destruct (process_loop_charges _ Hvp ∅ []) as (os' & t'' & Hc' & _ & Hl').
  rewrite Hcp in Hc'. injection Hc' as <- <-.
  exists (zip_with render ts os), t.
  unfold process_transactions, state_after. rewrite Hl, Hl'. cbn.
  split; [done|]. split; [by rewrite select_render|]. done.
Qed.

Lemma ignored_entries_inert_witness :
  exists out,
    process_transactions
      [["2024-08-30"; "S"; "MR"]; ["bad line"; "Ignored"]; ["2024-08-31"; "S"; "MR"]]
    = Some out
    /\ process_transactions [["2024-08-30"; "S"; "MR"]; ["2024-08-31"; "S"; "MR"]]
       = Some (select priced_shape
                 [["2024-08-30"; "S"; "MR"]; ["bad line"; "Ignored"];
                  ["2024-08-31"; "S"; "MR"]] out).
Proof.
  destruct (ignored_entries_inert
              [["2024-08-30"; "S"; "MR"]; ["bad line"; "Ignored"]; ["2024-08-31"; "S"; "MR"]]
              eq_refl) as (out & t & H1 & H2 & _).
  exists out. split; [exact H1 | exact H2].
Defined.

(* ===================================================================== *)
(** ** The printed lines, read again *)
(* ===================================================================== *)

Lemma split_from_words (s word : string) :
  no_space word = true ->
  Forall (fun tok => is_word tok = true) (split_from s word).
Proof.
  unfold is_word.
  revert word. induction s as [|c s IH]; intros word Hw; cbn [split_from].
  - destruct (String.eqb word "") eqn:E; repeat constructor. by rewrite E, Hw.
  - destruct (isspace c) eqn:Hc.
    + destruct (String.eqb word "") eqn:E; [by apply IH|].
      constructor; [by rewrite E, Hw | by apply IH].
    + apply IH. rewrite no_space_app, Hw. cbn. by rewrite Hc.
Qed.

Lemma split_words (s : string) : Forall (fun tok => is_word tok = true) (split s).
Proof. by apply split_from_words. Qed.

Lemma split_word (w : string) : is_word w = true -> split w = [w].
Proof.
  unfold is_word, split. intros [Hn Hs]%andb_true_iff.
  rewrite split_from_word by done. unfold flush.
  change ("" ++ w) with w. by apply negb_true_iff in Hn as ->.
Qed.

(** [split] undoes [" ".join] on fields. *)
Lemma split_join_words (ws : list string) :
  Forall (fun w => is_word w = true) ws -> split (join " " ws) = ws.
Proof.
  induction ws as [|w ws IH]; [done|].
  intros [Hw Hws]%Forall_cons. destruct ws as [|w2 ws].
  - by apply split_word.
  - change (join " " (w :: w2 :: ws)) with (w ++ String " " (join " " (w2 :: ws))).
    unfold split. rewrite split_from_space by done.
    fold (split w). fold (split (join " " (w2 :: ws))).
    rewrite split_word, IH by done. done.
Qed.

Lemma is_digit_not_space (c : ascii) : is_digit c = true -> isspace c = false.
Proof.
  intros H. apply is_digit_listed in H. unfold digit_chars in H. cbn in H.
  repeat (destruct H as [<- | H]; [reflexivity|]). done.
Qed.

Lemma frac2_no_space (s : string) : frac2 s = true -> no_space s = true.
Proof.
  destruct s as [|p [|a [|b [|? ?]]]]; try discriminate. cbn [frac2].
  intros [[Hp Ha]%andb_true_iff Hb]%andb_true_iff.
  apply is_char_eq in Hp as ->. cbn [no_space].
  by rewrite (is_digit_not_space a), (is_digit_not_space b).
Qed.

Lemma digits_frac2_no_space (s : string) : digits_frac2 s = true -> no_space s = true.
Proof.
  induction s as [|c s IH]; [discriminate|]. cbn [digits_frac2 no_space].
  intros [Hc [H | H]%orb_true_iff]%andb_true_iff;
    rewrite (is_digit_not_space c Hc); cbn; [by apply frac2_no_space | by apply IH].
Qed.

Lemma two_decimals_word (s : string) : two_decimals s = true -> is_word s = true.
Proof.
  unfold two_decimals, is_word. destruct s as [|c s]; [discriminate|].
  cbn [String.eqb negb andb].
  destruct (is_char "-" c) eqn:E.
  - apply is_char_eq in E as ->. intros H%digits_frac2_no_space. cbn [no_space]. by rewrite H.
  - apply digits_frac2_no_space.
Qed.

Lemma priced_line_fields base d date size provider new_price granted d' :
  step_facts base d new_price granted d' ->
  priced_line date size provider base new_price granted
  = join " " [date; size; provider; format_2f new_price;
              if eqb granted zero then "-" else format_2f granted].
Proof.
  intros [_ _ _ _ _ _ _ Hz _ _ _ He]. unfold priced_line.
  destruct (eqb granted zero) eqn:Eg.
  - rewrite (Hz eq_refl) in *. rewrite He. reflexivity.
  - rewrite andb_false_r. reflexivity.
Qed.

(** The line of a valid input line, in the state in which the pipeline
    reaches it. *)
Lemma pipeline_valid_step (raw : list string) i line date size provider :
  raw !! i = Some line ->
  check_transaction line = [date; size; provider] ->
  exists out t new_price granted t',
    pipeline raw = Some out
    /\ out !! i = Some (join " " [date; size; provider; format_2f new_price;
                                  if eqb granted zero then "-" else format_2f granted])
    /\ state_after (take i (validate_transactions raw)) = Some t
    /\ tracking_ok t
    /\ calculate_discount size provider (slice_to 7 date) t = Some (new_price, granted, t')
    /\ finite new_price = true /\ finite granted = true
    /\ Forall (fun w => is_word w = true) [date; size; provider]
    /\ (size = "S" \/ size = "M" \/ size = "L")
    /\ (provider = "LP" \/ provider = "MR").
Proof.
  intros Hi Hc.
  destruct (pipeline_render raw) as (os & t & Hcs & Hlen & Hp).
  assert (validate_transactions raw !! i = Some [date; size; provider]) as Hv.
  { unfold validate_transactions. by rewrite list_lookup_fmap, Hi, <- Hc. }
  destruct (charges_lookup _ _ _ _ _ _ Hcs Hv) as (os_i & ti & o & ti' & Hpre & Hch & Ho).
  destruct (check_transaction_cases line)
    as [E | (d & s & p & Hsplit & _ & Hs & Hpr & E)]; rewrite E in Hc; [discriminate|].
  injection Hc as -> -> ->.
  assert (priced_shape [date; size; provider] = true) as Hshape
    by (cbn; by rewrite !bool_decide_eq_true_2).
  apply charge_priced in Hch as (np & g & -> & Hcd); [|done].
  assert (forallb validated (take i (validate_transactions raw)) = true) as Hvt
    by apply forallb_take, validate_transactions_validated.
  assert (tracking_ok ti) as Hok
    by (by destruct (charges_facts _ Hvt ∅ os_i ti tracking_ok_empty Hpre) as [? _]).
  destruct (calculate_discount_facts size provider (slice_to 7 date) ti
              (valid_sizes_cases _ Hs) (valid_providers_cases _ Hpr) Hok)
    as (np' & g' & t' & Hcd' & Hf & _).
  pose proof Hcd as Hcd0.
  rewrite Hcd in Hcd'. apply (inj Some) in Hcd'.
  apply pair_equal_spec in Hcd' as [Hcd' _]. apply pair_equal_spec in Hcd' as [<- <-].
  exists (zip_with render (validate_transactions raw) os), ti, np, g, ti'.
  split; [done|]. split.
  { rewrite lookup_zip_with, Hv. cbn [mbind option_bind].
    unfold outcome in *. rewrite Ho. cbn [mbind option_bind render]. f_equal.
    by apply (priced_line_fields _ _ _ _ _ _ _ _ Hf). }
  split; [by rewrite state_after_charges, Hpre|].
  split; [exact Hok|]. split; [exact Hcd0|].
  destruct Hf as [_ _ _ _ _ _ _ _ _ Hfp Hfg _]. split; [exact Hfp|]. split; [exact Hfg|].
  split; [|split; [by apply valid_sizes_cases | by apply valid_providers_cases]].
  pose proof (split_words line) as Hw. by rewrite Hsplit in Hw.
Qed.

Lemma pipeline_valid_line (raw : list string) i line date size provider :
  raw !! i = Some line ->
  check_transaction line = [date; size; provider] ->
  exists out new_price granted,
    pipeline raw = Some out
    /\ out !! i = Some (join " " [date; size; provider; format_2f new_price;
                                  if eqb granted zero then "-" else format_2f granted])
    /\ finite new_price = true /\ finite granted = true
    /\ Forall (fun w => is_word w = true) [date; size; provider].
Proof.
  intros Hi Hc.
  destruct (pipeline_valid_step raw i line date size provider Hi Hc)
    as (out & t & np & g & t' & Hp & Ho & _ & _ & _ & Hnp & Hg & Hw & _).
  by exists out, np, g.
Qed.

(** X12: a printed line of a valid transaction can be read again: split on
    whitespace, it gives five fields, the date, the size and the provider
    of the transaction as validated, then the text of the price that
    [calculate_discount] returns in the state that the run has reached,
    with two decimal places, and a dash when the discount is zero or else
    the text of that discount, with two decimal places; the two amounts
    add up to the listed price. *)
Theorem priced_line_splits (raw : list string) i line date size provider :
  raw !! i = Some line ->
  check_transaction line = [date; size; provider] ->
  exists out l t new_price discount_amount t' price_text discount_text,
    pipeline raw = Some out
    /\ out !! i = Some l
    /\ state_after (take i (validate_transactions raw)) = Some t
    /\ calculate_discount size provider (slice_to 7 date) t
       = Some (new_price, discount_amount, t')
    /\ split l = [date; size; provider; price_text; discount_text]
    /\ two_decimals price_text = true
    /\ amount_of_text price_text = Some (cents new_price)
    /\ (if eqb discount_amount zero then discount_text = "-"
        else two_decimals discount_text = true
             /\ amount_of_text discount_text = Some (cents discount_amount))
    /\ amount_of_text (listed_price provider size)
       = Some (cents new_price + cents discount_amount)%Z.
Proof.
  intros Hi Hc.
  destruct (pipeline_valid_step raw i line date size provider Hi Hc)
    as (out & t & np & g & t' & Hp & Ho & Hst & Hok & Hcd & Hnp & Hg & Hw & Hsz & Hpr).
  destruct (calculate_discount_shown size provider _ t np g t' Hsz Hpr Hok Hcd)
    as (Anp & Ag & Asum & _).
  eexists out, _, t, np, g, t', (format_2f np), (if eqb g zero then "-" else format_2f g).
  split; [done|]. split; [exact Ho|]. split; [exact Hst|]. split; [exact Hcd|].
  apply format_2f_two_decimals in Hnp, Hg.
  split; [|split; [done|]; split; [done|]; split; [by destruct (eqb g zero) | done]].
  apply split_join_words.
  apply Forall_cons in Hw as [Hd Hw]. apply Forall_cons in Hw as [Hs Hw].
  apply Forall_cons in Hw as [Hpr' _].
  repeat (constructor; [done|]). constructor; [by apply two_decimals_word|].
  constructor; [|constructor].
  destruct (eqb g zero); [reflexivity | by apply two_decimals_word].
Qed.

Lemma priced_line_splits_witness :
  exists out l,
    pipeline ["bad line"; "  2024-08-09   S  MR"] = Some out
    /\ out !! 1 = Some l
    /\ split l = ["2024-08-09"; "S"; "MR"; "1.50"; "0.50"].
Proof.
  destruct (priced_line_splits ["bad line"; "  2024-08-09   S  MR"] 1
              "  2024-08-09   S  MR" "2024-08-09" "S" "MR" eq_refl eq_refl)
    as (out & l & t & np & g & t' & pt & dt & Hp & Ho & Hst & Hcd & Hsplit & _).
  exists out, l. split; [exact Hp|]. split; [exact Ho|].
  pose proof Hp as Hp'. vm_compute in Hp'. apply (inj Some) in Hp'.
  rewrite <- Hp' in Ho. vm_compute in Ho. apply (inj Some) in Ho.
  rewrite <- Ho. vm_compute. reflexivity.
Defined.

Lemma check_transaction_marked (toks : list string) (l : string) :
  split l = (toks ++ ["Ignored"])%list -> check_transaction l = Ignored l.
Proof.
  intros Hs. unfold check_transaction. rewrite Hs.
  destruct toks as [|a [|b [|c [|? ?]]]]; try reflexivity.
  cbn [app]. destruct (strptime_Ymd a); [|reflexivity].
  change (bool_decide ("Ignored" ∉ valid_providers)) with true.
  by rewrite orb_true_r.
Qed.

Lemma check_transaction_marked_five (a b c d e l : string) :
  split l = [a; b; c; d; e] -> check_transaction l = Ignored l.
Proof. intros Hs. unfold check_transaction. by rewrite Hs. Qed.

(** X13: no line that the pipeline prints is a valid input line: given to
    the validator again, every output line is marked Ignored. *)
Theorem output_lines_invalid (raw : list string) (out : list string) (l : string) :
  pipeline raw = Some out ->
  In l out ->
  check_transaction l = Ignored l.
Proof.
  intros Hp Hl. apply list_elem_of_In, list_elem_of_lookup in Hl as [i Hi].
  assert (is_Some (raw !! i)) as [line Hline].
  { apply lookup_lt_is_Some. apply lookup_lt_Some in Hi.
    destruct (pipeline_render raw) as (os & t & _ & Hlen & Hp').
    rewrite Hp in Hp'. injection Hp' as ->. rewrite length_zip_with in Hi.
    unfold validate_transactions in Hi. rewrite length_fmap in Hi. lia. }
  destruct (check_transaction_cases line)
    as [Hc | (date & size & provider & _ & _ & _ & _ & Hc)].
  - destruct (pipeline_line raw i line Hline) as (out' & o & Hp' & _ & Ho).
    rewrite Hp in Hp'. injection Hp' as <-. rewrite Hi in Ho. injection Ho as ->.
    rewrite Hc, render_Ignored.
    apply (check_transaction_marked (split line)).
    change (strip line ++ " Ignored") with (strip line ++ String " " "Ignored").
    unfold split. rewrite split_from_space by done.
    fold (split (strip line)). by rewrite split_strip.
  - destruct (pipeline_valid_line raw i line date size provider Hline Hc)
      as (out' & np & g & Hp' & Ho & Hnp & Hg & Hw).
    rewrite Hp in Hp'. injection Hp' as <-. rewrite Hi in Ho. injection Ho as ->.
    apply format_2f_two_decimals, two_decimals_word in Hnp.
    apply format_2f_two_decimals, two_decimals_word in Hg.
    apply (check_transaction_marked_five date size provider (format_2f np)
             (if eqb g zero then "-" else format_2f g)).
    apply (split_join_words [date; size; provider; format_2f np;
                             if eqb g zero then "-" else format_2f g]).
    apply Forall_cons in Hw as [Hd Hw]. apply Forall_cons in Hw as [Hs Hw].
    apply Forall_cons in Hw as [Hpr _].
    repeat (constructor; [done|]). constructor; [|constructor].
    by destruct (eqb g zero).
Qed.

Lemma output_lines_invalid_witness :
  check_transaction "2024-08-09 S MR 1.50 0.50" = Ignored "2024-08-09 S MR 1.50 0.50".
Proof.
  apply (output_lines_invalid ["2024-08-09 S MR"] ["2024-08-09 S MR 1.50 0.50"]).
  - vm_compute. reflexivity.
  - left. reflexivity.
Defined.

(* ===================================================================== *)
(** ** The text on the console *)
(* ===================================================================== *)

Lemma write_output_join (output : list string) (stdout : string) :
  write_output output stdout
  = stdout ++ (if output is [] then "" else join newline output ++ newline).
Proof.
  unfold write_output. revert stdout.
  induction output as [|l output IH]; intros stdout; cbn [foldl].
  - by rewrite string_app_empty.
  - rewrite IH. unfold print. rewrite string_app_assoc. f_equal.
    destruct output as [|l2 output].
    + by rewrite string_app_empty.
    + change (join newline (l :: l2 :: output))
        with (l ++ newline ++ join newline (l2 :: output)).
      by rewrite !string_app_assoc.
Qed.

Lemma lstrip_all_space (s : string) : all_space s = true -> lstrip s = "".
Proof.
  induction s as [|c s IH]; [done|]. cbn [all_space lstrip].
  intros [Hc Hs]%andb_true_iff. rewrite Hc. by apply IH.
Qed.

Lemma lstrip_app (s r : string) :
  lstrip (s ++ r) = if all_space s then lstrip r else lstrip s ++ r.
Proof.
  induction s as [|c s IH]; [done|].
  rewrite string_app_cons. cbn [lstrip all_space].
  destruct (isspace c); [exact IH | by rewrite string_app_cons].
Qed.

Lemma rstrip_app_space (s r : string) : all_space r = true -> rstrip (s ++ r) = rstrip s.
Proof.
  intros Hr. induction s as [|c s IH].
  - change ("" ++ r) with r. by apply rstrip_empty.
  - rewrite string_app_cons. cbn [rstrip]. by rewrite IH.
Qed.

Lemma strip_app_space (s r : string) : all_space r = true -> strip (s ++ r) = strip s.
Proof.
  intros Hr. unfold strip. rewrite lstrip_app.
  destruct (all_space s) eqn:Hs.
  - by rewrite !lstrip_all_space.
  - by apply rstrip_app_space.
Qed.

(** X14: [write_output] only adds to the console, the lines in order, each
    followed by a newline. Stripped, the text printed on an empty console
    is the stripped join of the lines by newlines: the comparison of
    test_write_output holds for exactly the outputs whose join begins and
    ends with no whitespace. *)
Theorem write_output_stripped (output : list string) (stdout : string) :
  write_output output stdout = stdout ++ write_output output ""
  /\ strip (write_output output "") = strip (join newline output)
  /\ (strip (write_output output "") = join newline output
      <-> strip (join newline output) = join newline output).
Proof.
  assert (strip (write_output output "") = strip (join newline output)) as H.
  { rewrite write_output_join. change ("" ++ ?x) with x.
    destruct output as [|l output]; [done|]. by apply strip_app_space. }
  split; [|split; [exact H | by rewrite H]].
  by rewrite (write_output_join output stdout), (write_output_join output "").
Qed.

(* ===================================================================== *)
(** ** The lines that the validator accepts *)
(* ===================================================================== *)

(** X15: [check_transaction] returns either the marked line or a tuple,
    and the tuple exactly for a line of three fields between whitespace of
    which [strptime] reads the first as a date of the calendar, the second
    is a size and the third a provider. Every such line whose first field
    is four digits 0-9, a dash, one or two digits, a dash, one or two
    digits that are a date of the calendar is accepted, with or without
    leading zeros, and the month that [process_transactions] files it
    under is its first seven characters: the year, a dash, and the first
    two characters of what follows. *)
Theorem accepted_lines (line : string) :
  (check_transaction line = Ignored line
   \/ exists date size provider, check_transaction line = [date; size; provider])
  /\ (forall date size provider,
        check_transaction line = [date; size; provider]
        <-> split line = [date; size; provider]
            /\ (exists y m d,
                  strptime_Ymd date = Some (y, m, d) /\ check_date_fields y m d = true)
            /\ size ∈ valid_sizes /\ provider ∈ valid_providers)
  /\ (forall Y M D size provider,
        split line = [Y ++ "-" ++ M ++ "-" ++ D; size; provider] ->
        four_digits Y = true -> one_or_two_digits M = true -> one_or_two_digits D = true ->
        check_date_fields (int Y) (int M) (int D) = true ->
        size ∈ valid_sizes -> provider ∈ valid_providers ->
        check_transaction line = [Y ++ "-" ++ M ++ "-" ++ D; size; provider]
        /\ month_key [Y ++ "-" ++ M ++ "-" ++ D; size; provider]
           = Y ++ "-" ++ substring 0 2 (M ++ "-")).
Proof.
  split; [|split].
  - destruct (check_transaction_cases line) as [H | (d & s & p & _ & _ & _ & _ & H)];
      [by left | right; by exists d, s, p].
  - intros date size provider. split.
    + intros H. apply check_transaction_accepts in H
        as [(d & s & p & [= <- <- <-] & Hsplit & [[[y m] dd] Hd] & Hs & Hp) | [[=] _]].
      split; [done|]. split; [|done]. exists y, m, dd. split; [done|].
      by apply strptime_Ymd_inv in Hd as (_ & _ & _ & _ & _ & _ & _ & _ & _ & _ & F).
    + intros (Hsplit & (y & m & d & Hd & _) & Hs & Hp).
      destruct (check_transaction_accepts line _ eq_refl)
        as [(d' & s' & p' & -> & Hsplit' & _) | [_ Hno]].
      * by rewrite <- Hsplit, Hsplit'.
      * destruct Hno. exists date, size, provider. by rewrite Hd.
  - intros Y M D size provider Hsplit HY HM HD F Hs Hp. split.
    + apply check_transaction_valid_iff. split; [done|]. split; [|done]. by exists Y, M, D.
    + destruct Y as [|y1 [|y2 [|y3 [|y4 [|? ?]]]]]; try discriminate.
      destruct M as [|m1 [|m2 [|? ?]]]; try discriminate;
        destruct D as [|d1 ?]; try discriminate; reflexivity.
Qed.

Lemma accepted_lines_witness :
  check_transaction "2024-8-9 S LP" = ["2024-8-9"; "S"; "LP"]
  /\ month_key ["2024-8-9"; "S"; "LP"] = "2024-8-".
Proof.
  destruct (accepted_lines "2024-8-9 S LP") as (_ & _ & H).
  apply (H "2024" "8" "9" "S" "LP"); reflexivity.
Defined.
